(** * react-generic-select: GenericMultiSelect and GenericSingleSelect

    A shallow embedding of the two React components of the repository
    (src/components/GenericMultiSelect/GenericMultiSelect.tsx and the
    single-select component) together with the properties of their
    selection logic, local filtering and infinite-scroll wiring.

    Modelling conventions.
    - A JavaScript value that can sit in an option field is a [JsVal]:
      undefined, null, a boolean, an integer number or a string.  NaN,
      fractional numbers and object-valued fields are outside the model, so
      strict equality [===] is decidable Leibniz equality on [JsVal].
    - An option (a [Record<string, any>]) is a finite map from field names
      to values; reading an absent field gives undefined.
    - Strings are sequences of Latin-1 code points (one [ascii] each).
    - Props of type [boolean | undefined] are [option bool]; a callback prop
      is [option nat], the number standing for the identity of the function
      (React compares dependencies with Object.is).
    - Calls of caller-supplied callbacks are appended to a log.
    - A component is a state machine over events (new props, user input,
      timers firing, scroll and wheel events, unmount).  An event that sets
      state is followed by a render: refs are attached, then the effects
      whose dependencies changed run in hook order, and a state set inside
      an effect renders once more.  Timers are explicit: a pending timer
      fires as an event of its own, so the 10ms and 300ms delays appear as
      the order of events only.
    - The list element inside the popover is mounted exactly while the
      popover is open, and scroll and wheel events reach the mounted
      element only. *)

From Stdlib Require Import ZArith Lia Bool List Ascii String DecimalString.
From stdpp Require Import base option list gmap strings.
Import ListNotations.

Local Open Scope string_scope.
Local Open Scope Z_scope.
Local Open Scope list_scope.

(** ** JavaScript values and option records *)

Inductive JsVal : Type :=
| JUndefined
| JNull
| JBool (b : bool)
| JNum (n : Z)
| JStr (s : string).

(** [a === b] *)
Definition strict_eq (a b : JsVal) : bool :=
  match a, b with
  | JUndefined, JUndefined => true
  | JNull, JNull => true
  | JBool x, JBool y => Bool.eqb x y
  | JNum x, JNum y => Z.eqb x y
  | JStr x, JStr y => String.eqb x y
  | _, _ => false
  end.

#[global] Instance JsVal_eq_dec : EqDecision JsVal.
Proof. solve_decision. Defined.

(** An option object: field name to value. *)
Abbreviation Obj := (gmap string JsVal).

(** [o[k]] *)
Definition get (o : Obj) (k : string) : JsVal :=
  match o !! k with
  | Some v => v
  | None => JUndefined
  end.

(** Callbacks invoked by the components, in call order. *)
Inductive Call : Type :=
| CallValueChange (keys : list JsVal)      (* MultiSelect onValueChange *)
| CallSetAlternative (opts : list Obj)     (* MultiSelect setAlternativeValue *)
| CallValueChange1 (v : JsVal)             (* SingleSelect onValueChange *)
| CallSearchChange (cb : nat) (term : string)
| CallLoadMore (cb : nat).

(** [Array.prototype.slice(0, e)] for an integer [e]. *)
Definition slice0 {A} (l : list A) (e : Z) : list A :=
  let len := Z.of_nat (length l) in
  let k := if e <? 0 then Z.max (len + e) 0 else Z.min e len in
  firstn (Z.to_nat k) l.

(** ** Strings: the [String.prototype] methods the filter uses *)

(** [toLowerCase] on one Latin-1 code point: A-Z and the accented capitals
    U+00C0..U+00DE (U+00D7, the multiplication sign, apart) move up by 32. *)
Definition lower_char (c : ascii) : ascii :=
  let n := N_of_ascii c in
  if ((65 <=? n) && (n <=? 90) ||
      (192 <=? n) && (n <=? 222) && negb (n =? 215))%N
  then ascii_of_N (n + 32)
  else c.

Fixpoint toLowerCase (s : string) : string :=
  match s with
  | EmptyString => EmptyString
  | String c s' => String (lower_char c) (toLowerCase s')
  end.

(** White space and line terminators in the Latin-1 range: TAB, LF, VT, FF,
    CR, SPACE and NBSP. *)
Definition is_ws (c : ascii) : bool :=
  let n := N_of_ascii c in
  ((9 <=? n) && (n <=? 13) || (n =? 32) || (n =? 160))%N.

Fixpoint trimStart (s : string) : string :=
  match s with
  | EmptyString => EmptyString
  | String c s' => if is_ws c then trimStart s' else s
  end.

Fixpoint trimEnd (s : string) : string :=
  match s with
  | EmptyString => EmptyString
  | String c s' =>
      match trimEnd s' with
      | EmptyString => if is_ws c then EmptyString else String c EmptyString
      | r => String c r
      end
  end.

Definition trim (s : string) : string := trimEnd (trimStart s).

(** [s.startsWith(t)] *)
Fixpoint startsWith (s t : string) {struct t} : bool :=
  match t, s with
  | EmptyString, _ => true
  | String a t', String b s' => Ascii.eqb a b && startsWith s' t'
  | String _ _, EmptyString => false
  end.

(** [s.includes(t)] *)
Fixpoint includes (s t : string) : bool :=
  startsWith s t ||
  match s with
  | EmptyString => false
  | String _ s' => includes s' t
  end.

(** A string is falsy exactly when it is empty. *)
Definition truthy_str (s : string) : bool :=
  match s with EmptyString => false | _ => true end.

(** [String(v)]; a number is an integer printed in decimal. *)
Definition toString (v : JsVal) : string :=
  match v with
  | JUndefined => "undefined"
  | JNull => "null"
  | JBool true => "true"
  | JBool false => "false"
  | JNum n => NilZero.string_of_int (Z.to_int n)
  | JStr s => s
  end.

(** [v ?? d] *)
Definition nullish (v d : JsVal) : JsVal :=
  match v with
  | JUndefined | JNull => d
  | _ => v
  end.

(** Truthiness of an optional callback prop. *)
Definition is_Some_bool {A} (o : option A) : bool :=
  match o with Some _ => true | None => false end.

(** Truthiness of a [boolean | undefined] prop. *)
Definition truthy (b : option bool) : bool :=
  match b with Some true => true | _ => false end.

(** ** The list container and its listeners *)

(** The scroll metrics of the list element. *)
Record Elem : Type := {
  scrollTop : Z;
  scrollHeight : Z;
  clientHeight : Z
}.

(** Assigning [scrollTop] clamps to the scrollable range. *)
Definition setScrollTop (e : Elem) (v : Z) : Elem :=
  {| scrollTop := Z.max 0 (Z.min v (scrollHeight e - clientHeight e));
     scrollHeight := scrollHeight e;
     clientHeight := clientHeight e |}.

(** [scrollTop + clientHeight >= scrollHeight - 5] *)
Definition atBottom (e : Elem) : bool :=
  scrollHeight e - 5 <=? scrollTop e + clientHeight e.

(** What the closures created by one run of the infinite-scroll effect
    capture: the props of the render the effect belongs to.  [onLoadMore]
    is a function here, the timer callback having returned otherwise. *)
Record Closure : Type := {
  c_hasNextPage : option bool;
  c_isLoading : option bool;
  c_onLoadMore : nat
}.

Inductive ListenerKind : Type := OnScroll | OnWheel.

(** One [addEventListener] registration: the element, the event type and
    the closure of the handler. *)
Record Listener : Type := {
  l_target : nat;
  l_kind : ListenerKind;
  l_fn : nat;            (* identity of the function object *)
  l_env : Closure
}.

Definition kind_eqb (a b : ListenerKind) : bool :=
  match a, b with
  | OnScroll, OnScroll | OnWheel, OnWheel => true
  | _, _ => false
  end.

(** The listeners an event of kind [k] on element [target] runs, in
    registration order. *)
Definition listenersOn (target : nat) (k : ListenerKind) (ls : list Listener)
  : list Listener :=
  List.filter (fun l => Nat.eqb (l_target l) target && kind_eqb (l_kind l) k) ls.

(** [removeEventListener(type, fn)] on element [target]. *)
Definition removeListener (target : nat) (k : ListenerKind) (fn : nat)
    (ls : list Listener) : list Listener :=
  List.filter
    (fun l => negb (Nat.eqb (l_target l) target && kind_eqb (l_kind l) k &&
                    Nat.eqb (l_fn l) fn)) ls.

Definition zeroElem : Elem :=
  {| scrollTop := 0; scrollHeight := 0; clientHeight := 0 |}.

(** Has a dependency changed since the previous commit (Object.is)?  Before
    the first commit every effect runs. *)
Definition differs {D A : Type} `{EqDecision A} (prev : option D) (cur : D)
    (f : D -> A) : bool :=
  match prev with
  | None => true
  | Some d => negb (bool_decide (f d = f cur))
  end.

(** The same for an effect that is not run by the first commit. *)
Definition differsAfterMount {D A : Type} `{EqDecision A} (prev : option D)
    (cur : D) (f : D -> A) : bool :=
  match prev with
  | None => false
  | Some d => negb (bool_decide (f d = f cur))
  end.

(** Run [f] when [c] holds. *)
Definition when {S : Type} (c : bool) (f : S -> S) (s : S) : S :=
  if c then f s else s.

(** [handleScroll], the same text in both components.  [ref] is
    [isFetchingNextPageRef.current], read when the handler runs. *)
Definition handleScroll (cl : Closure) (ref : option bool) (e : Elem)
  : list Call :=
  if negb (truthy (c_hasNextPage cl)) || truthy ref then []
  else if atBottom e && negb (truthy (c_isLoading cl)) && negb (truthy ref)
       then [CallLoadMore (c_onLoadMore cl)]
       else [].

(** Counting calls in a log. *)
Definition isLoadMore (c : Call) : bool :=
  match c with CallLoadMore _ => true | _ => false end.

Definition isSearchChange (c : Call) : bool :=
  match c with CallSearchChange _ _ => true | _ => false end.

Definition loadMoreCalls (cs : list Call) : nat :=
  length (List.filter isLoadMore cs).

Definition searchChangeCalls (cs : list Call) : nat :=
  length (List.filter isSearchChange cs).

(** ** MultiSelect *)

(** *** The selection handlers *)

Module Multi.

Section Handlers.
(** The props the handlers close over. *)
Variable options : list Obj.
Variable valueKey : string.
Variable maxCount : Z.
(** [setAlternativeValue] is optional. *)
Variable hasSetAlternativeValue : bool.

Definition keysOf (l : list Obj) : list JsVal :=
  map (fun o => get o valueKey) l.

(** [onValueChange(v); setAlternativeValue?.(sel)] *)
Definition report (sel : list Obj) : list Call :=
  CallValueChange (keysOf sel) ::
  (if hasSetAlternativeValue then [CallSetAlternative sel] else []).

(** The [newSelected] of [toggleOption]. *)
Definition toggled (selectedOptions : list Obj) (option : Obj) : list Obj :=
  if existsb (fun o => strict_eq (get o valueKey) (get option valueKey))
       selectedOptions
  then List.filter
         (fun o => negb (strict_eq (get o valueKey) (get option valueKey)))
         selectedOptions
  else selectedOptions ++ [option].

(** Each handler returns the new [selectedOptions] and the calls made. *)
Definition toggleOption (selectedOptions : list Obj) (option : Obj)
  : list Obj * list Call :=
  let newSelected := toggled selectedOptions option in
  (newSelected, report newSelected).

Definition handleClear (selectedOptions : list Obj) : list Obj * list Call :=
  ([], CallValueChange [] ::
       (if hasSetAlternativeValue then [CallSetAlternative []] else [])).

Definition clearExtraOptions (selectedOptions : list Obj)
  : list Obj * list Call :=
  let newSelected := slice0 selectedOptions maxCount in
  (newSelected, report newSelected).

Definition toggleAll (selectedOptions : list Obj) : list Obj * list Call :=
  if Nat.eqb (length selectedOptions) (length options)
  then handleClear selectedOptions
  else (options, report options).

(** The four selection operations as data, and a run of them from
    [useState(defaultValue)]. *)
Inductive Op : Type :=
| OpToggle (o : Obj)
| OpToggleAll
| OpClear
| OpClearExtra.

Definition applyOp (sel : list Obj) (op : Op) : list Obj * list Call :=
  match op with
  | OpToggle o => toggleOption sel o
  | OpToggleAll => toggleAll sel
  | OpClear => handleClear sel
  | OpClearExtra => clearExtraOptions sel
  end.

Definition runOps (defaultValue : list Obj) (ops : list Op) : list Obj :=
  fold_left (fun sel op => fst (applyOp sel op)) ops defaultValue.

Definition runToggles (defaultValue : list Obj) (ts : list Obj) : list Obj :=
  fold_left toggled ts defaultValue.

End Handlers.

(** *** The component *)

Record Props : Type := {
  options : list Obj;
  valueKey : string;
  defaultValue : list Obj;
  maxCount : Z;
  setAlternativeValue : bool;          (* supplied or not *)
  onLoadMore : option nat;
  hasNextPage : option bool;
  isFetchingNextPage : option bool;
  onSearchChange : option nat;
  isLoading : option bool
}.

(** The values the dependency lists of the effects mention. *)
Record Deps : Type := {
  d_localSearch : string;
  d_isFetchingNextPage : option bool;
  d_isPopoverOpen : bool;
  d_debouncedSearch : string;
  d_onSearchChange : option nat;
  d_hasNextPage : option bool;
  d_onLoadMore : option nat;
  d_isLoading : option bool
}.

(** What the callback handed to [setTimeout] by the infinite-scroll effect
    captures. *)
Record Setup : Type := {
  t_hasNextPage : option bool;
  t_isLoading : option bool;
  t_onLoadMore : option nat
}.

Record State : Type := {
  props : Props;
  selectedOptions : list Obj;            (* useState(defaultValue) *)
  isPopoverOpen : bool;                  (* useState(false) *)
  localSearch : string;                  (* useState("") *)
  debouncedSearch : string;              (* the state inside useDebounce *)
  debounceTimer : option string;         (* its pending timer and the value it sets *)
  isFetchingNextPageRef : option bool;   (* .current *)
  scrollRef : option nat;                (* .current: the mounted list element *)
  geometry : Elem;                       (* scroll metrics of that element *)
  setupTimer : option Setup;             (* pending timer of the scroll effect *)
  listeners : list Listener;             (* registrations made and not removed *)
  rendered : option Deps;                (* dependencies of the last commit *)
  nextId : nat;                          (* next fresh element *)
  mounted : bool;
  log : list Call
}.

Definition set_props (v : Props) (s : State) : State :=
  {| props := v; selectedOptions := selectedOptions s;
     isPopoverOpen := isPopoverOpen s; localSearch := localSearch s;
     debouncedSearch := debouncedSearch s; debounceTimer := debounceTimer s;
     isFetchingNextPageRef := isFetchingNextPageRef s;
     scrollRef := scrollRef s; geometry := geometry s;
     setupTimer := setupTimer s; listeners := listeners s;
     rendered := rendered s; nextId := nextId s; mounted := mounted s;
     log := log s |}.

Definition set_selectedOptions (v : list Obj) (s : State) : State :=
  {| props := props s; selectedOptions := v;
     isPopoverOpen := isPopoverOpen s; localSearch := localSearch s;
     debouncedSearch := debouncedSearch s; debounceTimer := debounceTimer s;
     isFetchingNextPageRef := isFetchingNextPageRef s;
     scrollRef := scrollRef s; geometry := geometry s;
     setupTimer := setupTimer s; listeners := listeners s;
     rendered := rendered s; nextId := nextId s; mounted := mounted s;
     log := log s |}.

Definition set_isPopoverOpen (v : bool) (s : State) : State :=
  {| props := props s; selectedOptions := selectedOptions s;
     isPopoverOpen := v; localSearch := localSearch s;
     debouncedSearch := debouncedSearch s; debounceTimer := debounceTimer s;
     isFetchingNextPageRef := isFetchingNextPageRef s;
     scrollRef := scrollRef s; geometry := geometry s;
     setupTimer := setupTimer s; listeners := listeners s;
     rendered := rendered s; nextId := nextId s; mounted := mounted s;
     log := log s |}.

Definition set_localSearch (v : string) (s : State) : State :=
  {| props := props s; selectedOptions := selectedOptions s;
     isPopoverOpen := isPopoverOpen s; localSearch := v;
     debouncedSearch := debouncedSearch s; debounceTimer := debounceTimer s;
     isFetchingNextPageRef := isFetchingNextPageRef s;
     scrollRef := scrollRef s; geometry := geometry s;
     setupTimer := setupTimer s; listeners := listeners s;
     rendered := rendered s; nextId := nextId s; mounted := mounted s;
     log := log s |}.

Definition set_debouncedSearch (v : string) (s : State) : State :=
  {| props := props s; selectedOptions := selectedOptions s;
     isPopoverOpen := isPopoverOpen s; localSearch := localSearch s;
     debouncedSearch := v; debounceTimer := debounceTimer s;
     isFetchingNextPageRef := isFetchingNextPageRef s;
     scrollRef := scrollRef s; geometry := geometry s;
     setupTimer := setupTimer s; listeners := listeners s;
     rendered := rendered s; nextId := nextId s; mounted := mounted s;
     log := log s |}.

Definition set_debounceTimer (v : option string) (s : State) : State :=
  {| props := props s; selectedOptions := selectedOptions s;
     isPopoverOpen := isPopoverOpen s; localSearch := localSearch s;
     debouncedSearch := debouncedSearch s; debounceTimer := v;
     isFetchingNextPageRef := isFetchingNextPageRef s;
     scrollRef := scrollRef s; geometry := geometry s;
     setupTimer := setupTimer s; listeners := listeners s;
     rendered := rendered s; nextId := nextId s; mounted := mounted s;
     log := log s |}.

Definition set_isFetchingNextPageRef (v : option bool) (s : State) : State :=
  {| props := props s; selectedOptions := selectedOptions s;
     isPopoverOpen := isPopoverOpen s; localSearch := localSearch s;
     debouncedSearch := debouncedSearch s; debounceTimer := debounceTimer s;
     isFetchingNextPageRef := v;
     scrollRef := scrollRef s; geometry := geometry s;
     setupTimer := setupTimer s; listeners := listeners s;
     rendered := rendered s; nextId := nextId s; mounted := mounted s;
     log := log s |}.

Definition set_container (r : option nat) (g : Elem) (n : nat) (s : State)
  : State :=
  {| props := props s; selectedOptions := selectedOptions s;
     isPopoverOpen := isPopoverOpen s; localSearch := localSearch s;
     debouncedSearch := debouncedSearch s; debounceTimer := debounceTimer s;
     isFetchingNextPageRef := isFetchingNextPageRef s;
     scrollRef := r; geometry := g;
     setupTimer := setupTimer s; listeners := listeners s;
     rendered := rendered s; nextId := n; mounted := mounted s;
     log := log s |}.

Definition set_setupTimer (v : option Setup) (s : State) : State :=
  {| props := props s; selectedOptions := selectedOptions s;
     isPopoverOpen := isPopoverOpen s; localSearch := localSearch s;
     debouncedSearch := debouncedSearch s; debounceTimer := debounceTimer s;
     isFetchingNextPageRef := isFetchingNextPageRef s;
     scrollRef := scrollRef s; geometry := geometry s;
     setupTimer := v; listeners := listeners s;
     rendered := rendered s; nextId := nextId s; mounted := mounted s;
     log := log s |}.

Definition set_listeners (v : list Listener) (s : State) : State :=
  {| props := props s; selectedOptions := selectedOptions s;
     isPopoverOpen := isPopoverOpen s; localSearch := localSearch s;
     debouncedSearch := debouncedSearch s; debounceTimer := debounceTimer s;
     isFetchingNextPageRef := isFetchingNextPageRef s;
     scrollRef := scrollRef s; geometry := geometry s;
     setupTimer := setupTimer s; listeners := v;
     rendered := rendered s; nextId := nextId s; mounted := mounted s;
     log := log s |}.

Definition set_rendered (v : option Deps) (s : State) : State :=
  {| props := props s; selectedOptions := selectedOptions s;
     isPopoverOpen := isPopoverOpen s; localSearch := localSearch s;
     debouncedSearch := debouncedSearch s; debounceTimer := debounceTimer s;
     isFetchingNextPageRef := isFetchingNextPageRef s;
     scrollRef := scrollRef s; geometry := geometry s;
     setupTimer := setupTimer s; listeners := listeners s;
     rendered := v; nextId := nextId s; mounted := mounted s;
     log := log s |}.

Definition set_mounted (v : bool) (s : State) : State :=
  {| props := props s; selectedOptions := selectedOptions s;
     isPopoverOpen := isPopoverOpen s; localSearch := localSearch s;
     debouncedSearch := debouncedSearch s; debounceTimer := debounceTimer s;
     isFetchingNextPageRef := isFetchingNextPageRef s;
     scrollRef := scrollRef s; geometry := geometry s;
     setupTimer := setupTimer s; listeners := listeners s;
     rendered := rendered s; nextId := nextId s; mounted := v;
     log := log s |}.

(** Append calls to the log. *)
Definition emit (cs : list Call) (s : State) : State :=
  {| props := props s; selectedOptions := selectedOptions s;
     isPopoverOpen := isPopoverOpen s; localSearch := localSearch s;
     debouncedSearch := debouncedSearch s; debounceTimer := debounceTimer s;
     isFetchingNextPageRef := isFetchingNextPageRef s;
     scrollRef := scrollRef s; geometry := geometry s;
     setupTimer := setupTimer s; listeners := listeners s;
     rendered := rendered s; nextId := nextId s; mounted := mounted s;
     log := log s ++ cs |}.

Definition set_geometry (g : Elem) (s : State) : State :=
  set_container (scrollRef s) g (nextId s) s.

(** **** Rendering and effects *)

(** The list element (CommandList inside PopoverContent) is in the tree
    exactly while the popover is open: React stores it in
    [scrollRef.current] when it mounts and stores null when it unmounts. *)
Definition attachRefs (s : State) : State :=
  if isPopoverOpen s then
    match scrollRef s with
    | Some _ => s
    | None => set_container (Some (nextId s)) zeroElem (S (nextId s)) s
    end
  else set_container None zeroElem (nextId s) s.

Definition depsOf (s : State) : Deps :=
  {| d_localSearch := localSearch s;
     d_isFetchingNextPage := isFetchingNextPage (props s);
     d_isPopoverOpen := isPopoverOpen s;
     d_debouncedSearch := debouncedSearch s;
     d_onSearchChange := onSearchChange (props s);
     d_hasNextPage := hasNextPage (props s);
     d_onLoadMore := onLoadMore (props s);
     d_isLoading := isLoading (props s) |}.

(** Modelled from the spec: [useDebounce] (utils/index) is not among the
    sources.  The spec describes it as a timer-based coalescing operation,
    cancel-and-reschedule on each change of the text, firing after the
    quiet period (300ms): a change of [localSearch] replaces the pending
    timer by one that will store the new text. *)
Definition debounceEffect (cur : Deps) (s : State) : State :=
  set_debounceTimer (Some (d_localSearch cur)) s.

(** Modelled from the spec: the debounce timer fires after the quiet period
    and the debounced value becomes the text it was scheduled with. *)
Definition fireDebounce (s : State) : State :=
  match debounceTimer s with
  | None => s
  | Some v => set_debouncedSearch v (set_debounceTimer None s)
  end.

(** [useEffect(() => { isFetchingNextPageRef.current = isFetchingNextPage },
    [isFetchingNextPage])] *)
Definition refEffect (cur : Deps) (s : State) : State :=
  set_isFetchingNextPageRef (d_isFetchingNextPage cur) s.

(** [useEffect(() => { if (!isPopoverOpen) setLocalSearch("") },
    [isPopoverOpen])] *)
Definition resetSearchEffect (cur : Deps) (s : State) : State :=
  if negb (d_isPopoverOpen cur) then set_localSearch "" s else s.

(** [useEffect(() => { if (onSearchChange) onSearchChange(debouncedSearch) },
    [debouncedSearch, onSearchChange])] *)
Definition searchEffect (cur : Deps) (s : State) : State :=
  match d_onSearchChange cur with
  | Some cb => emit [CallSearchChange cb (d_debouncedSearch cur)] s
  | None => s
  end.

(** The infinite-scroll effect: its cleanup is [clearTimeout(timeout)], its
    body schedules the setup callback 10ms later. *)
Definition scrollEffectCleanup (s : State) : State := set_setupTimer None s.

Definition scrollEffect (cur : Deps) (s : State) : State :=
  set_setupTimer
    (Some {| t_hasNextPage := d_hasNextPage cur;
             t_isLoading := d_isLoading cur;
             t_onLoadMore := d_onLoadMore cur |}) s.

(** The dependency lists of the search effect and of the infinite-scroll
    effect. *)
Definition searchDepsChanged (prev : option Deps) (cur : Deps) : bool :=
  differs prev cur d_debouncedSearch || differs prev cur d_onSearchChange.

Definition scrollDepsChanged (prev : option Deps) (cur : Deps) : bool :=
  differs prev cur d_isPopoverOpen
  || differs prev cur d_hasNextPage
  || differs prev cur d_isFetchingNextPage
  || differs prev cur d_onLoadMore
  || differs prev cur d_isLoading.

(** One render and commit: refs, then the effects whose dependencies
    changed, in hook order (the innermost [when] runs first). *)
Definition commitPass (s : State) : State :=
  let s := attachRefs s in
  let cur := depsOf s in
  let prev := rendered s in
  set_rendered (Some cur)
    (when (scrollDepsChanged prev cur)
       (fun s => scrollEffect cur (scrollEffectCleanup s))
    (when (searchDepsChanged prev cur) (searchEffect cur)
    (when (differs prev cur d_isPopoverOpen) (resetSearchEffect cur)
    (when (differs prev cur d_isFetchingNextPage) (refEffect cur)
    (when (differsAfterMount prev cur d_localSearch) (debounceEffect cur)
       s))))).

(** A state set inside an effect renders once more. *)
Definition commit (s : State) : State := commitPass (commitPass s).

(** The callback of the [setTimeout] in the infinite-scroll effect.  It
    returns the state after it ran and the function it returns, if any. *)
Definition setupCallback (t : Setup) (s : State)
  : State * option (State -> State) :=
  match scrollRef s with
  | None => (s, None)
  | Some container =>
      if negb (truthy (t_hasNextPage t)) then (s, None)
      else
        match t_onLoadMore t with
        | None => (s, None)
        | Some f =>
            let cl := {| c_hasNextPage := t_hasNextPage t;
                         c_isLoading := t_isLoading t;
                         c_onLoadMore := f |} in
            let hScroll := nextId s in
            let hWheel := S (nextId s) in
            let s1 :=
              set_listeners
                (listeners s ++
                 [ {| l_target := container; l_kind := OnScroll;
                      l_fn := hScroll; l_env := cl |};
                   {| l_target := container; l_kind := OnWheel;
                      l_fn := hWheel; l_env := cl |} ])
                (set_container (scrollRef s) (geometry s) (S (S (nextId s))) s)
            in
            (s1,
             Some (fun s' =>
                     set_listeners
                       (removeListener container OnWheel hWheel
                          (removeListener container OnScroll hScroll
                             (listeners s'))) s'))
        end
  end.

(** The timer fires: [setTimeout] runs the callback and drops what it
    returns. *)
Definition fireSetupTimer (s : State) : State :=
  match setupTimer s with
  | None => s
  | Some t => fst (setupCallback t (set_setupTimer None s))
  end.

(** A scroll event on the list element runs every scroll listener
    registered on it. *)
Definition dispatchScroll (s : State) : State :=
  match scrollRef s with
  | None => s
  | Some c =>
      fold_left
        (fun s l =>
           emit (handleScroll (l_env l) (isFetchingNextPageRef s) (geometry s)) s)
        (listenersOn c OnScroll (listeners s)) s
  end.

(** [handleWheel]: [preventDefault], move the container by [deltaY], then
    the guarded [handleScroll]. *)
Definition handleWheel (cl : Closure) (deltaY : Z) (s : State) : State :=
  let newScrollTop := scrollTop (geometry s) + deltaY in
  let s := set_geometry (setScrollTop (geometry s) newScrollTop) s in
  if negb (truthy (c_isLoading cl))
  then emit (handleScroll cl (isFetchingNextPageRef s) (geometry s)) s
  else s.

Definition dispatchWheel (deltaY : Z) (s : State) : State :=
  match scrollRef s with
  | None => s
  | Some c =>
      fold_left (fun s l => handleWheel (l_env l) deltaY s)
        (listenersOn c OnWheel (listeners s)) s
  end.

(** **** Event handlers *)

(** [onOpenChange] of the Popover. *)
Definition onOpenChange (open : bool) (s : State) : State :=
  let s := set_isPopoverOpen open s in
  if negb open then
    match onSearchChange (props s) with
    | Some cb => emit [CallSearchChange cb ""] s
    | None => s
    end
  else s.

(** [onClick] of the trigger button. *)
Definition onClick (s : State) : State :=
  set_isPopoverOpen (negb (isPopoverOpen s)) s.

Definition selectionOp (op : Op) (s : State) : State :=
  let p := props s in
  let r := applyOp (options p) (valueKey p) (maxCount p) (setAlternativeValue p)
             (selectedOptions s) op in
  emit (snd r) (set_selectedOptions (fst r) s).

Definition unmount (s : State) : State :=
  set_mounted false
    (set_container None zeroElem (nextId s)
       (scrollEffectCleanup (set_debounceTimer None s))).

Inductive Event : Type :=
| EvSetProps (p : Props)        (* the parent renders with new props *)
| EvOpenChange (open : bool)    (* the Popover asks to open or close *)
| EvTriggerClick                (* click on the trigger button *)
| EvInput (text : string)       (* typing in the search input *)
| EvSelection (op : Op)         (* an option, select-all, clear, trim *)
| EvSetupTimer                  (* the 10ms timer fires *)
| EvDebounceTimer               (* the debounce timer fires *)
| EvScroll (g : Elem)           (* scroll event, the element now at [g] *)
| EvWheel (deltaY : Z)
| EvUnmount.

(** The trigger is a PopoverTrigger with the button as its child: a click
    runs the button's [onClick], then the primitive toggles through
    [onOpenChange]; both updates are in one batch. *)
Definition step (s : State) (ev : Event) : State :=
  if negb (mounted s) then s
  else
    match ev with
    | EvSetProps p => commit (set_props p s)
    | EvOpenChange open => commit (onOpenChange open s)
    | EvTriggerClick =>
        commit (onOpenChange (negb (isPopoverOpen s)) (onClick s))
    | EvInput text =>
        match onSearchChange (props s) with
        | Some _ =>
            if isPopoverOpen s then commit (set_localSearch text s) else s
        | None => s
        end
    | EvSelection op => commit (selectionOp op s)
    | EvSetupTimer => fireSetupTimer s
    | EvDebounceTimer => commit (fireDebounce s)
    | EvScroll g =>
        match scrollRef s with
        | Some _ => dispatchScroll (set_geometry g s)
        | None => s
        end
    | EvWheel deltaY => dispatchWheel deltaY s
    | EvUnmount => unmount s
    end.

(** The first render. *)
Definition init (p : Props) : State :=
  commit
    {| props := p; selectedOptions := defaultValue p;
       isPopoverOpen := false; localSearch := "";
       debouncedSearch := ""; debounceTimer := None;
       isFetchingNextPageRef := isFetchingNextPage p;
       scrollRef := None; geometry := zeroElem;
       setupTimer := None; listeners := [];
       rendered := None; nextId := 0%nat; mounted := true; log := [] |}.

Definition run (s : State) (evs : list Event) : State := fold_left step evs s.

(** The calls [s2] made beyond those of [s1]. *)
Definition newCalls (s1 s2 : State) : list Call :=
  skipn (length (log s1)) (log s2).

(** The states the component can be in. *)
Inductive reachable : State -> Prop :=
| reach_init (p : Props) : reachable (init p)
| reach_step (s : State) (ev : Event) : reachable s -> reachable (step s ev).

End Multi.

(** ** SingleSelect *)

Module Single.

Record Props : Type := {
  options : list Obj;
  valueKey : string;
  labelKey : string;
  value : JsVal;                       (* undefined when not passed *)
  onSearchChange : option nat;
  onLoadMore : option nat;
  hasNextPage : option bool;
  isFetchingNextPage : option bool;
  isLoading : option bool
}.

(** [filteredOptions] *)
Definition filteredOptions (p : Props) (debouncedSearch : string) : list Obj :=
  if is_Some_bool (onSearchChange p) || negb (truthy_str (trim debouncedSearch))
  then options p
  else
    List.filter
      (fun option =>
         let label := toString (nullish (get option (labelKey p)) (JStr "")) in
         let optionValue :=
           toString (nullish (get option (valueKey p)) (JStr "")) in
         let term := trim (toLowerCase debouncedSearch) in
         includes (toLowerCase label) term
         || includes (toLowerCase optionValue) term)
      (options p).

Record Deps : Type := {
  d_localSearch : string;
  d_isFetchingNextPage : option bool;
  d_isOpen : bool;
  d_debouncedSearch : string;
  d_onSearchChange : option nat;
  d_hasNextPage : option bool;
  d_onLoadMore : option nat;
  d_isLoading : option bool
}.

Record Setup : Type := {
  t_hasNextPage : option bool;
  t_isLoading : option bool;
  t_onLoadMore : option nat
}.

Record State : Type := {
  props : Props;
  isOpen : bool;                         (* useState(false) *)
  localSearch : string;                  (* useState("") *)
  debouncedSearch : string;              (* the state inside useDebounce *)
  debounceTimer : option string;
  isFetchingNextPageRef : option bool;   (* .current *)
  scrollRef : option nat;                (* .current *)
  geometry : Elem;
  setupTimer : option Setup;
  listeners : list Listener;
  rendered : option Deps;
  nextId : nat;
  mounted : bool;
  log : list Call
}.

Definition set_props (v : Props) (s : State) : State :=
  {| props := v; isOpen := isOpen s; localSearch := localSearch s;
     debouncedSearch := debouncedSearch s;
     debounceTimer := debounceTimer s;
     isFetchingNextPageRef := isFetchingNextPageRef s;
     scrollRef := scrollRef s; geometry := geometry s;
     setupTimer := setupTimer s; listeners := listeners s;
     rendered := rendered s; nextId := nextId s; mounted := mounted s;
     log := log s |}.

Definition set_isOpen (v : bool) (s : State) : State :=
  {| props := props s; isOpen := v; localSearch := localSearch s;
     debouncedSearch := debouncedSearch s;
     debounceTimer := debounceTimer s;
     isFetchingNextPageRef := isFetchingNextPageRef s;
     scrollRef := scrollRef s; geometry := geometry s;
     setupTimer := setupTimer s; listeners := listeners s;
     rendered := rendered s; nextId := nextId s; mounted := mounted s;
     log := log s |}.

Definition set_localSearch (v : string) (s : State) : State :=
  {| props := props s; isOpen := isOpen s; localSearch := v;
     debouncedSearch := debouncedSearch s;
     debounceTimer := debounceTimer s;
     isFetchingNextPageRef := isFetchingNextPageRef s;
     scrollRef := scrollRef s; geometry := geometry s;
     setupTimer := setupTimer s; listeners := listeners s;
     rendered := rendered s; nextId := nextId s; mounted := mounted s;
     log := log s |}.

Definition set_debouncedSearch (v : string) (s : State) : State :=
  {| props := props s; isOpen := isOpen s; localSearch := localSearch s;
     debouncedSearch := v; debounceTimer := debounceTimer s;
     isFetchingNextPageRef := isFetchingNextPageRef s;
     scrollRef := scrollRef s; geometry := geometry s;
     setupTimer := setupTimer s; listeners := listeners s;
     rendered := rendered s; nextId := nextId s; mounted := mounted s;
     log := log s |}.

Definition set_debounceTimer (v : option string) (s : State) : State :=
  {| props := props s; isOpen := isOpen s; localSearch := localSearch s;
     debouncedSearch := debouncedSearch s; debounceTimer := v;
     isFetchingNextPageRef := isFetchingNextPageRef s;
     scrollRef := scrollRef s; geometry := geometry s;
     setupTimer := setupTimer s; listeners := listeners s;
     rendered := rendered s; nextId := nextId s; mounted := mounted s;
     log := log s |}.

Definition set_isFetchingNextPageRef (v : option bool) (s : State) : State :=
  {| props := props s; isOpen := isOpen s; localSearch := localSearch s;
     debouncedSearch := debouncedSearch s;
     debounceTimer := debounceTimer s; isFetchingNextPageRef := v;
     scrollRef := scrollRef s; geometry := geometry s;
     setupTimer := setupTimer s; listeners := listeners s;
     rendered := rendered s; nextId := nextId s; mounted := mounted s;
     log := log s |}.

Definition set_container (r : option nat) (g : Elem) (n : nat) (s : State) : State :=
  {| props := props s; isOpen := isOpen s; localSearch := localSearch s;
     debouncedSearch := debouncedSearch s;
     debounceTimer := debounceTimer s;
     isFetchingNextPageRef := isFetchingNextPageRef s; scrollRef := r;
     geometry := g; setupTimer := setupTimer s; listeners := listeners s;
     rendered := rendered s; nextId := n; mounted := mounted s;
     log := log s |}.

Definition set_setupTimer (v : option Setup) (s : State) : State :=
  {| props := props s; isOpen := isOpen s; localSearch := localSearch s;
     debouncedSearch := debouncedSearch s;
     debounceTimer := debounceTimer s;
     isFetchingNextPageRef := isFetchingNextPageRef s;
     scrollRef := scrollRef s; geometry := geometry s; setupTimer := v;
     listeners := listeners s; rendered := rendered s; nextId := nextId s;
     mounted := mounted s; log := log s |}.

Definition set_listeners (v : list Listener) (s : State) : State :=
  {| props := props s; isOpen := isOpen s; localSearch := localSearch s;
     debouncedSearch := debouncedSearch s;
     debounceTimer := debounceTimer s;
     isFetchingNextPageRef := isFetchingNextPageRef s;
     scrollRef := scrollRef s; geometry := geometry s;
     setupTimer := setupTimer s; listeners := v; rendered := rendered s;
     nextId := nextId s; mounted := mounted s; log := log s |}.

Definition set_rendered (v : option Deps) (s : State) : State :=
  {| props := props s; isOpen := isOpen s; localSearch := localSearch s;
     debouncedSearch := debouncedSearch s;
     debounceTimer := debounceTimer s;
     isFetchingNextPageRef := isFetchingNextPageRef s;
     scrollRef := scrollRef s; geometry := geometry s;
     setupTimer := setupTimer s; listeners := listeners s; rendered := v;
     nextId := nextId s; mounted := mounted s; log := log s |}.

Definition set_mounted (v : bool) (s : State) : State :=
  {| props := props s; isOpen := isOpen s; localSearch := localSearch s;
     debouncedSearch := debouncedSearch s;
     debounceTimer := debounceTimer s;
     isFetchingNextPageRef := isFetchingNextPageRef s;
     scrollRef := scrollRef s; geometry := geometry s;
     setupTimer := setupTimer s; listeners := listeners s;
     rendered := rendered s; nextId := nextId s; mounted := v;
     log := log s |}.

Definition emit (cs : list Call) (s : State) : State :=
  {| props := props s; isOpen := isOpen s; localSearch := localSearch s;
     debouncedSearch := debouncedSearch s;
     debounceTimer := debounceTimer s;
     isFetchingNextPageRef := isFetchingNextPageRef s;
     scrollRef := scrollRef s; geometry := geometry s;
     setupTimer := setupTimer s; listeners := listeners s;
     rendered := rendered s; nextId := nextId s; mounted := mounted s;
     log := log s ++ cs |}.

Definition set_geometry (g : Elem) (s : State) : State :=
  set_container (scrollRef s) g (nextId s) s.

(** **** Rendering and effects *)

(** The list element is in the tree exactly while the popover is open. *)
Definition attachRefs (s : State) : State :=
  if isOpen s then
    match scrollRef s with
    | Some _ => s
    | None => set_container (Some (nextId s)) zeroElem (S (nextId s)) s
    end
  else set_container None zeroElem (nextId s) s.

Definition depsOf (s : State) : Deps :=
  {| d_localSearch := localSearch s;
     d_isFetchingNextPage := isFetchingNextPage (props s);
     d_isOpen := isOpen s;
     d_debouncedSearch := debouncedSearch s;
     d_onSearchChange := onSearchChange (props s);
     d_hasNextPage := hasNextPage (props s);
     d_onLoadMore := onLoadMore (props s);
     d_isLoading := isLoading (props s) |}.

(** Modelled from the spec: [useDebounce] (utils/index) is not among the
    sources; as in MultiSelect, a change of [localSearch] replaces the
    pending timer by one that will store the new text. *)
Definition debounceEffect (cur : Deps) (s : State) : State :=
  set_debounceTimer (Some (d_localSearch cur)) s.

(** Modelled from the spec: the debounce timer fires after the quiet
    period and the debounced value becomes the text it was scheduled
    with. *)
Definition fireDebounce (s : State) : State :=
  match debounceTimer s with
  | None => s
  | Some v => set_debouncedSearch v (set_debounceTimer None s)
  end.

Definition refEffect (cur : Deps) (s : State) : State :=
  set_isFetchingNextPageRef (d_isFetchingNextPage cur) s.

(** [useEffect(() => { if (onSearchChange && isOpen)
    onSearchChange(debouncedSearch) }, [debouncedSearch, onSearchChange,
    isOpen])] *)
Definition searchEffect (cur : Deps) (s : State) : State :=
  match d_onSearchChange cur with
  | Some cb =>
      if d_isOpen cur
      then emit [CallSearchChange cb (d_debouncedSearch cur)] s
      else s
  | None => s
  end.

(** [useEffect(() => { if (!isOpen) setLocalSearch("") }, [isOpen])] *)
Definition resetSearchEffect (cur : Deps) (s : State) : State :=
  if negb (d_isOpen cur) then set_localSearch "" s else s.

Definition scrollEffectCleanup (s : State) : State := set_setupTimer None s.

Definition scrollEffect (cur : Deps) (s : State) : State :=
  set_setupTimer
    (Some {| t_hasNextPage := d_hasNextPage cur;
             t_isLoading := d_isLoading cur;
             t_onLoadMore := d_onLoadMore cur |}) s.

(** The dependency lists of the search effect and of the infinite-scroll
    effect. *)
Definition searchDepsChanged (prev : option Deps) (cur : Deps) : bool :=
  differs prev cur d_debouncedSearch
  || differs prev cur d_onSearchChange
  || differs prev cur d_isOpen.

Definition scrollDepsChanged (prev : option Deps) (cur : Deps) : bool :=
  differs prev cur d_isOpen
  || differs prev cur d_hasNextPage
  || differs prev cur d_isFetchingNextPage
  || differs prev cur d_onLoadMore
  || differs prev cur d_isLoading.

(** One render and commit: refs, then the effects whose dependencies
    changed, in hook order (the innermost [when] runs first). *)
Definition commitPass (s : State) : State :=
  let s := attachRefs s in
  let cur := depsOf s in
  let prev := rendered s in
  set_rendered (Some cur)
    (when (scrollDepsChanged prev cur)
       (fun s => scrollEffect cur (scrollEffectCleanup s))
    (when (differs prev cur d_isOpen) (resetSearchEffect cur)
    (when (searchDepsChanged prev cur) (searchEffect cur)
    (when (differs prev cur d_isFetchingNextPage) (refEffect cur)
    (when (differsAfterMount prev cur d_localSearch) (debounceEffect cur)
       s))))).

Definition commit (s : State) : State := commitPass (commitPass s).

(** The callback of the [setTimeout] in the infinite-scroll effect, with
    the function it returns. *)
Definition setupCallback (t : Setup) (s : State)
  : State * option (State -> State) :=
  match scrollRef s with
  | None => (s, None)
  | Some container =>
      match t_onLoadMore t with
      | None => (s, None)
      | Some f =>
          let cl := {| c_hasNextPage := t_hasNextPage t;
                       c_isLoading := t_isLoading t;
                       c_onLoadMore := f |} in
          let hScroll := nextId s in
          let hWheel := S (nextId s) in
          let s1 :=
            set_listeners
              (listeners s ++
               [ {| l_target := container; l_kind := OnScroll;
                    l_fn := hScroll; l_env := cl |};
                 {| l_target := container; l_kind := OnWheel;
                    l_fn := hWheel; l_env := cl |} ])
              (set_container (scrollRef s) (geometry s) (S (S (nextId s))) s)
          in
          (s1,
           Some (fun s' =>
                   set_listeners
                     (removeListener container OnWheel hWheel
                        (removeListener container OnScroll hScroll
                           (listeners s'))) s'))
      end
  end.

(** [setTimeout] runs the callback and drops what it returns. *)
Definition fireSetupTimer (s : State) : State :=
  match setupTimer s with
  | None => s
  | Some t => fst (setupCallback t (set_setupTimer None s))
  end.

Definition dispatchScroll (s : State) : State :=
  match scrollRef s with
  | None => s
  | Some c =>
      fold_left
        (fun s l =>
           emit (handleScroll (l_env l) (isFetchingNextPageRef s) (geometry s)) s)
        (listenersOn c OnScroll (listeners s)) s
  end.

(** [handleWheel]: the event is left to the parent at the bottom going
    down with no next page and at the top going up; otherwise the delta is
    applied to the container and the guarded [handleScroll] runs. *)
Definition handleWheel (cl : Closure) (deltaY : Z) (s : State) : State :=
  let g := geometry s in
  let atTop := scrollTop g <=? 5 in
  if atBottom g && (0 <? deltaY) && negb (truthy (c_hasNextPage cl))
     || atTop && (deltaY <? 0)
  then s
  else
    let s := set_geometry (setScrollTop g (scrollTop g + deltaY)) s in
    if negb (truthy (c_isLoading cl))
    then emit (handleScroll cl (isFetchingNextPageRef s) (geometry s)) s
    else s.

Definition dispatchWheel (deltaY : Z) (s : State) : State :=
  match scrollRef s with
  | None => s
  | Some c =>
      fold_left (fun s l => handleWheel (l_env l) deltaY s)
        (listenersOn c OnWheel (listeners s)) s
  end.

(** **** Event handlers *)

(** [onSelect] of the item of [option]. *)
Definition onSelect (option : Obj) (s : State) : State :=
  let p := props s in
  let isSelected := strict_eq (get option (valueKey p)) (value p) in
  let s := emit [CallValueChange1
                   (if isSelected then JNull else get option (valueKey p))] s in
  set_isOpen false s.

Definition unmount (s : State) : State :=
  set_mounted false
    (set_container None zeroElem (nextId s)
       (scrollEffectCleanup (set_debounceTimer None s))).

Inductive Event : Type :=
| EvSetProps (p : Props)
| EvOpenChange (open : bool)    (* onOpenChange={setIsOpen} *)
| EvInput (text : string)       (* onValueChange={setLocalSearch} *)
| EvSelect (i : nat)            (* the i-th item shown is activated *)
| EvSetupTimer
| EvDebounceTimer
| EvScroll (g : Elem)
| EvWheel (deltaY : Z)
| EvUnmount.

Definition step (s : State) (ev : Event) : State :=
  if negb (mounted s) then s
  else
    match ev with
    | EvSetProps p => commit (set_props p s)
    | EvOpenChange open => commit (set_isOpen open s)
    | EvInput text =>
        if isOpen s then commit (set_localSearch text s) else s
    | EvSelect i =>
        if isOpen s then
          match nth_error (filteredOptions (props s) (debouncedSearch s)) i with
          | Some option => commit (onSelect option s)
          | None => s
          end
        else s
    | EvSetupTimer => fireSetupTimer s
    | EvDebounceTimer => commit (fireDebounce s)
    | EvScroll g =>
        match scrollRef s with
        | Some _ => dispatchScroll (set_geometry g s)
        | None => s
        end
    | EvWheel deltaY => dispatchWheel deltaY s
    | EvUnmount => unmount s
    end.

Definition init (p : Props) : State :=
  commit
    {| props := p; isOpen := false; localSearch := "";
       debouncedSearch := ""; debounceTimer := None;
       isFetchingNextPageRef := isFetchingNextPage p;
       scrollRef := None; geometry := zeroElem;
       setupTimer := None; listeners := [];
       rendered := None; nextId := 0%nat; mounted := true; log := [] |}.

Definition run (s : State) (evs : list Event) : State := fold_left step evs s.

Definition newCalls (s1 s2 : State) : list Call :=
  skipn (length (log s1)) (log s2).

(** The states the component can be in. *)
Inductive reachable : State -> Prop :=
| reach_init (p : Props) : reachable (init p)
| reach_step (s : State) (ev : Event) : reachable s -> reachable (step s ev).

End Single.

(** ** Specification-side notions *)

Section ToggleSpec.
Variable valueKey : string.

(** Some element of [l] has value key [k]. *)
Definition hasKey (k : JsVal) (l : list Obj) : bool :=
  existsb (fun o => strict_eq (get o valueKey) k) l.

(** Is key [k] on after the toggles [pre], starting from [default]?  It is
    on at the start when [default] holds it, and every toggle of an option
    with that key flips it. *)
Definition isOn (default pre : list Obj) (k : JsVal) : bool :=
  fold_left (fun b o => if strict_eq (get o valueKey) k then negb b else b)
    pre (hasKey k default).

(** The toggles of [post] that switch their key on (it was off after the
    toggles before them, [pre] at the start) and that no later toggle of
    the same key follows, in toggle order. *)
Fixpoint toggledOnKept (default pre post : list Obj) : list Obj :=
  match post with
  | [] => []
  | o :: rest =>
      (if negb (isOn default pre (get o valueKey))
          && negb (hasKey (get o valueKey) rest)
       then [o] else [])
      ++ toggledOnKept default (pre ++ [o]) rest
  end.

(** The selection the prose describes: the default options never toggled,
    then the options toggled on and not toggled off afterwards. *)
Definition selectionSpec (default ts : list Obj) : list Obj :=
  List.filter (fun d => negb (hasKey (get d valueKey) ts)) default
  ++ toggledOnKept default [] ts.

End ToggleSpec.

(** ** Sample data *)

Module Sample.

Definition apple : Obj := {[ "id" := JNum 1; "name" := JStr "Apple" ]}.
Definition banana : Obj := {[ "id" := JNum 2; "name" := JStr "Banana" ]}.
Definition cherry : Obj := {[ "id" := JNum 3; "name" := JStr "Cherry" ]}.
(** Another record with the value key of [apple]. *)
Definition apple' : Obj := {[ "id" := JNum 1; "name" := JStr "Green apple" ]}.

(** MultiSelect props: paging on, search delegated to the caller. *)
Definition multiProps (defaults : list Obj) (fetching loading : option bool)
  : Multi.Props :=
  {| Multi.options := [apple; banana];
     Multi.valueKey := "id";
     Multi.defaultValue := defaults;
     Multi.maxCount := 3;
     Multi.setAlternativeValue := false;
     Multi.onLoadMore := Some 1%nat;
     Multi.hasNextPage := Some true;
     Multi.isFetchingNextPage := fetching;
     Multi.onSearchChange := Some 2%nat;
     Multi.isLoading := loading |}.

(** SingleSelect props, with or without a search-change callback. *)
Definition singleProps (search : option nat) (fetching loading : option bool)
  : Single.Props :=
  {| Single.options := [apple; banana; cherry];
     Single.valueKey := "id";
     Single.labelKey := "name";
     Single.value := JNum 1;
     Single.onSearchChange := search;
     Single.onLoadMore := Some 1%nat;
     Single.hasNextPage := Some true;
     Single.isFetchingNextPage := fetching;
     Single.isLoading := loading |}.

(** A list 400px high in a 300px viewport, 3px above the bottom. *)
Definition nearBottom : Elem :=
  {| scrollTop := 97; scrollHeight := 400; clientHeight := 300 |}.

End Sample.

Section FilterSpec.
Variable p : Single.Props.

(** The label and the value key of an option as text, empty when the field
    is absent or null. *)
Definition labelText (o : Obj) : string :=
  toString (nullish (get o (Single.labelKey p)) (JStr "")).

Definition keyText (o : Obj) : string :=
  toString (nullish (get o (Single.valueKey p)) (JStr "")).

(** [t] occurs in [s] as a substring, letter case apart. *)
Definition containsCI (s t : string) : Prop :=
  exists a b : string,
    toLowerCase s = String.append a (String.append (toLowerCase t) b).

(** The option matches the term by its label or by its value key. *)
Definition matchesCI (t : string) (o : Obj) : Prop :=
  containsCI (labelText o) t \/ containsCI (keyText o) t.

End FilterSpec.

(** The fields that only rendering and the event handlers write: timers,
    listeners, scroll metrics and the log are left out. *)
Definition multiCore (s : Multi.State) :=
  (Multi.props s, Multi.selectedOptions s, Multi.isPopoverOpen s,
   Multi.localSearch s, Multi.debouncedSearch s, Multi.rendered s,
   Multi.scrollRef s, Multi.isFetchingNextPageRef s, Multi.mounted s).

Definition singleCore (s : Single.State) :=
  (Single.props s, Single.isOpen s,
   Single.localSearch s, Single.debouncedSearch s, Single.rendered s,
   Single.scrollRef s, Single.isFetchingNextPageRef s, Single.mounted s).

(** A committed state: the dependencies are those of the last render and
    the list element is referenced only while the popover is open. *)
Definition multiCommitted (s : Multi.State) : Prop :=
  Multi.rendered s = Some (Multi.depsOf s)
  /\ (Multi.isPopoverOpen s = false -> Multi.scrollRef s = None).

Definition singleCommitted (s : Single.State) : Prop :=
  Single.rendered s = Some (Single.depsOf s)
  /\ (Single.isOpen s = false -> Single.scrollRef s = None).

(** No call in the list is a load-more call. *)
Definition noLoadMore (cs : list Call) : Prop :=
  Forall (fun c => isLoadMore c = false) cs.

(** ** What the components show *)

Module MultiView.

(** The badges of the trigger: [selectedOptions.slice(0, maxCount)]. *)
Definition badges (s : Multi.State) : list Obj :=
  slice0 (Multi.selectedOptions s) (Multi.maxCount (Multi.props s)).

(** The "+ N more" badge is shown: it sits in the branch taken when
    [selectedOptions.length > 0], under
    [selectedOptions.length > maxCount]. *)
Definition overflowShown (s : Multi.State) : bool :=
  Nat.ltb 0 (length (Multi.selectedOptions s))
  && (Multi.maxCount (Multi.props s)
      <? Z.of_nat (length (Multi.selectedOptions s))).

(** The N of "+ N more": [selectedOptions.length - maxCount]. *)
Definition overflowCount (s : Multi.State) : Z :=
  Z.of_nat (length (Multi.selectedOptions s)) - Multi.maxCount (Multi.props s).

(** The check mark of "(Select All)":
    [selectedOptions.length === options.length]. *)
Definition allChecked (s : Multi.State) : bool :=
  Nat.eqb (length (Multi.selectedOptions s))
    (length (Multi.options (Multi.props s))).

(** The check mark of the item of [option]:
    [selectedOptions.some((o) => o[valueKey] === option[valueKey])]. *)
Definition isSelected (s : Multi.State) (option : Obj) : bool :=
  existsb
    (fun o => strict_eq (get o (Multi.valueKey (Multi.props s)))
                (get option (Multi.valueKey (Multi.props s))))
    (Multi.selectedOptions s).

End MultiView.

Module SingleView.

(** [options.find((option) => option[valueKey] === value)] *)
Definition selectedOption (p : Single.Props) : option Obj :=
  List.find (fun option => strict_eq (get option (Single.valueKey p))
                             (Single.value p))
    (Single.options p).

(** What the trigger button shows. *)
Inductive Trigger : Type :=
| SelectedLabel (text : string)   (* String(selectedOption[labelKey]) *)
| DefaultLabel (v : JsVal)        (* defaultValue[labelKey] *)
| Placeholder (text : string).

(** [defaultValue] and [placeholder] are props that only the trigger
    reads; an absent [defaultValue] is [None]. *)
Definition trigger (p : Single.Props) (defaultValue : option Obj)
    (placeholder : string) : Trigger :=
  match selectedOption p with
  | Some o => SelectedLabel (toString (get o (Single.labelKey p)))
  | None =>
      match defaultValue with
      | Some d => DefaultLabel (get d (Single.labelKey p))
      | None => Placeholder placeholder
      end
  end.

(** The check mark of an item: [option[valueKey] === value]. *)
Definition isSelected (p : Single.Props) (option : Obj) : bool :=
  strict_eq (get option (Single.valueKey p)) (Single.value p).

(** The text of an item: [String(option[labelKey])]. *)
Definition itemText (p : Single.Props) (option : Obj) : string :=
  toString (get option (Single.labelKey p)).

End SingleView.

(** The two registrations one run of the setup callback makes on the list
    element: [addEventListener("scroll", handleScroll)] and
    [addEventListener("wheel", handleWheel)], the handlers being the
    function objects [fn] and [fn + 1] over the same closure. *)
Definition handlerPair (container fn : nat) (cl : Closure) : list Listener :=
  [ {| l_target := container; l_kind := OnScroll; l_fn := fn; l_env := cl |};
    {| l_target := container; l_kind := OnWheel; l_fn := S fn; l_env := cl |} ].

(** Every handler of the list captured a truthy [hasNextPage]. *)
Definition capturedNextPage (ls : list Listener) : Prop :=
  Forall (fun l => truthy (c_hasNextPage (l_env l)) = true) ls.

Module SingleEcho.
(** The props after the parent stored a reported value and rendered
    again: [value] replaced, everything else as it was. *)
Definition withValue (v : JsVal) (p : Single.Props) : Single.Props :=
  {| Single.options := Single.options p;
     Single.valueKey := Single.valueKey p;
     Single.labelKey := Single.labelKey p;
     Single.value := v;
     Single.onSearchChange := Single.onSearchChange p;
     Single.onLoadMore := Single.onLoadMore p;
     Single.hasNextPage := Single.hasNextPage p;
     Single.isFetchingNextPage := Single.isFetchingNextPage p;
     Single.isLoading := Single.isLoading p |}.
End SingleEcho.

(** A call of [onValueChange] or [setAlternativeValue]. *)
Definition isValueReport (c : Call) : bool :=
  match c with
  | CallValueChange _ | CallSetAlternative _ | CallValueChange1 _ => true
  | CallSearchChange _ _ | CallLoadMore _ => false
  end.

(** * Properties *)

(** ** Strict equality *)

Lemma strict_eq_spec (a b : JsVal) : strict_eq a b = true <-> a = b.
Proof.
  destruct a, b; simpl; split; intros H; try discriminate; try reflexivity;
    try congruence.
  - apply Bool.eqb_prop in H. congruence.
  - inversion H. apply Bool.eqb_reflx.
  - apply Z.eqb_eq in H. congruence.
  - inversion H. apply Z.eqb_refl.
  - apply String.eqb_eq in H. congruence.
  - inversion H. apply String.eqb_refl.
Qed.

Lemma strict_eq_refl (a : JsVal) : strict_eq a a = true.
Proof. now apply strict_eq_spec. Qed.

Lemma strict_eq_sym (a b : JsVal) : strict_eq a b = strict_eq b a.
Proof.
  destruct (strict_eq a b) eqn:E1, (strict_eq b a) eqn:E2; try reflexivity.
  - apply strict_eq_spec in E1. subst. rewrite strict_eq_refl in E2. discriminate.
  - apply strict_eq_spec in E2. subst. rewrite strict_eq_refl in E1. discriminate.
Qed.

Lemma strict_eq_false (a b : JsVal) : strict_eq a b = false <-> a <> b.
Proof.
  split.
  - intros H E. apply strict_eq_spec in E. congruence.
  - intros H. destruct (strict_eq a b) eqn:E; [|reflexivity].
    apply strict_eq_spec in E. contradiction.
Qed.

(** ** Strings *)

Lemma startsWith_spec (t : string) : forall s,
  startsWith s t = true <-> exists b, s = String.append t b.
Proof.
  induction t as [|a t IH]; intros s; simpl.
  - split; [intros _; now exists s|reflexivity].
  - destruct s as [|c s]; simpl.
    + split; [discriminate|intros [b Hb]; discriminate].
    + rewrite andb_true_iff, IH. split.
      * intros [E [b Hb]]. apply Ascii.eqb_eq in E. subst. now exists b.
      * intros [b Hb]. injection Hb as -> ->. split; [apply Ascii.eqb_refl|].
        now exists b.
Qed.

Lemma includes_spec (s t : string) :
  includes s t = true
  <-> exists a b, s = String.append a (String.append t b).
Proof.
  induction s as [|c s IH]; simpl.
  - rewrite orb_false_r, startsWith_spec. split.
    + intros [b Hb]. now exists EmptyString, b.
    + intros [a [b H]]. destruct a; simpl in H; [now exists b|discriminate].
  - rewrite orb_true_iff, startsWith_spec, IH. split.
    + intros [[b Hb]|[a [b H]]].
      * now exists EmptyString, b.
      * exists (String c a), b. simpl. now rewrite H.
    + intros [a [b H]]. destruct a as [|c' a]; simpl in H.
      * left. now exists b.
      * right. injection H as -> ->. now exists a, b.
Qed.

Lemma is_ws_lower_char (c : ascii) : is_ws (lower_char c) = is_ws c.
Proof. destruct c as [[] [] [] [] [] [] [] []]; reflexivity. Qed.

Lemma toLowerCase_empty (s : string) :
  toLowerCase s = EmptyString <-> s = EmptyString.
Proof. destruct s; simpl; split; congruence. Qed.

Lemma trimStart_toLowerCase (s : string) :
  trimStart (toLowerCase s) = toLowerCase (trimStart s).
Proof.
  induction s as [|c s IH]; simpl; [reflexivity|].
  rewrite is_ws_lower_char. destruct (is_ws c); [exact IH|reflexivity].
Qed.

Lemma trimEnd_toLowerCase (s : string) :
  trimEnd (toLowerCase s) = toLowerCase (trimEnd s).
Proof.
  induction s as [|c s IH]; simpl; [reflexivity|].
  rewrite IH, is_ws_lower_char.
  destruct (trimEnd s); simpl; [destruct (is_ws c)|]; reflexivity.
Qed.

Lemma trim_toLowerCase (s : string) :
  trim (toLowerCase s) = toLowerCase (trim s).
Proof. unfold trim. now rewrite trimStart_toLowerCase, trimEnd_toLowerCase. Qed.

Lemma truthy_str_spec (s : string) : truthy_str s = false <-> s = EmptyString.
Proof. destruct s; simpl; split; congruence. Qed.

(** ** SingleSelect: the list shown *)

(** C8, as amended.  Without a search-change callback and with a debounced
    term that is not empty once trimmed, the list shown is exactly the
    options (in order) whose label or value key as text contains the
    trimmed term, letter case apart.  With a callback, or with a debounced
    term that is empty or white space only, it is the [options] prop. *)
Theorem C8_filteredOptions (p : Single.Props) (debouncedSearch : string) :
  (Single.onSearchChange p = None ->
   trim debouncedSearch <> EmptyString ->
   exists keep : Obj -> bool,
     (forall o, keep o = true <-> matchesCI p (trim debouncedSearch) o)
     /\ Single.filteredOptions p debouncedSearch
        = List.filter keep (Single.options p))
  /\ (Single.onSearchChange p <> None \/ trim debouncedSearch = EmptyString ->
      Single.filteredOptions p debouncedSearch = Single.options p).
Proof.
  unfold Single.filteredOptions. split.
  - intros Hcb Hne. rewrite Hcb. simpl.
    destruct (truthy_str (trim debouncedSearch)) eqn:E;
      [|apply truthy_str_spec in E; contradiction].
    simpl. eexists. split; [|reflexivity].
    intros o. cbv beta zeta. rewrite orb_true_iff, !includes_spec.
    rewrite trim_toLowerCase. reflexivity.
  - intros [Hcb|He].
    + destruct (Single.onSearchChange p); [reflexivity|contradiction].
    + apply truthy_str_spec in He. rewrite He, orb_true_r. reflexivity.
Qed.

Lemma C8_witness :
  let p := Sample.singleProps None None None in
  let q := Sample.singleProps (Some 2%nat) None None in
  (exists keep : Obj -> bool,
     (forall o, keep o = true <-> matchesCI p (trim " AN ") o)
     /\ Single.filteredOptions p " AN "
        = List.filter keep (Single.options p))
  /\ Single.filteredOptions q "an" = Single.options q.
Proof.
  cbv zeta. split.
  - apply (C8_filteredOptions (Sample.singleProps None None None) " AN ").
    + reflexivity.
    + vm_compute. discriminate.
  - apply (C8_filteredOptions (Sample.singleProps (Some 2%nat) None None) "an").
    left. discriminate.
Defined.

(** The filter at work on the sample options. *)
Example filteredOptions_sample :
  Single.filteredOptions (Sample.singleProps None None None) " AN "
  = [Sample.banana]
  /\ Single.filteredOptions (Sample.singleProps None None None) "3"
     = [Sample.cherry]
  /\ Single.filteredOptions (Sample.singleProps (Some 2%nat) None None) "an"
     = [Sample.apple; Sample.banana; Sample.cherry].
Proof. repeat split; reflexivity. Qed.

(** C8 as stated fails on terms with white space around them.  The term
    " ap" is not empty and neither the label "Apple" nor the key "1"
    contains it, yet [apple] is shown; the term of two spaces is not empty
    and occurs in no label or key, yet every option is shown. *)
Lemma C8_counterexample :
  let p := Sample.singleProps None None None in
  Single.filteredOptions p " ap" = [Sample.apple]
  /\ ~ matchesCI p " ap" Sample.apple
  /\ Single.filteredOptions p "  "
     = [Sample.apple; Sample.banana; Sample.cherry]
  /\ ~ matchesCI p "  " Sample.apple.
Proof.
  cbv zeta. split; [reflexivity|]. split; [|split; [reflexivity|]].
  - intros [H|H]; apply includes_spec in H; vm_compute in H; discriminate.
  - intros [H|H]; apply includes_spec in H; vm_compute in H; discriminate.
Qed.

(** ** MultiSelect: sequences of toggles *)

Section ToggleFacts.
Variable valueKey : string.

Local Abbreviation key := (fun o : Obj => get o valueKey).
Local Abbreviation dropKey k :=
  (List.filter (fun o : Obj => negb (strict_eq (get o valueKey) k))).

Lemma hasKey_app k (l1 l2 : list Obj) :
  hasKey valueKey k (l1 ++ l2) = hasKey valueKey k l1 || hasKey valueKey k l2.
Proof. unfold hasKey. apply existsb_app. Qed.

Lemma hasKey_snoc k (l : list Obj) o :
  hasKey valueKey k (l ++ [o]) = hasKey valueKey k l || strict_eq (key o) k.
Proof. rewrite hasKey_app. simpl. now rewrite orb_false_r. Qed.

Lemma hasKey_In k (l : list Obj) :
  hasKey valueKey k l = true <-> exists x, In x l /\ key x = k.
Proof.
  unfold hasKey. rewrite existsb_exists. split; intros [x [Hx E]]; exists x.
  - split; [assumption|]. now apply strict_eq_spec.
  - split; [assumption|]. now apply strict_eq_spec.
Qed.

Lemma dropKey_absent k (l : list Obj) :
  hasKey valueKey k l = false -> dropKey k l = l.
Proof.
  induction l as [|x l IH]; simpl; intros H; [reflexivity|].
  apply orb_false_iff in H as [H1 H2]. rewrite H1. simpl. now rewrite IH.
Qed.

Lemma hasKey_dropKey k k' (l : list Obj) :
  hasKey valueKey k (dropKey k' l) =
  hasKey valueKey k l && negb (strict_eq k k').
Proof.
  induction l as [|x l IH]; simpl; [reflexivity|].
  destruct (strict_eq (key x) k') eqn:E1; simpl.
  - rewrite IH. apply strict_eq_spec in E1.
    destruct (strict_eq (key x) k) eqn:E2; simpl; [|reflexivity].
    apply strict_eq_spec in E2. simpl in E1, E2.
    rewrite <- E2, E1, strict_eq_refl. simpl. now rewrite andb_false_r.
  - rewrite IH.
    destruct (strict_eq (key x) k) eqn:E2; simpl; [|reflexivity].
    apply strict_eq_spec in E2. simpl in E2. rewrite <- E2.
    simpl in E1. rewrite E1. simpl.
    destruct (hasKey valueKey (get x valueKey) l); reflexivity.
Qed.

Lemma toggled_hasKey k (sel : list Obj) o :
  hasKey valueKey k (Multi.toggled valueKey sel o) =
  if strict_eq (key o) k then negb (hasKey valueKey k sel)
  else hasKey valueKey k sel.
Proof.
  unfold Multi.toggled. fold (hasKey valueKey (key o) sel).
  destruct (hasKey valueKey (key o) sel) eqn:Ho.
  - rewrite hasKey_dropKey. rewrite (strict_eq_sym k).
    destruct (strict_eq (key o) k) eqn:E; simpl.
    + apply strict_eq_spec in E. simpl in E. rewrite <- E. simpl in Ho.
      rewrite Ho. reflexivity.
    + apply andb_true_r.
  - rewrite hasKey_snoc.
    destruct (strict_eq (key o) k) eqn:E; simpl.
    + apply strict_eq_spec in E. simpl in E. rewrite <- E. simpl in Ho.
      rewrite Ho. reflexivity.
    + apply orb_false_r.
Qed.

Lemma isOn_snoc default pre o k :
  isOn valueKey default (pre ++ [o]) k =
  if strict_eq (key o) k then negb (isOn valueKey default pre k)
  else isOn valueKey default pre k.
Proof. unfold isOn. rewrite fold_left_app. reflexivity. Qed.

Lemma toggledOnKept_snoc default post : forall pre o,
  toggledOnKept valueKey default pre (post ++ [o]) =
  dropKey (key o) (toggledOnKept valueKey default pre post)
  ++ (if negb (isOn valueKey default (pre ++ post) (key o)) then [o] else []).
Proof.
  induction post as [|x rest IH]; intros pre o; simpl.
  - rewrite !app_nil_r, andb_true_r. reflexivity.
  - rewrite IH, hasKey_snoc, List.filter_app, <- !app_assoc. simpl.
    f_equal.
    rewrite (strict_eq_sym (get o valueKey)).
    destruct (isOn valueKey default pre (get x valueKey)); simpl;
      [reflexivity|].
    destruct (hasKey valueKey (get x valueKey) rest); simpl; [reflexivity|].
    destruct (strict_eq (get x valueKey) (get o valueKey)); reflexivity.
Qed.

Lemma filter_all {A} (l : list A) : List.filter (fun _ => true) l = l.
Proof. induction l; simpl; congruence. Qed.

Lemma filter_twice {A} (f g : A -> bool) (l : list A) :
  List.filter f (List.filter g l) = List.filter (fun x => g x && f x) l.
Proof.
  induction l as [|x l IH]; simpl; [reflexivity|].
  destruct (g x); simpl; [destruct (f x)|]; rewrite ?IH; reflexivity.
Qed.

Lemma runToggles_snoc default ts o :
  Multi.runToggles valueKey default (ts ++ [o]) =
  Multi.toggled valueKey (Multi.runToggles valueKey default ts) o.
Proof. unfold Multi.runToggles. now rewrite fold_left_app. Qed.

(** The run of the code's [toggled] is the selection of the prose, and a
    key is selected exactly when it is on. *)
Lemma runToggles_spec default ts :
  Multi.runToggles valueKey default ts = selectionSpec valueKey default ts
  /\ forall k, hasKey valueKey k (Multi.runToggles valueKey default ts)
               = isOn valueKey default ts k.
Proof.
  induction ts as [|o ts [IHsel IHon]] using rev_ind.
  - split; [|reflexivity].
    unfold selectionSpec. simpl. now rewrite filter_all, app_nil_r.
  - split.
    + rewrite runToggles_snoc. unfold Multi.toggled.
      fold (hasKey valueKey (key o) (Multi.runToggles valueKey default ts)).
      rewrite IHon. unfold selectionSpec at 1.
      rewrite toggledOnKept_snoc. simpl app at 2.
      assert (Hd : List.filter (fun d => negb (hasKey valueKey (key d) (ts ++ [o])))
                     default
                   = dropKey (key o)
                       (List.filter (fun d => negb (hasKey valueKey (key d) ts))
                          default)).
      { rewrite filter_twice. apply List.filter_ext. intros d.
        rewrite hasKey_snoc, negb_orb, (strict_eq_sym (get o valueKey)).
        reflexivity. }
      rewrite Hd, app_assoc, <- List.filter_app.
      fold (selectionSpec valueKey default ts). rewrite <- IHsel.
      destruct (isOn valueKey default ts (key o)) eqn:E; simpl.
      * now rewrite app_nil_r.
      * rewrite dropKey_absent; [reflexivity|]. now rewrite IHon.
    + intros k. rewrite runToggles_snoc, toggled_hasKey, isOn_snoc, IHon.
      reflexivity.
Qed.

End ToggleFacts.

(** The boolean filter of the code is the filter by a decidable property. *)
Lemma filter_bool_prop {A} (f : A -> bool) (P : A -> Prop)
    `{!forall x, Decision (P x)} (l : list A) :
  (forall x, f x = true <-> P x) -> List.filter f l = filter P l.
Proof.
  intros Hf. induction l as [|x l IH]; [reflexivity|].
  simpl. rewrite filter_cons, IH.
  destruct (decide (P x)) as [Hp|Hp], (f x) eqn:E; try reflexivity.
  - apply Hf in Hp. congruence.
  - apply Hf in E. contradiction.
Qed.

(** The handler after a run of toggles: what it stores is the selection of
    the prose, its first call is [onValueChange] with the value keys of
    that selection, and it appends or removes by value key. *)
Lemma toggleOption_sequence (valueKey : string) (alt : bool)
    (defaultValue ts : list Obj) (o : Obj) :
  let sel := Multi.runToggles valueKey defaultValue ts in
  let r := Multi.toggleOption valueKey alt sel o in
  fst r = selectionSpec valueKey defaultValue (ts ++ [o])
  /\ hd_error (snd r)
     = Some (CallValueChange
               (map (fun x => get x valueKey)
                  (selectionSpec valueKey defaultValue (ts ++ [o]))))
  /\ ((forall x, In x sel -> get x valueKey <> get o valueKey) ->
      fst r = sel ++ [o])
  /\ ((exists x, In x sel /\ get x valueKey = get o valueKey) ->
      fst r = filter (fun x => get x valueKey <> get o valueKey) sel).
Proof.
  intros sel r.
  assert (Hrun : fst r = selectionSpec valueKey defaultValue (ts ++ [o])).
  { subst r sel. simpl. rewrite <- runToggles_snoc.
    apply runToggles_spec. }
  split; [exact Hrun|]. split.
  { subst r. simpl in *. now rewrite Hrun. }
  subst r. simpl. unfold Multi.toggled.
  fold (hasKey valueKey (get o valueKey) sel). split.
  - intros Hno.
    destruct (hasKey valueKey (get o valueKey) sel) eqn:E; [|reflexivity].
    apply hasKey_In in E as [x [Hx Hk]]. now destruct (Hno x Hx).
  - intros Hex. apply hasKey_In in Hex. rewrite Hex.
    apply filter_bool_prop. intros x. rewrite negb_true_iff.
    apply strict_eq_false.
Qed.

(** ** MultiSelect: distinct value keys *)

Section DistinctKeys.
Variable options : list Obj.
Variable valueKey : string.
Variable maxCount : Z.
Variable alt : bool.

Local Abbreviation keys := (map (fun o : Obj => get o valueKey)).

Lemma keys_filter_In (g : Obj -> bool) (l : list Obj) k :
  k ∈ keys (List.filter g l) -> k ∈ keys l.
Proof.
  rewrite !list_elem_of_In, !in_map_iff. intros [x [E Hx]]. exists x. split; [assumption|].
  now apply List.filter_In in Hx.
Qed.

Lemma NoDup_keys_filter (g : Obj -> bool) (l : list Obj) :
  NoDup (keys l) -> NoDup (keys (List.filter g l)).
Proof.
  induction l as [|x l IH]; simpl; intros H; [constructor|].
  inversion H as [|? ? Hnin Hnd]; subst.
  destruct (g x); simpl; [|now apply IH].
  constructor; [|now apply IH].
  intros Hin. apply Hnin. now apply keys_filter_In in Hin.
Qed.

Lemma NoDup_keys_snoc (l : list Obj) (x : Obj) :
  NoDup (keys l) -> hasKey valueKey (get x valueKey) l = false ->
  NoDup (keys (l ++ [x])).
Proof.
  induction l as [|y l IH]; simpl; intros Hnd Hk.
  - constructor; [apply not_elem_of_nil|constructor].
  - apply orb_false_iff in Hk as [Hy Hk].
    inversion Hnd as [|? ? Hnin Hnd']; subst.
    constructor; [|now apply IH].
    rewrite map_app, elem_of_app. simpl. rewrite list_elem_of_singleton.
    intros [Hin|E]; [contradiction|].
    apply strict_eq_false in Hy. congruence.
Qed.

Lemma NoDup_keys_firstn (n : nat) (l : list Obj) :
  NoDup (keys l) -> NoDup (keys (firstn n l)).
Proof.
  intros H. rewrite <- List.firstn_map.
  eapply sublist_NoDup; [exact H|apply sublist_take].
Qed.

(** Every selection operation keeps the value keys distinct, given that
    those of the option list are. *)
Lemma applyOp_distinct (sel : list Obj) (op : Multi.Op) :
  NoDup (keys options) -> NoDup (keys sel) ->
  NoDup (keys (fst (Multi.applyOp options valueKey maxCount alt sel op))).
Proof.
  intros Hopt Hsel. destruct op as [o| | |]; simpl.
  - unfold Multi.toggled.
    destruct (existsb _ sel) eqn:E.
    + now apply NoDup_keys_filter.
    + now apply NoDup_keys_snoc.
  - unfold Multi.toggleAll.
    destruct (Nat.eqb _ _); simpl; [constructor|assumption].
  - constructor.
  - unfold slice0. now apply NoDup_keys_firstn.
Qed.

End DistinctKeys.

(** Distinct value keys in [defaultValue] and in the option list stay
    distinct along any run of the four handlers. *)
Lemma runOps_distinct (options : list Obj) (valueKey : string)
    (maxCount : Z) (alt : bool) (defaultValue : list Obj)
    (ops : list Multi.Op) :
  NoDup (map (fun o => get o valueKey) defaultValue) ->
  NoDup (map (fun o => get o valueKey) options) ->
  NoDup (map (fun o => get o valueKey)
           (Multi.runOps options valueKey maxCount alt defaultValue ops)).
Proof.
  intros Hdef Hopt. unfold Multi.runOps.
  revert defaultValue Hdef.
  induction ops as [|op ops IH]; intros sel Hsel; simpl; [assumption|].
  apply IH. now apply applyOp_distinct.
Qed.

(** ** Rendering facts *)

Lemma when_frame {S A : Type} (proj : S -> A) (c : bool) (f : S -> S) (s : S) :
  (forall x, proj (f x) = proj x) -> proj (when c f s) = proj s.
Proof. intros H. unfold when. destruct c; [apply H|reflexivity]. Qed.

(** Case analysis on the conditionals of an effect. *)
Ltac split_ifs :=
  repeat match goal with
    | |- context [if ?c then _ else _] => destruct c eqn:?
    | |- context [match ?x with Some _ => _ | None => _ end] =>
        destruct x eqn:?
    end.

Ltac single_unfold :=
  unfold Single.debounceEffect, Single.refEffect, Single.searchEffect,
    Single.resetSearchEffect, Single.scrollEffect,
    Single.scrollEffectCleanup,
    Single.set_props, Single.set_isOpen, Single.set_localSearch,
    Single.set_debouncedSearch, Single.set_debounceTimer,
    Single.set_isFetchingNextPageRef, Single.set_container,
    Single.set_setupTimer, Single.set_listeners, Single.set_rendered,
    Single.set_mounted, Single.set_geometry, Single.emit.

(** Walk through the effects of a commit for one field: an effect that
    does not write the field is skipped, the one that does is opened. *)
Ltac single_field :=
  repeat first
    [ rewrite when_frame;
      [|solve [intros ?; single_unfold; cbn; split_ifs; reflexivity]]
    | unfold when at 1;
      match goal with
      | |- context [if ?c then _ else _] => destruct c
      end;
      single_unfold; cbn ];
  try reflexivity.

(** What one commit does, field by field. *)
Lemma single_commitPass_fields (s : Single.State) :
  let cur := Single.depsOf s in
  let prev := Single.rendered s in
  let s' := Single.commitPass s in
  (Single.props s' = Single.props s
   /\ Single.isOpen s' = Single.isOpen s
   /\ Single.debouncedSearch s' = Single.debouncedSearch s
   /\ Single.listeners s' = Single.listeners s
   /\ Single.mounted s' = Single.mounted s
   /\ Single.rendered s' = Some cur)
  /\ Single.localSearch s'
     = (if differs prev cur Single.d_isOpen
        then (if Single.isOpen s then Single.localSearch s else "")
        else Single.localSearch s)
  /\ Single.debounceTimer s'
     = (if differsAfterMount prev cur Single.d_localSearch
        then Some (Single.localSearch s) else Single.debounceTimer s)
  /\ Single.isFetchingNextPageRef s'
     = (if differs prev cur Single.d_isFetchingNextPage
        then Single.isFetchingNextPage (Single.props s)
        else Single.isFetchingNextPageRef s)
  /\ Single.scrollRef s'
     = (if Single.isOpen s
        then match Single.scrollRef s with
             | Some e => Some e
             | None => Some (Single.nextId s)
             end
        else None)
  /\ Single.setupTimer s'
     = (if Single.scrollDepsChanged prev cur
        then Some {| Single.t_hasNextPage := Single.hasNextPage (Single.props s);
                     Single.t_isLoading := Single.isLoading (Single.props s);
                     Single.t_onLoadMore := Single.onLoadMore (Single.props s) |}
        else Single.setupTimer s)
  /\ Single.log s'
     = Single.log s ++
       (if Single.searchDepsChanged prev cur
        then match Single.onSearchChange (Single.props s) with
             | Some cb =>
                 if Single.isOpen s
                 then [CallSearchChange cb (Single.debouncedSearch s)]
                 else []
             | None => []
             end
        else []).
Proof.
  destruct s as [p o ls ds dt r sr g st l rd n m lg].
  unfold Single.commitPass, Single.attachRefs. cbn.
  destruct o, sr, rd;
    unfold Single.depsOf, Single.scrollDepsChanged, Single.searchDepsChanged,
      differs, differsAfterMount;
    cbn; repeat split; single_field; single_unfold; cbn;
    rewrite ?app_nil_r; try reflexivity;
    split_ifs; rewrite ?app_nil_r; reflexivity.
Qed.

Lemma skipn_length_app {A} (l k : list A) : skipn (length l) (l ++ k) = k.
Proof. induction l; simpl; auto. Qed.

Lemma newCalls_app_multi (s s' : Multi.State) (cs : list Call) :
  Multi.log s' = Multi.log s ++ cs -> Multi.newCalls s s' = cs.
Proof. intros H. unfold Multi.newCalls. now rewrite H, skipn_length_app. Qed.

Lemma newCalls_app_single (s s' : Single.State) (cs : list Call) :
  Single.log s' = Single.log s ++ cs -> Single.newCalls s s' = cs.
Proof. intros H. unfold Single.newCalls. now rewrite H, skipn_length_app. Qed.

(** Decide the dependency tests of [H] that compare a term with itself. *)
Ltac decide_same_in H :=
  repeat (rewrite bool_decide_eq_true_2 in H by reflexivity).

(** *** SingleSelect: a render through its second pass *)

Lemma single_commit_fields (s : Single.State) :
  let cur := Single.depsOf s in
  let prev := Single.rendered s in
  let s' := Single.commit s in
  (Single.props s' = Single.props s
   /\ Single.isOpen s' = Single.isOpen s
   /\ Single.debouncedSearch s' = Single.debouncedSearch s
   /\ Single.listeners s' = Single.listeners s
   /\ Single.mounted s' = Single.mounted s
   /\ Single.rendered s' = Some (Single.depsOf s'))
  /\ Single.localSearch s'
     = (if differs prev cur Single.d_isOpen
        then (if Single.isOpen s then Single.localSearch s else "")
        else Single.localSearch s)
  /\ Single.isFetchingNextPageRef s'
     = (if differs prev cur Single.d_isFetchingNextPage
        then Single.isFetchingNextPage (Single.props s)
        else Single.isFetchingNextPageRef s)
  /\ Single.scrollRef s'
     = (if Single.isOpen s
        then match Single.scrollRef s with
             | Some e => Some e
             | None => Some (Single.nextId s)
             end
        else None)
  /\ Single.setupTimer s'
     = (if Single.scrollDepsChanged prev cur
        then Some {| Single.t_hasNextPage := Single.hasNextPage (Single.props s);
                     Single.t_isLoading := Single.isLoading (Single.props s);
                     Single.t_onLoadMore := Single.onLoadMore (Single.props s) |}
        else Single.setupTimer s)
  /\ Single.log s'
     = Single.log s ++
       (if Single.searchDepsChanged prev cur
        then match Single.onSearchChange (Single.props s) with
             | Some cb =>
                 if Single.isOpen s
                 then [CallSearchChange cb (Single.debouncedSearch s)]
                 else []
             | None => []
             end
        else []).
Proof.
  cbv zeta. unfold Single.commit.
  pose proof (single_commitPass_fields s) as F1.
  pose proof (single_commitPass_fields (Single.commitPass s)) as F2.
  cbv zeta in F1, F2.
  set (s1 := Single.commitPass s) in *.
  set (s2 := Single.commitPass s1) in *. clearbody s2 s1.
  destruct F1 as ((P1 & O1 & D1 & L1 & M1 & R1)
                  & LS1 & DT1 & Ref1 & SR1 & ST1 & Log1).
  destruct F2 as ((P2 & O2 & D2 & L2 & M2 & R2)
                  & LS2 & DT2 & Ref2 & SR2 & ST2 & Log2).
  rewrite R1 in *.
  unfold Single.scrollDepsChanged, Single.searchDepsChanged, differs in
    LS2, Ref2, ST2, Log2.
  cbn in LS2, Ref2, ST2, Log2.
  rewrite P1 in Ref2, ST2, Log2. rewrite O1 in LS2, ST2, Log2.
  rewrite D1 in Log2.
  decide_same_in LS2; decide_same_in Ref2; decide_same_in ST2;
  decide_same_in Log2.
  cbn in LS2, Ref2, ST2, Log2. rewrite app_nil_r in Log2.
  repeat split; try congruence.
  - rewrite R2. f_equal.
    unfold Single.depsOf. now rewrite P2, O2, D2, LS2.
  - rewrite SR2, O1, SR1.
    destruct (Single.isOpen s), (Single.scrollRef s); reflexivity.
Qed.

(** *** MultiSelect *)

Ltac multi_unfold :=
  unfold Multi.debounceEffect, Multi.refEffect, Multi.searchEffect,
    Multi.resetSearchEffect, Multi.scrollEffect,
    Multi.scrollEffectCleanup,
    Multi.set_props, Multi.set_selectedOptions, Multi.set_isPopoverOpen,
    Multi.set_localSearch,
    Multi.set_debouncedSearch, Multi.set_debounceTimer,
    Multi.set_isFetchingNextPageRef, Multi.set_container,
    Multi.set_setupTimer, Multi.set_listeners, Multi.set_rendered,
    Multi.set_mounted, Multi.set_geometry, Multi.emit.

Ltac multi_field :=
  repeat first
    [ rewrite when_frame;
      [|solve [intros ?; multi_unfold; cbn; split_ifs; reflexivity]]
    | unfold when at 1;
      match goal with
      | |- context [if ?c then _ else _] => destruct c
      end;
      multi_unfold; cbn ];
  try reflexivity.

(** What one commit does, field by field. *)
Lemma multi_commitPass_fields (s : Multi.State) :
  let cur := Multi.depsOf s in
  let prev := Multi.rendered s in
  let s' := Multi.commitPass s in
  (Multi.props s' = Multi.props s
   /\ Multi.selectedOptions s' = Multi.selectedOptions s
   /\ Multi.isPopoverOpen s' = Multi.isPopoverOpen s
   /\ Multi.debouncedSearch s' = Multi.debouncedSearch s
   /\ Multi.listeners s' = Multi.listeners s
   /\ Multi.mounted s' = Multi.mounted s
   /\ Multi.rendered s' = Some cur)
  /\ Multi.localSearch s'
     = (if differs prev cur Multi.d_isPopoverOpen
        then (if Multi.isPopoverOpen s then Multi.localSearch s else "")
        else Multi.localSearch s)
  /\ Multi.debounceTimer s'
     = (if differsAfterMount prev cur Multi.d_localSearch
        then Some (Multi.localSearch s) else Multi.debounceTimer s)
  /\ Multi.isFetchingNextPageRef s'
     = (if differs prev cur Multi.d_isFetchingNextPage
        then Multi.isFetchingNextPage (Multi.props s)
        else Multi.isFetchingNextPageRef s)
  /\ Multi.scrollRef s'
     = (if Multi.isPopoverOpen s
        then match Multi.scrollRef s with
             | Some e => Some e
             | None => Some (Multi.nextId s)
             end
        else None)
  /\ Multi.setupTimer s'
     = (if Multi.scrollDepsChanged prev cur
        then Some {| Multi.t_hasNextPage := Multi.hasNextPage (Multi.props s);
                     Multi.t_isLoading := Multi.isLoading (Multi.props s);
                     Multi.t_onLoadMore := Multi.onLoadMore (Multi.props s) |}
        else Multi.setupTimer s)
  /\ Multi.log s'
     = Multi.log s ++
       (if Multi.searchDepsChanged prev cur
        then match Multi.onSearchChange (Multi.props s) with
             | Some cb => [CallSearchChange cb (Multi.debouncedSearch s)]
             | None => []
             end
        else []).
Proof.
  destruct s as [p so o ls ds dt r sr g st l rd n m lg].
  unfold Multi.commitPass, Multi.attachRefs. cbn.
  destruct o, sr, rd;
    unfold Multi.depsOf, Multi.scrollDepsChanged, Multi.searchDepsChanged,
      differs, differsAfterMount;
    cbn; repeat split; multi_field; multi_unfold; cbn;
    rewrite ?app_nil_r; try reflexivity;
    split_ifs; rewrite ?app_nil_r; reflexivity.
Qed.

(** What a render does through its second pass: the second pass only
    restarts the debounce timer when the first one emptied the search
    text. *)
Lemma multi_commit_fields (s : Multi.State) :
  let cur := Multi.depsOf s in
  let prev := Multi.rendered s in
  let s' := Multi.commit s in
  (Multi.props s' = Multi.props s
   /\ Multi.selectedOptions s' = Multi.selectedOptions s
   /\ Multi.isPopoverOpen s' = Multi.isPopoverOpen s
   /\ Multi.debouncedSearch s' = Multi.debouncedSearch s
   /\ Multi.listeners s' = Multi.listeners s
   /\ Multi.mounted s' = Multi.mounted s
   /\ Multi.rendered s' = Some (Multi.depsOf s'))
  /\ Multi.localSearch s'
     = (if differs prev cur Multi.d_isPopoverOpen
        then (if Multi.isPopoverOpen s then Multi.localSearch s else "")
        else Multi.localSearch s)
  /\ Multi.isFetchingNextPageRef s'
     = (if differs prev cur Multi.d_isFetchingNextPage
        then Multi.isFetchingNextPage (Multi.props s)
        else Multi.isFetchingNextPageRef s)
  /\ Multi.scrollRef s'
     = (if Multi.isPopoverOpen s
        then match Multi.scrollRef s with
             | Some e => Some e
             | None => Some (Multi.nextId s)
             end
        else None)
  /\ Multi.setupTimer s'
     = (if Multi.scrollDepsChanged prev cur
        then Some {| Multi.t_hasNextPage := Multi.hasNextPage (Multi.props s);
                     Multi.t_isLoading := Multi.isLoading (Multi.props s);
                     Multi.t_onLoadMore := Multi.onLoadMore (Multi.props s) |}
        else Multi.setupTimer s)
  /\ Multi.log s'
     = Multi.log s ++
       (if Multi.searchDepsChanged prev cur
        then match Multi.onSearchChange (Multi.props s) with
             | Some cb => [CallSearchChange cb (Multi.debouncedSearch s)]
             | None => []
             end
        else []).
Proof.
  cbv zeta. unfold Multi.commit.
  pose proof (multi_commitPass_fields s) as F1.
  pose proof (multi_commitPass_fields (Multi.commitPass s)) as F2.
  cbv zeta in F1, F2.
  set (s1 := Multi.commitPass s) in *.
  set (s2 := Multi.commitPass s1) in *. clearbody s2 s1.
  destruct F1 as ((P1 & So1 & O1 & D1 & L1 & M1 & R1)
                  & LS1 & DT1 & Ref1 & SR1 & ST1 & Log1).
  destruct F2 as ((P2 & So2 & O2 & D2 & L2 & M2 & R2)
                  & LS2 & DT2 & Ref2 & SR2 & ST2 & Log2).
  rewrite R1 in *.
  unfold Multi.scrollDepsChanged, Multi.searchDepsChanged, differs in
    LS2, Ref2, ST2, Log2.
  cbn in LS2, Ref2, ST2, Log2.
  rewrite P1 in Ref2, ST2, Log2. rewrite O1 in LS2, ST2. rewrite D1 in Log2.
  decide_same_in LS2; decide_same_in Ref2; decide_same_in ST2;
  decide_same_in Log2.
  cbn in LS2, Ref2, ST2, Log2. rewrite app_nil_r in Log2.
  repeat split; try congruence.
  - rewrite R2. f_equal.
    unfold Multi.depsOf. now rewrite P2, O2, D2, LS2.
  - rewrite SR2, O1, SR1.
    destruct (Multi.isPopoverOpen s), (Multi.scrollRef s); reflexivity.
Qed.

(** ** MultiSelect: the selection handlers in the component *)

Lemma multi_searchDeps_same (d : Multi.Deps) :
  Multi.searchDepsChanged (Some d) d = false.
Proof.
  unfold Multi.searchDepsChanged, differs.
  now rewrite !bool_decide_eq_true_2 by reflexivity.
Qed.

Lemma multi_init_facts (p : Multi.Props) :
  Multi.mounted (Multi.init p) = true
  /\ Multi.rendered (Multi.init p) = Some (Multi.depsOf (Multi.init p))
  /\ Multi.props (Multi.init p) = p
  /\ Multi.selectedOptions (Multi.init p) = Multi.defaultValue p.
Proof.
  unfold Multi.init.
  match goal with
  | |- context [Multi.commit ?x] =>
      destruct (multi_commit_fields x) as ((P & So & _ & _ & _ & M & R) & _)
  end.
  cbv zeta in P, So, M, R. now repeat split.
Qed.

(** A selection event stores what the handler computes and calls what the
    handler calls; nothing else of the props or of the rendering state
    moves. *)
Lemma multi_selection_step (s : Multi.State) (op : Multi.Op) :
  Multi.mounted s = true ->
  Multi.rendered s = Some (Multi.depsOf s) ->
  let p := Multi.props s in
  let r := Multi.applyOp (Multi.options p) (Multi.valueKey p)
             (Multi.maxCount p) (Multi.setAlternativeValue p)
             (Multi.selectedOptions s) op in
  let s' := Multi.step s (Multi.EvSelection op) in
  (Multi.mounted s' = true
   /\ Multi.rendered s' = Some (Multi.depsOf s')
   /\ Multi.props s' = Multi.props s)
  /\ Multi.selectedOptions s' = fst r
  /\ Multi.newCalls s s' = snd r.
Proof.
  intros Hm Hr. cbv zeta. unfold Multi.step. rewrite Hm. cbn [negb].
  pose proof (multi_commit_fields (Multi.selectionOp op s)) as F.
  cbv zeta in F.
  set (s' := Multi.commit (Multi.selectionOp op s)) in *. clearbody s'.
  destruct F as ((P & So & _ & _ & _ & M & R) & _ & _ & _ & _ & Log).
  change (Multi.rendered (Multi.selectionOp op s)) with (Multi.rendered s)
    in Log.
  change (Multi.depsOf (Multi.selectionOp op s)) with (Multi.depsOf s) in Log.
  rewrite Hr, multi_searchDeps_same, app_nil_r in Log.
  repeat split; try assumption.
  - now rewrite M.
  - now apply newCalls_app_multi.
Qed.

Lemma multi_run_ops_from (ops : list Multi.Op) : forall s : Multi.State,
  Multi.mounted s = true ->
  Multi.rendered s = Some (Multi.depsOf s) ->
  let p := Multi.props s in
  Multi.selectedOptions (Multi.run s (map Multi.EvSelection ops))
  = Multi.runOps (Multi.options p) (Multi.valueKey p) (Multi.maxCount p)
      (Multi.setAlternativeValue p) (Multi.selectedOptions s) ops.
Proof.
  induction ops as [|op ops IH]; intros s Hm Hr; [reflexivity|].
  cbv zeta. simpl.
  destruct (multi_selection_step s op Hm Hr) as ((M & R & P) & So & _).
  cbv zeta in M, R, P, So. rewrite (IH _ M R). cbv zeta.
  now rewrite P, So.
Qed.

(** The selection after a run of selection events from the first render is
    the run of the handlers from [defaultValue]. *)
Lemma multi_run_ops (p : Multi.Props) (ops : list Multi.Op) :
  Multi.selectedOptions (Multi.run (Multi.init p) (map Multi.EvSelection ops))
  = Multi.runOps (Multi.options p) (Multi.valueKey p) (Multi.maxCount p)
      (Multi.setAlternativeValue p) (Multi.defaultValue p) ops.
Proof.
  destruct (multi_init_facts p) as (M & R & P & So).
  rewrite (multi_run_ops_from ops _ M R). cbv zeta. now rewrite P, So.
Qed.

Lemma runOps_toggles options valueKey maxCount alt (ts : list Obj) :
  forall sel,
  Multi.runOps options valueKey maxCount alt sel (map Multi.OpToggle ts)
  = Multi.runToggles valueKey sel ts.
Proof.
  unfold Multi.runOps, Multi.runToggles.
  induction ts as [|t ts IH]; intros sel; simpl; [reflexivity|apply IH].
Qed.

Lemma multi_run_facts (evs : list Multi.Op) : forall s : Multi.State,
  Multi.mounted s = true ->
  Multi.rendered s = Some (Multi.depsOf s) ->
  let s' := Multi.run s (map Multi.EvSelection evs) in
  Multi.mounted s' = true
  /\ Multi.rendered s' = Some (Multi.depsOf s')
  /\ Multi.props s' = Multi.props s.
Proof.
  induction evs as [|op ops IH]; intros s Hm Hr; [now repeat split|].
  cbv zeta. simpl.
  destruct (multi_selection_step s op Hm Hr) as ((M & R & P) & _).
  cbv zeta in M, R, P. destruct (IH _ M R) as (M' & R' & P').
  cbv zeta in M', R', P'. repeat split; try assumption. congruence.
Qed.

(** *** Sequences of toggles *)

(** C1. For every sequence of [toggleOption] calls from the default
    selection, the selection the last call stores and reports (mapped to
    value keys, as the first call it makes) is the one of the prose: the
    default options never toggled followed by the options toggled on and
    not toggled off afterwards, in order.  A toggle appends its option when
    no selected option has an equal value key and otherwise removes every
    selected option with that key. *)
Theorem C1_toggle_sequence (p : Multi.Props) (ts : list Obj) (o : Obj) :
  let valueKey := Multi.valueKey p in
  let s := Multi.run (Multi.init p)
             (map (fun t => Multi.EvSelection (Multi.OpToggle t)) ts) in
  let s' := Multi.step s (Multi.EvSelection (Multi.OpToggle o)) in
  let sel := Multi.selectedOptions s in
  let sel' := Multi.selectedOptions s' in
  sel' = selectionSpec valueKey (Multi.defaultValue p) (ts ++ [o])
  /\ hd_error (Multi.newCalls s s')
     = Some (CallValueChange (map (fun x => get x valueKey) sel'))
  /\ ((forall x, In x sel -> get x valueKey <> get o valueKey) ->
      sel' = sel ++ [o])
  /\ ((exists x, In x sel /\ get x valueKey = get o valueKey) ->
      sel' = filter (fun x => get x valueKey <> get o valueKey) sel).
Proof.
  cbv zeta. rewrite <- (map_map Multi.OpToggle Multi.EvSelection).
  destruct (multi_init_facts p) as (M0 & R0 & P0 & So0).
  destruct (multi_run_facts (map Multi.OpToggle ts) _ M0 R0) as (M & R & P).
  cbv zeta in M, R, P.
  pose proof (multi_run_ops p (map Multi.OpToggle ts)) as Hsel.
  rewrite runOps_toggles in Hsel.
  set (s := Multi.run (Multi.init p)
              (map Multi.EvSelection (map Multi.OpToggle ts))) in *.
  clearbody s.
  destruct (multi_selection_step s (Multi.OpToggle o) M R) as (_ & So & Calls).
  cbv zeta in So, Calls. rewrite P, P0 in So, Calls.
  simpl in So, Calls. rewrite So, Calls, Hsel.
  destruct (toggleOption_sequence (Multi.valueKey p)
              (Multi.setAlternativeValue p) (Multi.defaultValue p) ts o)
    as (H1 & H2 & H3 & H4).
  cbv zeta in H1, H2, H3, H4. simpl in H1, H2, H3, H4.
  repeat split; assumption.
Qed.

Lemma C1_witness :
  let p := Sample.multiProps [Sample.apple] None None in
  let s := Multi.run (Multi.init p)
             (map (fun t => Multi.EvSelection (Multi.OpToggle t))
                [Sample.banana; Sample.apple]) in
  let s' := Multi.step s (Multi.EvSelection (Multi.OpToggle Sample.cherry)) in
  Multi.selectedOptions s' = Multi.selectedOptions s ++ [Sample.cherry]
  /\ Multi.selectedOptions s'
     = selectionSpec (Multi.valueKey p) (Multi.defaultValue p)
         ([Sample.banana; Sample.apple] ++ [Sample.cherry]).
Proof.
  cbv zeta.
  destruct (C1_toggle_sequence (Sample.multiProps [Sample.apple] None None)
              [Sample.banana; Sample.apple] Sample.cherry)
    as (H1 & _ & H3 & _).
  split; [|exact H1].
  apply H3. intros x. vm_compute. intros [<-|[]]. discriminate.
Defined.

(** *** Select all *)

Lemma toggleAll_by_length (options : list Obj) (valueKey : string)
    (alt : bool) (sel : list Obj) :
  (length sel <> length options ->
   Multi.toggleAll options valueKey alt sel
   = (options,
      CallValueChange (map (fun o => get o valueKey) options)
      :: (if alt then [CallSetAlternative options] else [])))
  /\ (length sel = length options ->
      Multi.toggleAll options valueKey alt sel
      = ([], CallValueChange []
             :: (if alt then [CallSetAlternative []] else []))).
Proof.
  unfold Multi.toggleAll. split; intros H.
  - apply Nat.eqb_neq in H. rewrite H. reflexivity.
  - apply Nat.eqb_eq in H. rewrite H. reflexivity.
Qed.

(** C3, as amended.  In every committed state of MultiSelect, select-all
    compares lengths: when the selection and the current option list differ
    in length the selection becomes the option list and its value keys are
    reported, and when they have the same length the selection is cleared
    and the empty list is reported. *)
Theorem C3_toggleAll_by_length (s : Multi.State) :
  Multi.mounted s = true ->
  Multi.rendered s = Some (Multi.depsOf s) ->
  let p := Multi.props s in
  let s' := Multi.step s (Multi.EvSelection Multi.OpToggleAll) in
  (length (Multi.selectedOptions s) <> length (Multi.options p) ->
   Multi.selectedOptions s' = Multi.options p
   /\ Multi.newCalls s s'
      = CallValueChange
          (map (fun o => get o (Multi.valueKey p)) (Multi.options p))
        :: (if Multi.setAlternativeValue p
            then [CallSetAlternative (Multi.options p)] else []))
  /\ (length (Multi.selectedOptions s) = length (Multi.options p) ->
      Multi.selectedOptions s' = []
      /\ Multi.newCalls s s'
         = CallValueChange []
           :: (if Multi.setAlternativeValue p
               then [CallSetAlternative []] else [])).
Proof.
  intros Hm Hr. cbv zeta.
  destruct (multi_selection_step s Multi.OpToggleAll Hm Hr) as (_ & So & Calls).
  cbv zeta in So, Calls. simpl in So, Calls. rewrite So, Calls.
  destruct (toggleAll_by_length (Multi.options (Multi.props s))
              (Multi.valueKey (Multi.props s))
              (Multi.setAlternativeValue (Multi.props s))
              (Multi.selectedOptions s)) as [H1 H2].
  split; intros H.
  - now rewrite (H1 H).
  - now rewrite (H2 H).
Qed.

Lemma C3_witness :
  let s := Multi.init (Sample.multiProps [Sample.cherry] None None) in
  let s' := Multi.step s (Multi.EvSelection Multi.OpToggleAll) in
  let s'' := Multi.step s' (Multi.EvSelection Multi.OpToggleAll) in
  Multi.selectedOptions s' = [Sample.apple; Sample.banana]
  /\ Multi.selectedOptions s'' = [].
Proof.
  cbv zeta. split.
  - apply (C3_toggleAll_by_length
             (Multi.init (Sample.multiProps [Sample.cherry] None None)));
      vm_compute; solve [reflexivity | discriminate].
  - apply (C3_toggleAll_by_length
             (Multi.step
                (Multi.init (Sample.multiProps [Sample.cherry] None None))
                (Multi.EvSelection Multi.OpToggleAll)));
      vm_compute; reflexivity.
Defined.

(** C3 as stated fails: with the option list [[apple; banana]] and the
    selection [[cherry; banana]] (the default value), the selection is not
    the option list, yet select-all clears it and reports the empty list
    instead of selecting the two options. *)
Lemma C3_counterexample :
  let p := Sample.multiProps [Sample.cherry; Sample.banana] None None in
  let s := Multi.init p in
  let s' := Multi.step s (Multi.EvSelection Multi.OpToggleAll) in
  Multi.options (Multi.props s) = [Sample.apple; Sample.banana]
  /\ Multi.selectedOptions s = [Sample.cherry; Sample.banana]
  /\ Multi.selectedOptions s <> Multi.options (Multi.props s)
  /\ Multi.selectedOptions s' = []
  /\ Multi.newCalls s s' = [CallValueChange []].
Proof.
  cbv zeta. split; [reflexivity|]. split; [reflexivity|].
  split; [discriminate|]. split; reflexivity.
Qed.

(** *** Distinct value keys *)

(** C9, as amended.  When the value keys of [defaultValue] are pairwise
    distinct and those of the option list are pairwise distinct, the
    selection after any sequence of [toggleOption], [toggleAll],
    [handleClear] and [clearExtraOptions] has pairwise distinct value
    keys. *)
Theorem C9_distinct_keys (p : Multi.Props) (ops : list Multi.Op) :
  NoDup (map (fun o => get o (Multi.valueKey p)) (Multi.defaultValue p)) ->
  NoDup (map (fun o => get o (Multi.valueKey p)) (Multi.options p)) ->
  NoDup (map (fun o => get o (Multi.valueKey p))
           (Multi.selectedOptions
              (Multi.run (Multi.init p) (map Multi.EvSelection ops)))).
Proof.
  intros Hdef Hopt. rewrite multi_run_ops. now apply runOps_distinct.
Qed.

Lemma C9_witness :
  let p := Sample.multiProps [Sample.cherry] None None in
  NoDup (map (fun o => get o (Multi.valueKey p))
           (Multi.selectedOptions
              (Multi.run (Multi.init p)
                 (map Multi.EvSelection
                    [Multi.OpToggle Sample.apple; Multi.OpToggle Sample.banana;
                     Multi.OpClearExtra; Multi.OpToggleAll])))).
Proof.
  cbv zeta.
  apply (C9_distinct_keys (Sample.multiProps [Sample.cherry] None None)).
  - vm_compute. apply NoDup_singleton.
  - vm_compute. apply NoDup_cons. split; [|apply NoDup_singleton].
    rewrite list_elem_of_singleton. discriminate.
Defined.

(** C9 as stated fails: a default value with two records of value key 1 is
    a selection with two equal value keys (before any operation), and it
    stays so after toggling another option. *)
Lemma C9_counterexample :
  let p := Sample.multiProps [Sample.apple; Sample.apple'] None None in
  let s0 := Multi.init p in
  let s1 := Multi.step s0 (Multi.EvSelection (Multi.OpToggle Sample.banana)) in
  map (fun o => get o "id") (Multi.selectedOptions s0) = [JNum 1; JNum 1]
  /\ map (fun o => get o "id") (Multi.selectedOptions s1)
     = [JNum 1; JNum 1; JNum 2]
  /\ ~ NoDup (map (fun o => get o "id") (Multi.selectedOptions s0))
  /\ ~ NoDup (map (fun o => get o "id") (Multi.selectedOptions s1)).
Proof.
  vm_compute. split; [reflexivity|]. split; [reflexivity|].
  split; intros H; inversion H as [|? ? Hnin _]; subst;
    apply Hnin; left.
Qed.

(** ** SingleSelect: choosing an item *)

Lemma single_commit_closed (s : Single.State) :
  Single.isOpen s = false ->
  Single.isOpen (Single.commit s) = false
  /\ Single.scrollRef (Single.commit s) = None
  /\ Single.log (Single.commit s) = Single.log s.
Proof.
  intros H.
  destruct (single_commit_fields s) as ((_ & O & _) & _ & _ & SR & _ & Log).
  cbv zeta in O, SR, Log. rewrite H in SR, Log.
  repeat split; try congruence.
  rewrite Log.
  destruct (Single.searchDepsChanged _ _),
    (Single.onSearchChange (Single.props s)); apply app_nil_r.
Qed.

(** What choosing the item of [o] does, through the render that follows. *)
Lemma single_onSelect_commit (s : Single.State) (o : Obj) :
  let p := Single.props s in
  let s' := Single.commit (Single.onSelect o s) in
  Single.isOpen s' = false
  /\ Single.scrollRef s' = None
  /\ Single.log s'
     = Single.log s
       ++ [CallValueChange1
             (if strict_eq (get o (Single.valueKey p)) (Single.value p)
              then JNull else get o (Single.valueKey p))].
Proof.
  intros p s'. subst s'.
  assert (Hc : Single.isOpen (Single.onSelect o s) = false) by reflexivity.
  destruct (single_commit_closed _ Hc) as (H1 & H2 & H3).
  split; [exact H1|]. split; [exact H2|]. exact H3.
Qed.

(** C7. Selecting the option whose value key equals the current value
    reports null to [onValueChange]; selecting an option with another value
    key reports that key, and the popover is closed. *)
Theorem C7_single_select (s : Single.State) (o : Obj) :
  let p := Single.props s in
  let s' := Single.commit (Single.onSelect o s) in
  (get o (Single.valueKey p) = Single.value p ->
   Single.newCalls s s' = [CallValueChange1 JNull])
  /\ (get o (Single.valueKey p) <> Single.value p ->
      Single.newCalls s s' = [CallValueChange1 (get o (Single.valueKey p))]
      /\ Single.isOpen s' = false).
Proof.
  intros p s'.
  destruct (single_onSelect_commit s o) as [Ho [_ Hl]].
  fold p s' in Ho, Hl. unfold Single.newCalls. rewrite Hl, skipn_length_app.
  split; intros H.
  - apply strict_eq_spec in H. now rewrite H.
  - apply strict_eq_false in H. rewrite H. now split.
Qed.

Lemma C7_witness :
  let s := Single.run (Single.init (Sample.singleProps None None None))
             [Single.EvOpenChange true] in
  let p := Single.props s in
  Single.newCalls s (Single.commit (Single.onSelect Sample.apple s))
  = [CallValueChange1 JNull]
  /\ (Single.newCalls s (Single.commit (Single.onSelect Sample.banana s))
      = [CallValueChange1 (get Sample.banana (Single.valueKey p))]
      /\ Single.isOpen (Single.commit (Single.onSelect Sample.banana s))
         = false).
Proof.
  cbv zeta. split.
  - apply (C7_single_select
             (Single.run (Single.init (Sample.singleProps None None None))
                [Single.EvOpenChange true]) Sample.apple).
    vm_compute. reflexivity.
  - apply (C7_single_select
             (Single.run (Single.init (Sample.singleProps None None None))
                [Single.EvOpenChange true]) Sample.banana).
    vm_compute. discriminate.
Defined.

(** C10. Activating any item shown in the open list closes the popover,
    also when the item is the selected one: null is reported and the
    popover is closed all the same. *)
Theorem C10_select_closes (s : Single.State) (i : nat) (o : Obj) :
  Single.mounted s = true ->
  Single.isOpen s = true ->
  nth_error (Single.filteredOptions (Single.props s) (Single.debouncedSearch s)) i
  = Some o ->
  let s' := Single.step s (Single.EvSelect i) in
  Single.isOpen s' = false
  /\ Single.scrollRef s' = None
  /\ (get o (Single.valueKey (Single.props s)) = Single.value (Single.props s) ->
      Single.newCalls s s' = [CallValueChange1 JNull]
      /\ Single.isOpen s' = false).
Proof.
  intros Hm Hopen Hnth s'. subst s'. unfold Single.step.
  rewrite Hm, Hopen, Hnth. cbn [negb].
  destruct (single_onSelect_commit s o) as [Ho [Hr Hl]].
  split; [exact Ho|]. split; [exact Hr|].
  intros H. split; [|exact Ho].
  unfold Single.newCalls. rewrite Hl, skipn_length_app.
  apply strict_eq_spec in H. now rewrite H.
Qed.

Lemma C10_witness :
  let s := Single.run (Single.init (Sample.singleProps None None None))
             [Single.EvOpenChange true] in
  let s' := Single.step s (Single.EvSelect 0) in
  Single.isOpen s = true
  /\ Single.isOpen s' = false
  /\ Single.newCalls s s' = [CallValueChange1 JNull].
Proof.
  assert (H := C10_select_closes
              (Single.run (Single.init (Sample.singleProps None None None))
                 [Single.EvOpenChange true]) 0 Sample.apple).
  vm_compute in H. vm_compute.
  destruct H as [H1 [_ H2]]; try reflexivity.
  split; [reflexivity|]. split; [exact H1|].
  apply H2. reflexivity.
Defined.

(** ** The in-flight flag and the listener-setup effect *)

Lemma multi_setProps_fetching (s : Multi.State) (p : Multi.Props) :
  Multi.mounted s = true ->
  Multi.rendered s = Some (Multi.depsOf s) ->
  Multi.isFetchingNextPage p <> Multi.isFetchingNextPage (Multi.props s) ->
  let s' := Multi.step s (Multi.EvSetProps p) in
  Multi.isFetchingNextPageRef s' = Multi.isFetchingNextPage p
  /\ Multi.setupTimer s'
     = Some {| Multi.t_hasNextPage := Multi.hasNextPage p;
               Multi.t_isLoading := Multi.isLoading p;
               Multi.t_onLoadMore := Multi.onLoadMore p |}.
Proof.
  intros Hm Hst Hne. cbv zeta. unfold Multi.step. rewrite Hm. cbn [negb].
  pose proof (multi_commit_fields (Multi.set_props p s)) as F.
  cbv zeta in F.
  set (s' := Multi.commit (Multi.set_props p s)) in *. clearbody s'.
  destruct F as (_ & _ & Ref & _ & ST & _).
  cbn in Ref, ST. rewrite Hst in Ref, ST.
  unfold Multi.scrollDepsChanged, differs in Ref, ST. cbn in Ref, ST.
  rewrite (bool_decide_eq_false_2
             (Multi.isFetchingNextPage (Multi.props s)
              = Multi.isFetchingNextPage p)) in Ref, ST by congruence.
  cbn in Ref, ST. rewrite orb_true_r in ST. cbn in ST. now split.
Qed.

Lemma single_setProps_fetching (s : Single.State) (p : Single.Props) :
  Single.mounted s = true ->
  Single.rendered s = Some (Single.depsOf s) ->
  Single.isFetchingNextPage p <> Single.isFetchingNextPage (Single.props s) ->
  let s' := Single.step s (Single.EvSetProps p) in
  Single.isFetchingNextPageRef s' = Single.isFetchingNextPage p
  /\ Single.setupTimer s'
     = Some {| Single.t_hasNextPage := Single.hasNextPage p;
               Single.t_isLoading := Single.isLoading p;
               Single.t_onLoadMore := Single.onLoadMore p |}.
Proof.
  intros Hm Hst Hne. cbv zeta. unfold Single.step. rewrite Hm. cbn [negb].
  pose proof (single_commit_fields (Single.set_props p s)) as F.
  cbv zeta in F.
  set (s' := Single.commit (Single.set_props p s)) in *. clearbody s'.
  destruct F as (_ & _ & Ref & _ & ST & _).
  cbn in Ref, ST. rewrite Hst in Ref, ST.
  unfold Single.scrollDepsChanged, differs in Ref, ST. cbn in Ref, ST.
  rewrite (bool_decide_eq_false_2
             (Single.isFetchingNextPage (Single.props s)
              = Single.isFetchingNextPage p)) in Ref, ST by congruence.
  cbn in Ref, ST. rewrite orb_true_r in ST. cbn in ST. now split.
Qed.

(** C6, as amended.  In both components, in any committed state, new props
    with another [isFetchingNextPage] update the ref the scroll handler
    reads to the new value, and the listener-setup effect runs again
    ([isFetchingNextPage] is in its dependency list): a setup timer that
    captures the new props is pending afterwards. *)
Theorem C6_fetching_flag_reruns_setup
    (sm : Multi.State) (pm : Multi.Props)
    (ss : Single.State) (ps : Single.Props) :
  Multi.mounted sm = true ->
  Multi.rendered sm = Some (Multi.depsOf sm) ->
  Multi.isFetchingNextPage pm <> Multi.isFetchingNextPage (Multi.props sm) ->
  Single.mounted ss = true ->
  Single.rendered ss = Some (Single.depsOf ss) ->
  Single.isFetchingNextPage ps <> Single.isFetchingNextPage (Single.props ss) ->
  let sm' := Multi.step sm (Multi.EvSetProps pm) in
  let ss' := Single.step ss (Single.EvSetProps ps) in
  (Multi.isFetchingNextPageRef sm' = Multi.isFetchingNextPage pm
   /\ Multi.setupTimer sm'
      = Some {| Multi.t_hasNextPage := Multi.hasNextPage pm;
                Multi.t_isLoading := Multi.isLoading pm;
                Multi.t_onLoadMore := Multi.onLoadMore pm |})
  /\ (Single.isFetchingNextPageRef ss' = Single.isFetchingNextPage ps
      /\ Single.setupTimer ss'
         = Some {| Single.t_hasNextPage := Single.hasNextPage ps;
                   Single.t_isLoading := Single.isLoading ps;
                   Single.t_onLoadMore := Single.onLoadMore ps |}).
Proof.
  intros Hm1 Hs1 Hn1 Hm2 Hs2 Hn2. split.
  - now apply multi_setProps_fetching.
  - now apply single_setProps_fetching.
Qed.

Lemma C6_witness :
  let sm := Multi.run (Multi.init (Sample.multiProps [] (Some false) None))
              [Multi.EvOpenChange true; Multi.EvSetupTimer] in
  let ss := Single.run (Single.init (Sample.singleProps None (Some false) None))
              [Single.EvOpenChange true; Single.EvSetupTimer] in
  let sm' := Multi.step sm
               (Multi.EvSetProps (Sample.multiProps [] (Some true) None)) in
  let ss' := Single.step ss
               (Single.EvSetProps (Sample.singleProps None (Some true) None)) in
  (Multi.isFetchingNextPageRef sm' = Some true
   /\ Multi.setupTimer sm'
      = Some {| Multi.t_hasNextPage := Some true;
                Multi.t_isLoading := None;
                Multi.t_onLoadMore := Some 1%nat |})
  /\ (Single.isFetchingNextPageRef ss' = Some true
      /\ Single.setupTimer ss'
         = Some {| Single.t_hasNextPage := Some true;
                   Single.t_isLoading := None;
                   Single.t_onLoadMore := Some 1%nat |}).
Proof.
  assert (H := C6_fetching_flag_reruns_setup
           (Multi.run (Multi.init (Sample.multiProps [] (Some false) None))
              [Multi.EvOpenChange true; Multi.EvSetupTimer])
           (Sample.multiProps [] (Some true) None)
           (Single.run (Single.init (Sample.singleProps None (Some false) None))
              [Single.EvOpenChange true; Single.EvSetupTimer])
           (Sample.singleProps None (Some true) None)).
  vm_compute in H. vm_compute.
  apply H; solve [reflexivity | discriminate].
Defined.

(** C6 as stated fails: with the popover open and the listeners installed,
    new props that differ in [isFetchingNextPage] only leave a setup timer
    pending where none was, and when it fires a second pair of listeners is
    installed. *)
Lemma C6_counterexample :
  let sm := Multi.run (Multi.init (Sample.multiProps [] (Some false) None))
              [Multi.EvOpenChange true; Multi.EvSetupTimer] in
  let ss := Single.run (Single.init (Sample.singleProps None (Some false) None))
              [Single.EvOpenChange true; Single.EvSetupTimer] in
  let sm' := Multi.step sm
               (Multi.EvSetProps (Sample.multiProps [] (Some true) None)) in
  let ss' := Single.step ss
               (Single.EvSetProps (Sample.singleProps None (Some true) None)) in
  (Multi.setupTimer sm = None /\ length (Multi.listeners sm) = 2%nat
   /\ Multi.setupTimer sm' <> None
   /\ length (Multi.listeners (Multi.step sm' Multi.EvSetupTimer)) = 4%nat)
  /\ (Single.setupTimer ss = None /\ length (Single.listeners ss) = 2%nat
      /\ Single.setupTimer ss' <> None
      /\ length (Single.listeners (Single.step ss' Single.EvSetupTimer)) = 4%nat).
Proof.
  vm_compute. repeat split; solve [reflexivity | discriminate].
Qed.

(** ** Closing the popover *)

Lemma multi_close (s : Multi.State) :
  Multi.mounted s = true ->
  Multi.rendered s = Some (Multi.depsOf s) ->
  Multi.isPopoverOpen s = true ->
  let s' := Multi.step s (Multi.EvOpenChange false) in
  Multi.localSearch s' = ""
  /\ Multi.isPopoverOpen s' = false
  /\ Multi.newCalls s s'
     = match Multi.onSearchChange (Multi.props s) with
       | Some cb => [CallSearchChange cb ""]
       | None => []
       end.
Proof.
  intros Hm Hst Ho. cbv zeta. unfold Multi.step. rewrite Hm. cbn [negb].
  pose proof (multi_commit_fields (Multi.onOpenChange false s)) as F.
  cbv zeta in F.
  set (s' := Multi.commit (Multi.onOpenChange false s)) in *. clearbody s'.
  destruct F as ((_ & _ & O & _) & LS & _ & _ & _ & Log).
  unfold Multi.newCalls.
  unfold Multi.onOpenChange in O, LS, Log. cbn in O, LS, Log.
  destruct (Multi.onSearchChange (Multi.props s)) as [cb|] eqn:Hcb;
    cbn in O, LS, Log; rewrite Hst in LS, Log;
    unfold Multi.searchDepsChanged, differs in LS, Log; cbn in LS, Log;
    rewrite Ho in LS; rewrite ?Hcb in Log; decide_same_in Log;
    cbn in LS, Log;
    rewrite app_nil_r in Log; rewrite LS, O, Log.
  - rewrite skipn_length_app. now repeat split.
  - rewrite <- (app_nil_r (Multi.log s)) at 2. rewrite skipn_length_app.
    now repeat split.
Qed.

Lemma single_close (s : Single.State) :
  Single.mounted s = true ->
  Single.rendered s = Some (Single.depsOf s) ->
  Single.isOpen s = true ->
  let s' := Single.step s (Single.EvOpenChange false) in
  Single.localSearch s' = ""
  /\ Single.isOpen s' = false
  /\ Single.newCalls s s' = [].
Proof.
  intros Hm Hst Ho. cbv zeta. unfold Single.step. rewrite Hm. cbn [negb].
  pose proof (single_commit_fields (Single.set_isOpen false s)) as F.
  cbv zeta in F.
  set (s' := Single.commit (Single.set_isOpen false s)) in *. clearbody s'.
  destruct F as ((_ & O & _) & LS & _ & _ & _ & Log).
  unfold Single.newCalls. cbn in O, LS, Log. rewrite Hst in LS.
  unfold differs in LS. cbn in LS. rewrite Ho in LS. cbn in LS.
  assert (Hl : Single.log s' = Single.log s).
  { rewrite Log.
    destruct (Single.searchDepsChanged _ _),
      (Single.onSearchChange (Single.props s)); apply app_nil_r. }
  rewrite LS, O, Hl. rewrite <- (app_nil_r (Single.log s)) at 2.
  rewrite skipn_length_app. now repeat split.
Qed.

(** C4, as amended.  In both components, closing the open popover (from
    any committed state) leaves the internal search text empty.  In
    MultiSelect the close handler calls a supplied search-change callback
    with the empty string, once, and the render that follows calls nothing;
    in SingleSelect closing calls nothing, the search effect notifying only
    while the popover is open. *)
Theorem C4_close_resets_search (sm : Multi.State) (ss : Single.State) :
  Multi.mounted sm = true ->
  Multi.rendered sm = Some (Multi.depsOf sm) ->
  Multi.isPopoverOpen sm = true ->
  Single.mounted ss = true ->
  Single.rendered ss = Some (Single.depsOf ss) ->
  Single.isOpen ss = true ->
  let sm' := Multi.step sm (Multi.EvOpenChange false) in
  let ss' := Single.step ss (Single.EvOpenChange false) in
  (Multi.localSearch sm' = ""
   /\ Multi.newCalls sm sm'
      = match Multi.onSearchChange (Multi.props sm) with
        | Some cb => [CallSearchChange cb ""]
        | None => []
        end)
  /\ (Single.localSearch ss' = "" /\ Single.newCalls ss ss' = []).
Proof.
  intros Hm1 Hs1 Ho1 Hm2 Hs2 Ho2. split.
  - destruct (multi_close sm Hm1 Hs1 Ho1) as (H1 & _ & H2). now split.
  - destruct (single_close ss Hm2 Hs2 Ho2) as (H1 & _ & H2). now split.
Qed.

Lemma C4_witness :
  let sm := Multi.run (Multi.init (Sample.multiProps [] None None))
              [Multi.EvOpenChange true; Multi.EvInput "ab"] in
  let ss := Single.run (Single.init (Sample.singleProps (Some 2%nat) None None))
              [Single.EvOpenChange true; Single.EvInput "ab"] in
  let sm' := Multi.step sm (Multi.EvOpenChange false) in
  let ss' := Single.step ss (Single.EvOpenChange false) in
  (Multi.localSearch sm = "ab" /\ Single.localSearch ss = "ab")
  /\ (Multi.localSearch sm' = ""
      /\ Multi.newCalls sm sm' = [CallSearchChange 2 ""])
  /\ (Single.localSearch ss' = "" /\ Single.newCalls ss ss' = []).
Proof.
  cbv zeta. split; [split; vm_compute; reflexivity|].
  assert (H := C4_close_resets_search
           (Multi.run (Multi.init (Sample.multiProps [] None None))
              [Multi.EvOpenChange true; Multi.EvInput "ab"])
           (Single.run (Single.init (Sample.singleProps (Some 2%nat) None None))
              [Single.EvOpenChange true; Single.EvInput "ab"])).
  vm_compute in H. vm_compute.
  apply H; reflexivity.
Defined.

(** C4 as stated fails.  In SingleSelect with a search-change callback and
    the search text "ab", closing calls the callback not at all, also once
    the debounce timer has fired.  In MultiSelect in the same situation the
    callback is called with the empty string by the close handler and again
    when the debounced text becomes empty. *)
Lemma C4_counterexample :
  let ss := Single.run (Single.init (Sample.singleProps (Some 2%nat) None None))
              [Single.EvOpenChange true; Single.EvInput "ab";
               Single.EvDebounceTimer] in
  let ss' := Single.run ss [Single.EvOpenChange false; Single.EvDebounceTimer] in
  let sm := Multi.run (Multi.init (Sample.multiProps [] None None))
              [Multi.EvOpenChange true; Multi.EvInput "ab";
               Multi.EvDebounceTimer] in
  let sm' := Multi.run sm [Multi.EvOpenChange false; Multi.EvDebounceTimer] in
  (Single.localSearch ss = "ab" /\ Single.localSearch ss' = ""
   /\ Single.newCalls ss ss' = []
   /\ searchChangeCalls (Single.newCalls ss ss') <> 1%nat)
  /\ (Multi.localSearch sm = "ab" /\ Multi.localSearch sm' = ""
      /\ Multi.newCalls sm sm'
         = [CallSearchChange 2 ""; CallSearchChange 2 ""]
      /\ searchChangeCalls (Multi.newCalls sm sm') <> 1%nat).
Proof. vm_compute. repeat split; solve [reflexivity | discriminate]. Qed.

(** ** Events that do not render *)

Lemma multi_emit_emit (cs1 cs2 : list Call) (s : Multi.State) :
  Multi.emit cs2 (Multi.emit cs1 s) = Multi.emit (cs1 ++ cs2) s.
Proof. unfold Multi.emit. cbn. now rewrite app_assoc. Qed.

Lemma multi_emit_nil (s : Multi.State) : Multi.emit [] s = s.
Proof. destruct s. unfold Multi.emit. cbn. now rewrite app_nil_r. Qed.

Lemma multi_fold_scroll (ls : list Listener) : forall s : Multi.State,
  fold_left
    (fun s l =>
       Multi.emit (handleScroll (l_env l) (Multi.isFetchingNextPageRef s)
                     (Multi.geometry s)) s) ls s
  = Multi.emit
      (flat_map
         (fun l => handleScroll (l_env l) (Multi.isFetchingNextPageRef s)
                     (Multi.geometry s)) ls) s.
Proof.
  induction ls as [|l ls IH]; intros s; simpl.
  - symmetry. apply multi_emit_nil.
  - rewrite IH. cbn [Multi.isFetchingNextPageRef Multi.geometry Multi.emit].
    rewrite <- multi_emit_emit. reflexivity.
Qed.

(** A scroll event appends what each scroll listener of the list element
    calls, and changes nothing else. *)
Lemma multi_dispatchScroll_eq (s : Multi.State) (c : nat) :
  Multi.scrollRef s = Some c ->
  Multi.dispatchScroll s
  = Multi.emit
      (flat_map
         (fun l => handleScroll (l_env l) (Multi.isFetchingNextPageRef s)
                     (Multi.geometry s))
         (listenersOn c OnScroll (Multi.listeners s))) s.
Proof.
  intros Hc. unfold Multi.dispatchScroll. rewrite Hc.
  apply multi_fold_scroll.
Qed.

Lemma multiCommitted_core (s s' : Multi.State) :
  multiCore s' = multiCore s -> multiCommitted s -> multiCommitted s'.
Proof.
  unfold multiCore, multiCommitted, Multi.depsOf. intros H [H1 H2].
  injection H as Ep Es Eo El Ed Er Esr Ef Em.
  rewrite Er, Ep, Eo, El, Ed, Esr. now split.
Qed.

Lemma multi_commit_committed (s : Multi.State) :
  multiCommitted (Multi.commit s).
Proof.
  destruct (multi_commit_fields s) as ((_ & _ & O & _ & _ & _ & R) & _ & _ & SR & _).
  cbv zeta in O, R, SR. split; [exact R|].
  rewrite O, SR. now intros ->.
Qed.

Lemma multi_fireSetupTimer_frame (s : Multi.State) :
  multiCore (Multi.fireSetupTimer s) = multiCore s
  /\ Multi.log (Multi.fireSetupTimer s) = Multi.log s
  /\ exists ls, Multi.listeners (Multi.fireSetupTimer s)
                = Multi.listeners s ++ ls.
Proof.
  assert (Hs : exists ls, Multi.listeners s = Multi.listeners s ++ ls)
    by (exists []; now rewrite app_nil_r).
  unfold Multi.fireSetupTimer, Multi.setupCallback.
  destruct (Multi.setupTimer s) as [t|]; [|now repeat split].
  cbn. destruct (Multi.scrollRef s) as [c|] eqn:Hc; cbn;
    [destruct (truthy (Multi.t_hasNextPage t)); cbn;
     [destruct (Multi.t_onLoadMore t); cbn|]|];
    repeat split; try exact Hs;
    try (unfold multiCore; cbn; now rewrite Hc).
  eexists. reflexivity.
Qed.

Lemma multi_emit_frame (cs : list Call) (s : Multi.State) :
  multiCore (Multi.emit cs s) = multiCore s
  /\ Multi.listeners (Multi.emit cs s) = Multi.listeners s.
Proof. now split. Qed.

Lemma multi_handleWheel_frame (cl : Closure) (d : Z) (s : Multi.State) :
  multiCore (Multi.handleWheel cl d s) = multiCore s
  /\ Multi.listeners (Multi.handleWheel cl d s) = Multi.listeners s
  /\ exists cs, Multi.log (Multi.handleWheel cl d s) = Multi.log s ++ cs
                /\ forall c, In c cs -> c = CallLoadMore (c_onLoadMore cl).
Proof.
  unfold Multi.handleWheel. cbv zeta.
  destruct (negb (truthy (c_isLoading cl))); cbn.
  - repeat split. eexists. split; [reflexivity|].
    unfold handleScroll. intros c Hc.
    repeat match type of Hc with
           | In _ (if ?b then _ else _) => destruct b
           end; simpl in Hc; intuition.
  - repeat split. exists []. split; [now rewrite app_nil_r|intros c []].
Qed.

Lemma multi_fold_wheel_frame (d : Z) (ls : list Listener) :
  forall s : Multi.State,
  let s' := fold_left (fun s l => Multi.handleWheel (l_env l) d s) ls s in
  multiCore s' = multiCore s
  /\ Multi.listeners s' = Multi.listeners s
  /\ exists cs, Multi.log s' = Multi.log s ++ cs.
Proof.
  induction ls as [|l ls IH]; intros s; simpl.
  - repeat split. exists []. now rewrite app_nil_r.
  - destruct (IH (Multi.handleWheel (l_env l) d s)) as (H1 & H2 & cs & H3).
    destruct (multi_handleWheel_frame (l_env l) d s)
      as (G1 & G2 & cs' & G3 & _).
    rewrite H1, H2, H3, G1, G2, G3. repeat split.
    exists (cs' ++ cs). now rewrite app_assoc.
Qed.

Lemma multi_dispatchWheel_frame (d : Z) (s : Multi.State) :
  multiCore (Multi.dispatchWheel d s) = multiCore s
  /\ Multi.listeners (Multi.dispatchWheel d s) = Multi.listeners s
  /\ exists cs, Multi.log (Multi.dispatchWheel d s) = Multi.log s ++ cs.
Proof.
  unfold Multi.dispatchWheel. destruct (Multi.scrollRef s).
  - apply multi_fold_wheel_frame.
  - repeat split. exists []. now rewrite app_nil_r.
Qed.

Lemma multi_scroll_frame (g : Elem) (s : Multi.State) :
  multiCore (Multi.dispatchScroll (Multi.set_geometry g s)) = multiCore s
  /\ Multi.listeners (Multi.dispatchScroll (Multi.set_geometry g s))
     = Multi.listeners s.
Proof.
  destruct (Multi.scrollRef s) as [c|] eqn:Hc.
  - rewrite (multi_dispatchScroll_eq _ c) by exact Hc. now split.
  - unfold Multi.dispatchScroll. cbn. rewrite Hc. now split.
Qed.

(** Every reachable state is committed. *)
Lemma multi_reachable_committed (s : Multi.State) :
  Multi.reachable s -> multiCommitted s.
Proof.
  induction 1 as [p|s ev Hr IH].
  - apply multi_commit_committed.
  - unfold Multi.step. destruct (Multi.mounted s); cbn [negb]; [|exact IH].
    destruct ev as [p|o| |t|op| | |g|d|];
      try apply multi_commit_committed.
    + destruct (Multi.onSearchChange (Multi.props s)); [|exact IH].
      destruct (Multi.isPopoverOpen s); [|exact IH].
      apply multi_commit_committed.
    + apply (multiCommitted_core s); [|exact IH].
      apply multi_fireSetupTimer_frame.
    + destruct (Multi.scrollRef s) eqn:Hc; [|exact IH].
      apply (multiCommitted_core s); [|exact IH].
      apply multi_scroll_frame.
    + apply (multiCommitted_core s); [|exact IH].
      apply multi_dispatchWheel_frame.
    + destruct IH as [H1 H2]. split; [exact H1|reflexivity].
Qed.

(** No event removes a listener: [removeEventListener] is never run. *)
Lemma multi_listeners_grow (s : Multi.State) (ev : Multi.Event) :
  exists ls, Multi.listeners (Multi.step s ev) = Multi.listeners s ++ ls.
Proof.
  assert (Hc : forall x, Multi.listeners x = Multi.listeners s ->
             exists ls, Multi.listeners (Multi.commit x)
                        = Multi.listeners s ++ ls).
  { intros x Hx. exists [].
    destruct (multi_commit_fields x) as ((_ & _ & _ & _ & L & _) & _).
    cbv zeta in L. now rewrite L, Hx, app_nil_r. }
  assert (Hs : exists ls, Multi.listeners s = Multi.listeners s ++ ls)
    by (exists []; now rewrite app_nil_r).
  unfold Multi.step. destruct (Multi.mounted s); cbn [negb]; [|exact Hs].
  destruct ev as [p|o| |t|op| | |g|d|]; try (apply Hc; reflexivity).
  - apply Hc. unfold Multi.onOpenChange. cbn.
    now destruct o, (Multi.onSearchChange (Multi.props s)).
  - apply Hc. unfold Multi.onOpenChange. cbn.
    now destruct (Multi.isPopoverOpen s),
      (Multi.onSearchChange (Multi.props s)).
  - destruct (Multi.onSearchChange (Multi.props s)); [|exact Hs].
    destruct (Multi.isPopoverOpen s); [|exact Hs]. now apply Hc.
  - apply multi_fireSetupTimer_frame.
  - apply Hc. unfold Multi.fireDebounce.
    now destruct (Multi.debounceTimer s).
  - destruct (Multi.scrollRef s); [|exact Hs].
    destruct (multi_scroll_frame g s) as [_ H]. rewrite H. exact Hs.
  - destruct (multi_dispatchWheel_frame d s) as (_ & H & _).
    rewrite H. exact Hs.
  - exact Hs.
Qed.

(** *** The same for SingleSelect *)

Lemma single_emit_emit (cs1 cs2 : list Call) (s : Single.State) :
  Single.emit cs2 (Single.emit cs1 s) = Single.emit (cs1 ++ cs2) s.
Proof. unfold Single.emit. cbn. now rewrite app_assoc. Qed.

Lemma single_emit_nil (s : Single.State) : Single.emit [] s = s.
Proof. destruct s. unfold Single.emit. cbn. now rewrite app_nil_r. Qed.

Lemma single_fold_scroll (ls : list Listener) : forall s : Single.State,
  fold_left
    (fun s l =>
       Single.emit (handleScroll (l_env l) (Single.isFetchingNextPageRef s)
                      (Single.geometry s)) s) ls s
  = Single.emit
      (flat_map
         (fun l => handleScroll (l_env l) (Single.isFetchingNextPageRef s)
                     (Single.geometry s)) ls) s.
Proof.
  induction ls as [|l ls IH]; intros s; simpl.
  - symmetry. apply single_emit_nil.
  - rewrite IH. cbn [Single.isFetchingNextPageRef Single.geometry Single.emit].
    rewrite <- single_emit_emit. reflexivity.
Qed.

Lemma single_dispatchScroll_eq (s : Single.State) (c : nat) :
  Single.scrollRef s = Some c ->
  Single.dispatchScroll s
  = Single.emit
      (flat_map
         (fun l => handleScroll (l_env l) (Single.isFetchingNextPageRef s)
                     (Single.geometry s))
         (listenersOn c OnScroll (Single.listeners s))) s.
Proof.
  intros Hc. unfold Single.dispatchScroll. rewrite Hc.
  apply single_fold_scroll.
Qed.

Lemma singleCommitted_core (s s' : Single.State) :
  singleCore s' = singleCore s -> singleCommitted s -> singleCommitted s'.
Proof.
  unfold singleCore, singleCommitted, Single.depsOf. intros H [H1 H2].
  injection H as Ep Eo El Ed Er Esr Ef Em.
  rewrite Er, Ep, Eo, El, Ed, Esr. now split.
Qed.

Lemma single_commit_committed (s : Single.State) :
  singleCommitted (Single.commit s).
Proof.
  destruct (single_commit_fields s) as ((_ & O & _ & _ & _ & R) & _ & _ & SR & _).
  cbv zeta in O, R, SR. split; [exact R|].
  rewrite O, SR. now intros ->.
Qed.

Lemma single_fireSetupTimer_frame (s : Single.State) :
  singleCore (Single.fireSetupTimer s) = singleCore s
  /\ Single.log (Single.fireSetupTimer s) = Single.log s
  /\ exists ls, Single.listeners (Single.fireSetupTimer s)
                = Single.listeners s ++ ls.
Proof.
  assert (Hs : exists ls, Single.listeners s = Single.listeners s ++ ls)
    by (exists []; now rewrite app_nil_r).
  unfold Single.fireSetupTimer, Single.setupCallback.
  destruct (Single.setupTimer s) as [t|]; [|now repeat split].
  cbn. destruct (Single.scrollRef s) as [c|] eqn:Hc; cbn;
    [destruct (Single.t_onLoadMore t); cbn|];
    repeat split; try exact Hs;
    try (unfold singleCore; cbn; now rewrite Hc).
  eexists. reflexivity.
Qed.

Lemma single_handleWheel_frame (cl : Closure) (d : Z) (s : Single.State) :
  singleCore (Single.handleWheel cl d s) = singleCore s
  /\ Single.listeners (Single.handleWheel cl d s) = Single.listeners s
  /\ exists cs, Single.log (Single.handleWheel cl d s) = Single.log s ++ cs.
Proof.
  assert (Hs : exists cs, Single.log s = Single.log s ++ cs)
    by (exists []; now rewrite app_nil_r).
  unfold Single.handleWheel. cbv zeta.
  destruct (_ || _); [now repeat split|].
  destruct (negb (truthy (c_isLoading cl))); cbn; repeat split;
    try exact Hs.
  eexists. reflexivity.
Qed.

Lemma single_fold_wheel_frame (d : Z) (ls : list Listener) :
  forall s : Single.State,
  let s' := fold_left (fun s l => Single.handleWheel (l_env l) d s) ls s in
  singleCore s' = singleCore s
  /\ Single.listeners s' = Single.listeners s
  /\ exists cs, Single.log s' = Single.log s ++ cs.
Proof.
  induction ls as [|l ls IH]; intros s; simpl.
  - repeat split. exists []. now rewrite app_nil_r.
  - destruct (IH (Single.handleWheel (l_env l) d s)) as (H1 & H2 & cs & H3).
    destruct (single_handleWheel_frame (l_env l) d s)
      as (G1 & G2 & cs' & G3).
    rewrite H1, H2, H3, G1, G2, G3. repeat split.
    exists (cs' ++ cs). now rewrite app_assoc.
Qed.

Lemma single_dispatchWheel_frame (d : Z) (s : Single.State) :
  singleCore (Single.dispatchWheel d s) = singleCore s
  /\ Single.listeners (Single.dispatchWheel d s) = Single.listeners s
  /\ exists cs, Single.log (Single.dispatchWheel d s) = Single.log s ++ cs.
Proof.
  unfold Single.dispatchWheel. destruct (Single.scrollRef s).
  - apply single_fold_wheel_frame.
  - repeat split. exists []. now rewrite app_nil_r.
Qed.

Lemma single_scroll_frame (g : Elem) (s : Single.State) :
  singleCore (Single.dispatchScroll (Single.set_geometry g s)) = singleCore s
  /\ Single.listeners (Single.dispatchScroll (Single.set_geometry g s))
     = Single.listeners s.
Proof.
  destruct (Single.scrollRef s) as [c|] eqn:Hc.
  - rewrite (single_dispatchScroll_eq _ c) by exact Hc. now split.
  - unfold Single.dispatchScroll. cbn. rewrite Hc. now split.
Qed.

Lemma single_reachable_committed (s : Single.State) :
  Single.reachable s -> singleCommitted s.
Proof.
  induction 1 as [p|s ev Hr IH].
  - apply single_commit_committed.
  - unfold Single.step. destruct (Single.mounted s); cbn [negb]; [|exact IH].
    destruct ev as [p|o|t|i| | |g|d|];
      try apply single_commit_committed.
    + destruct (Single.isOpen s); [|exact IH].
      apply single_commit_committed.
    + destruct (Single.isOpen s); [|exact IH].
      destruct (nth_error _ i); [|exact IH].
      apply single_commit_committed.
    + apply (singleCommitted_core s); [|exact IH].
      apply single_fireSetupTimer_frame.
    + destruct (Single.scrollRef s) eqn:Hc; [|exact IH].
      apply (singleCommitted_core s); [|exact IH].
      apply single_scroll_frame.
    + apply (singleCommitted_core s); [|exact IH].
      apply single_dispatchWheel_frame.
    + destruct IH as [H1 H2]. split; [exact H1|reflexivity].
Qed.

Lemma single_listeners_grow (s : Single.State) (ev : Single.Event) :
  exists ls, Single.listeners (Single.step s ev) = Single.listeners s ++ ls.
Proof.
  assert (Hc : forall x, Single.listeners x = Single.listeners s ->
             exists ls, Single.listeners (Single.commit x)
                        = Single.listeners s ++ ls).
  { intros x Hx. exists [].
    destruct (single_commit_fields x) as ((_ & _ & _ & L & _) & _).
    cbv zeta in L. now rewrite L, Hx, app_nil_r. }
  assert (Hs : exists ls, Single.listeners s = Single.listeners s ++ ls)
    by (exists []; now rewrite app_nil_r).
  unfold Single.step. destruct (Single.mounted s); cbn [negb]; [|exact Hs].
  destruct ev as [p|o|t|i| | |g|d|]; try (apply Hc; reflexivity).
  - destruct (Single.isOpen s); [|exact Hs]. now apply Hc.
  - destruct (Single.isOpen s); [|exact Hs].
    destruct (nth_error _ i); [|exact Hs]. now apply Hc.
  - apply single_fireSetupTimer_frame.
  - apply Hc. unfold Single.fireDebounce.
    now destruct (Single.debounceTimer s).
  - destruct (Single.scrollRef s); [|exact Hs].
    destruct (single_scroll_frame g s) as [_ H]. rewrite H. exact Hs.
  - destruct (single_dispatchWheel_frame d s) as (_ & H & _).
    rewrite H. exact Hs.
  - exact Hs.
Qed.

(** ** Load-more *)

(** One run of [handleScroll] calls load-more at most once, and only when
    the [hasNextPage] it captured is truthy, no fetch is in flight as read
    through the ref, the [isLoading] it captured is falsy and the list is
    within 5px of its bottom. *)
Lemma handleScroll_guard (cl : Closure) (ref : option bool) (e : Elem) :
  (handleScroll cl ref e = [CallLoadMore (c_onLoadMore cl)]
   /\ truthy (c_hasNextPage cl) = true
   /\ truthy ref = false
   /\ truthy (c_isLoading cl) = false
   /\ scrollTop e + clientHeight e >= scrollHeight e - 5)
  \/ handleScroll cl ref e = [].
Proof.
  unfold handleScroll, atBottom.
  destruct (truthy (c_hasNextPage cl)), (truthy ref); simpl; auto.
  destruct (Z.leb_spec (scrollHeight e - 5) (scrollTop e + clientHeight e));
    simpl; auto.
  destruct (truthy (c_isLoading cl)); simpl; auto.
  left. repeat split. lia.
Qed.

Lemma handleScroll_fires (cl : Closure) (ref : option bool) (e : Elem) :
  truthy (c_hasNextPage cl) = true ->
  truthy ref = false ->
  truthy (c_isLoading cl) = false ->
  scrollTop e + clientHeight e >= scrollHeight e - 5 ->
  handleScroll cl ref e = [CallLoadMore (c_onLoadMore cl)].
Proof.
  intros H1 H2 H3 H4. unfold handleScroll, atBottom. rewrite H1, H2, H3.
  simpl. destruct (Z.leb_spec (scrollHeight e - 5) (scrollTop e + clientHeight e));
    [reflexivity|lia].
Qed.

Lemma handleScroll_fetching (cl : Closure) (ref : option bool) (e : Elem) :
  truthy ref = true -> handleScroll cl ref e = [].
Proof.
  intros H. unfold handleScroll. rewrite H. now rewrite orb_true_r.
Qed.

Lemma loadMoreCalls_none (cs : list Call) :
  noLoadMore cs -> loadMoreCalls cs = 0%nat.
Proof.
  unfold noLoadMore, loadMoreCalls. induction 1 as [|c cs Hc _ IH]; simpl.
  - reflexivity.
  - now rewrite Hc.
Qed.

Lemma noLoadMore_app (cs1 cs2 : list Call) :
  noLoadMore cs1 -> noLoadMore cs2 -> noLoadMore (cs1 ++ cs2).
Proof. unfold noLoadMore. intros. now apply Forall_app. Qed.

Lemma multi_commit_log (x : Multi.State) :
  exists cs, Multi.log (Multi.commit x) = Multi.log x ++ cs /\ noLoadMore cs.
Proof.
  destruct (multi_commit_fields x) as (_ & _ & _ & _ & _ & Log).
  cbv zeta in Log. eexists. split; [exact Log|].
  destruct (Multi.searchDepsChanged _ _),
    (Multi.onSearchChange (Multi.props x)); repeat constructor.
Qed.

Lemma single_commit_log (x : Single.State) :
  exists cs, Single.log (Single.commit x) = Single.log x ++ cs /\ noLoadMore cs.
Proof.
  destruct (single_commit_fields x) as (_ & _ & _ & _ & _ & Log).
  cbv zeta in Log. eexists. split; [exact Log|].
  destruct (Single.searchDepsChanged _ _),
    (Single.onSearchChange (Single.props x)), (Single.isOpen x);
    repeat constructor.
Qed.

Lemma noLoadMore_applyOp options valueKey maxCount alt sel op :
  noLoadMore (snd (Multi.applyOp options valueKey maxCount alt sel op)).
Proof.
  destruct op; simpl; unfold Multi.toggleAll, Multi.handleClear, Multi.report;
    try destruct (Nat.eqb _ _); simpl; destruct alt; repeat constructor.
Qed.

Lemma multi_onOpenChange_log (o : bool) (s : Multi.State) :
  exists cs, Multi.log (Multi.onOpenChange o s) = Multi.log s ++ cs
             /\ noLoadMore cs.
Proof.
  unfold Multi.onOpenChange. cbn.
  destruct o, (Multi.onSearchChange (Multi.props s)); cbn.
  all: try (exists []; split; [now rewrite app_nil_r|constructor]).
  eexists. split; [reflexivity|repeat constructor].
Qed.

(** Apart from scroll and wheel events on the mounted list element, no
    event calls load-more. *)
Lemma multi_step_no_loadMore (s : Multi.State) (ev : Multi.Event) :
  match ev with
  | Multi.EvScroll _ | Multi.EvWheel _ => Multi.scrollRef s = None
  | _ => True
  end ->
  exists cs, Multi.log (Multi.step s ev) = Multi.log s ++ cs /\ noLoadMore cs.
Proof.
  intros Hev.
  assert (Hs : exists cs, Multi.log s = Multi.log s ++ cs /\ noLoadMore cs)
    by (exists []; split; [now rewrite app_nil_r|constructor]).
  assert (Hc : forall x cs0, Multi.log x = Multi.log s ++ cs0 -> noLoadMore cs0 ->
             exists cs, Multi.log (Multi.commit x) = Multi.log s ++ cs
                        /\ noLoadMore cs).
  { intros x cs0 Hx H0. destruct (multi_commit_log x) as (cs & Hl & Hn).
    exists (cs0 ++ cs). rewrite Hl, Hx, app_assoc. split; [reflexivity|].
    now apply noLoadMore_app. }
  assert (Hc0 : forall x, Multi.log x = Multi.log s ->
             exists cs, Multi.log (Multi.commit x) = Multi.log s ++ cs
                        /\ noLoadMore cs).
  { intros x Hx. apply (Hc x []); [now rewrite app_nil_r|constructor]. }
  unfold Multi.step. destruct (Multi.mounted s); cbn [negb]; [|exact Hs].
  destruct ev as [p|o| |t|op| | |g|d|].
  - now apply Hc0.
  - destruct (multi_onOpenChange_log o s) as (cs0 & H1 & H2).
    now apply (Hc _ cs0).
  - destruct (multi_onOpenChange_log (negb (Multi.isPopoverOpen s))
                (Multi.onClick s)) as (cs0 & H1 & H2).
    now apply (Hc _ cs0).
  - destruct (Multi.onSearchChange (Multi.props s)); [|exact Hs].
    destruct (Multi.isPopoverOpen s); [|exact Hs]. now apply Hc0.
  - apply (Hc _ (snd (Multi.applyOp (Multi.options (Multi.props s))
                          (Multi.valueKey (Multi.props s))
                          (Multi.maxCount (Multi.props s))
                          (Multi.setAlternativeValue (Multi.props s))
                          (Multi.selectedOptions s) op)));
      [reflexivity|apply noLoadMore_applyOp].
  - destruct (multi_fireSetupTimer_frame s) as (_ & H & _). rewrite H.
    exact Hs.
  - apply Hc0. unfold Multi.fireDebounce.
    now destruct (Multi.debounceTimer s).
  - rewrite Hev. exact Hs.
  - unfold Multi.dispatchWheel. rewrite Hev. exact Hs.
  - exact Hs.
Qed.

Lemma single_step_no_loadMore (s : Single.State) (ev : Single.Event) :
  match ev with
  | Single.EvScroll _ | Single.EvWheel _ => Single.scrollRef s = None
  | _ => True
  end ->
  exists cs, Single.log (Single.step s ev) = Single.log s ++ cs /\ noLoadMore cs.
Proof.
  intros Hev.
  assert (Hs : exists cs, Single.log s = Single.log s ++ cs /\ noLoadMore cs)
    by (exists []; split; [now rewrite app_nil_r|constructor]).
  assert (Hc : forall x cs0, Single.log x = Single.log s ++ cs0 -> noLoadMore cs0 ->
             exists cs, Single.log (Single.commit x) = Single.log s ++ cs
                        /\ noLoadMore cs).
  { intros x cs0 Hx H0. destruct (single_commit_log x) as (cs & Hl & Hn).
    exists (cs0 ++ cs). rewrite Hl, Hx, app_assoc. split; [reflexivity|].
    now apply noLoadMore_app. }
  assert (Hc0 : forall x, Single.log x = Single.log s ->
             exists cs, Single.log (Single.commit x) = Single.log s ++ cs
                        /\ noLoadMore cs).
  { intros x Hx. apply (Hc x []); [now rewrite app_nil_r|constructor]. }
  unfold Single.step. destruct (Single.mounted s); cbn [negb]; [|exact Hs].
  destruct ev as [p|o|t|i| | |g|d|].
  - now apply Hc0.
  - now apply Hc0.
  - destruct (Single.isOpen s); [|exact Hs]. now apply Hc0.
  - destruct (Single.isOpen s); [|exact Hs].
    destruct (nth_error _ i) as [o|]; [|exact Hs].
    apply (Hc _ [CallValueChange1
                   (if strict_eq (get o (Single.valueKey (Single.props s)))
                         (Single.value (Single.props s))
                    then JNull
                    else get o (Single.valueKey (Single.props s)))]);
      [reflexivity|repeat constructor].
  - destruct (single_fireSetupTimer_frame s) as (_ & H & _). rewrite H.
    exact Hs.
  - apply Hc0. unfold Single.fireDebounce.
    now destruct (Single.debounceTimer s).
  - rewrite Hev. exact Hs.
  - unfold Single.dispatchWheel. rewrite Hev. exact Hs.
  - exact Hs.
Qed.

(** A scroll event on the list with one scroll listener installed. *)
Lemma multi_scroll_one (s : Multi.State) (c : nat) (l : Listener) (g : Elem) :
  Multi.mounted s = true ->
  Multi.scrollRef s = Some c ->
  listenersOn c OnScroll (Multi.listeners s) = [l] ->
  Multi.step s (Multi.EvScroll g)
  = Multi.emit (handleScroll (l_env l) (Multi.isFetchingNextPageRef s) g)
      (Multi.set_geometry g s).
Proof.
  intros Hm Hc Hl. unfold Multi.step. rewrite Hm, Hc. cbn [negb].
  rewrite (multi_dispatchScroll_eq _ c) by (cbn; exact Hc).
  cbn [Multi.listeners Multi.isFetchingNextPageRef Multi.geometry
       Multi.set_geometry Multi.set_container].
  rewrite Hl. simpl. now rewrite app_nil_r.
Qed.

Lemma single_scroll_one (s : Single.State) (c : nat) (l : Listener) (g : Elem) :
  Single.mounted s = true ->
  Single.scrollRef s = Some c ->
  listenersOn c OnScroll (Single.listeners s) = [l] ->
  Single.step s (Single.EvScroll g)
  = Single.emit (handleScroll (l_env l) (Single.isFetchingNextPageRef s) g)
      (Single.set_geometry g s).
Proof.
  intros Hm Hc Hl. unfold Single.step. rewrite Hm, Hc. cbn [negb].
  rewrite (single_dispatchScroll_eq _ c) by (cbn; exact Hc).
  cbn [Single.listeners Single.isFetchingNextPageRef Single.geometry
       Single.set_geometry Single.set_container].
  rewrite Hl. simpl. now rewrite app_nil_r.
Qed.

(** The state after new props that set [isFetchingNextPage]. *)
Lemma multi_setProps_fetching_state (s : Multi.State) (c : nat)
    (p' : Multi.Props) :
  Multi.mounted s = true ->
  Multi.rendered s = Some (Multi.depsOf s) ->
  Multi.isPopoverOpen s = true ->
  Multi.scrollRef s = Some c ->
  Multi.isFetchingNextPage (Multi.props s) = Some false ->
  Multi.isFetchingNextPage p' = Some true ->
  let sx := Multi.step s (Multi.EvSetProps p') in
  Multi.mounted sx = true
  /\ Multi.scrollRef sx = Some c
  /\ Multi.listeners sx = Multi.listeners s
  /\ Multi.isFetchingNextPageRef sx = Some true
  /\ exists cs, Multi.log sx = Multi.log s ++ cs /\ noLoadMore cs.
Proof.
  intros Hm Hr Ho Hc Hp Hp'. cbv zeta.
  assert (Hn : Multi.isFetchingNextPage p'
               <> Multi.isFetchingNextPage (Multi.props s)).
  { rewrite Hp, Hp'. discriminate. }
  destruct (multi_setProps_fetching s p' Hm Hr Hn) as [Hrefx _].
  split; [|split; [|split; [|split; [congruence|]]]].
  - unfold Multi.step. rewrite Hm. cbn [negb].
    destruct (multi_commit_fields (Multi.set_props p' s))
      as ((_ & _ & _ & _ & Lx & Mx & _) & _).
    exact (eq_trans Mx Hm).
  - unfold Multi.step. rewrite Hm. cbn [negb].
    destruct (multi_commit_fields (Multi.set_props p' s))
      as (_ & _ & _ & SRx & _).
    cbv zeta in SRx. rewrite SRx.
    change (Multi.isPopoverOpen (Multi.set_props p' s)) with (Multi.isPopoverOpen s).
    change (Multi.scrollRef (Multi.set_props p' s)) with (Multi.scrollRef s).
    now rewrite Ho, Hc.
  - unfold Multi.step. rewrite Hm. cbn [negb].
    destruct (multi_commit_fields (Multi.set_props p' s))
      as ((_ & _ & _ & _ & Lx & Mx & _) & _).
    exact Lx.
  - unfold Multi.step. rewrite Hm. cbn [negb].
    apply (multi_commit_log (Multi.set_props p' s)).
Qed.

(** A scroll event while the ref says a fetch is in flight calls
    nothing. *)
Lemma multi_scroll_fetching_quiet (s sx : Multi.State) (c : nat) (l : Listener)
    (g : Elem) (cs : list Call) :
  Multi.mounted sx = true ->
  Multi.scrollRef sx = Some c ->
  listenersOn c OnScroll (Multi.listeners sx) = [l] ->
  Multi.isFetchingNextPageRef sx = Some true ->
  Multi.log sx = Multi.log s ++ cs ->
  noLoadMore cs ->
  loadMoreCalls (Multi.newCalls s (Multi.step sx (Multi.EvScroll g))) = 0%nat.
Proof.
  intros Hm SRx Hl Hrefx Hlog Hcs.
  rewrite (multi_scroll_one sx c l g); [|congruence|exact SRx|congruence].
  rewrite Hrefx, handleScroll_fetching by reflexivity.
  rewrite multi_emit_nil.
  apply loadMoreCalls_none.
  rewrite (newCalls_app_multi s (Multi.set_geometry g sx) cs); assumption.
Qed.

(** New props with [isFetchingNextPage] true, then a scroll event, call
    load-more not at all. *)
Lemma multi_scroll_while_fetching (s : Multi.State) (c : nat) (l : Listener)
    (g : Elem) (p' : Multi.Props) :
  Multi.mounted s = true ->
  Multi.rendered s = Some (Multi.depsOf s) ->
  Multi.isPopoverOpen s = true ->
  Multi.scrollRef s = Some c ->
  listenersOn c OnScroll (Multi.listeners s) = [l] ->
  Multi.isFetchingNextPage (Multi.props s) = Some false ->
  Multi.isFetchingNextPage p' = Some true ->
  let s2 := Multi.step (Multi.step s (Multi.EvSetProps p')) (Multi.EvScroll g) in
  loadMoreCalls (Multi.newCalls s s2) = 0%nat.
Proof.
  intros Hm Hr Ho Hc Hl Hp Hp'. cbv zeta.
  destruct (multi_setProps_fetching_state s c p' Hm Hr Ho Hc Hp Hp')
    as (Mx & SRx & Lx & Rx & cs & Hlog & Hcs).
  apply (multi_scroll_fetching_quiet s _ c l g cs); try assumption.
  now rewrite Lx.
Qed.

(** The scenario of the load-more gate, from any committed state in which
    one scroll listener is installed on the list. *)
Lemma multi_scroll_scenario (s : Multi.State) (c : nat) (l : Listener)
    (g : Elem) (p' : Multi.Props) :
  Multi.mounted s = true ->
  multiCommitted s ->
  Multi.scrollRef s = Some c ->
  listenersOn c OnScroll (Multi.listeners s) = [l] ->
  truthy (c_hasNextPage (l_env l)) = true ->
  truthy (c_isLoading (l_env l)) = false ->
  Multi.isFetchingNextPage (Multi.props s) = Some false ->
  Multi.isFetchingNextPageRef s = Some false ->
  scrollTop g = scrollHeight g - clientHeight g - 3 ->
  Multi.isFetchingNextPage p' = Some true ->
  let s1 := Multi.step s (Multi.EvScroll g) in
  let s2 := Multi.step (Multi.step s1 (Multi.EvSetProps p')) (Multi.EvScroll g) in
  Multi.newCalls s s1 = [CallLoadMore (c_onLoadMore (l_env l))]
  /\ loadMoreCalls (Multi.newCalls s1 s2) = 0%nat.
Proof.
  intros Hm [Hr Hinv] Hc Hl Hh Hld Hp Href Hg Hp'. cbv zeta.
  assert (Ho : Multi.isPopoverOpen s = true).
  { destruct (Multi.isPopoverOpen s); [reflexivity|].
    rewrite Hinv in Hc by reflexivity. discriminate. }
  assert (E1 : Multi.step s (Multi.EvScroll g)
               = Multi.dispatchScroll (Multi.set_geometry g s)).
  { unfold Multi.step. now rewrite Hm, Hc. }
  split.
  - rewrite (multi_scroll_one s c l g Hm Hc Hl), Href.
    rewrite handleScroll_fires by (try assumption; try reflexivity; lia).
    now apply newCalls_app_multi.
  - destruct (multi_scroll_frame g s) as [Hcore Hls].
    rewrite <- E1 in Hcore, Hls.
    set (s1 := Multi.step s (Multi.EvScroll g)) in *. clearbody s1.
    unfold multiCore in Hcore.
    injection Hcore as Ep Es Eo El Ed Er Esr Ef Em.
    apply (multi_scroll_while_fetching s1 c l g p'); try congruence.
    rewrite Er. unfold Multi.depsOf. rewrite Hr. unfold Multi.depsOf.
    congruence.
Qed.

(** The state after new props that set [isFetchingNextPage]. *)
Lemma single_setProps_fetching_state (s : Single.State) (c : nat)
    (p' : Single.Props) :
  Single.mounted s = true ->
  Single.rendered s = Some (Single.depsOf s) ->
  Single.isOpen s = true ->
  Single.scrollRef s = Some c ->
  Single.isFetchingNextPage (Single.props s) = Some false ->
  Single.isFetchingNextPage p' = Some true ->
  let sx := Single.step s (Single.EvSetProps p') in
  Single.mounted sx = true
  /\ Single.scrollRef sx = Some c
  /\ Single.listeners sx = Single.listeners s
  /\ Single.isFetchingNextPageRef sx = Some true
  /\ exists cs, Single.log sx = Single.log s ++ cs /\ noLoadMore cs.
Proof.
  intros Hm Hr Ho Hc Hp Hp'. cbv zeta.
  assert (Hn : Single.isFetchingNextPage p'
               <> Single.isFetchingNextPage (Single.props s)).
  { rewrite Hp, Hp'. discriminate. }
  destruct (single_setProps_fetching s p' Hm Hr Hn) as [Hrefx _].
  split; [|split; [|split; [|split; [congruence|]]]].
  - unfold Single.step. rewrite Hm. cbn [negb].
    destruct (single_commit_fields (Single.set_props p' s))
      as ((_ & _ & _ & Lx & Mx & _) & _).
    exact (eq_trans Mx Hm).
  - unfold Single.step. rewrite Hm. cbn [negb].
    destruct (single_commit_fields (Single.set_props p' s))
      as (_ & _ & _ & SRx & _).
    cbv zeta in SRx. rewrite SRx.
    change (Single.isOpen (Single.set_props p' s)) with (Single.isOpen s).
    change (Single.scrollRef (Single.set_props p' s)) with (Single.scrollRef s).
    now rewrite Ho, Hc.
  - unfold Single.step. rewrite Hm. cbn [negb].
    destruct (single_commit_fields (Single.set_props p' s))
      as ((_ & _ & _ & Lx & Mx & _) & _).
    exact Lx.
  - unfold Single.step. rewrite Hm. cbn [negb].
    apply (single_commit_log (Single.set_props p' s)).
Qed.

(** A scroll event while the ref says a fetch is in flight calls
    nothing. *)
Lemma single_scroll_fetching_quiet (s sx : Single.State) (c : nat) (l : Listener)
    (g : Elem) (cs : list Call) :
  Single.mounted sx = true ->
  Single.scrollRef sx = Some c ->
  listenersOn c OnScroll (Single.listeners sx) = [l] ->
  Single.isFetchingNextPageRef sx = Some true ->
  Single.log sx = Single.log s ++ cs ->
  noLoadMore cs ->
  loadMoreCalls (Single.newCalls s (Single.step sx (Single.EvScroll g))) = 0%nat.
Proof.
  intros Hm SRx Hl Hrefx Hlog Hcs.
  rewrite (single_scroll_one sx c l g); [|congruence|exact SRx|congruence].
  rewrite Hrefx, handleScroll_fetching by reflexivity.
  rewrite single_emit_nil.
  apply loadMoreCalls_none.
  rewrite (newCalls_app_single s (Single.set_geometry g sx) cs); assumption.
Qed.

(** New props with [isFetchingNextPage] true, then a scroll event, call
    load-more not at all. *)
Lemma single_scroll_while_fetching (s : Single.State) (c : nat) (l : Listener)
    (g : Elem) (p' : Single.Props) :
  Single.mounted s = true ->
  Single.rendered s = Some (Single.depsOf s) ->
  Single.isOpen s = true ->
  Single.scrollRef s = Some c ->
  listenersOn c OnScroll (Single.listeners s) = [l] ->
  Single.isFetchingNextPage (Single.props s) = Some false ->
  Single.isFetchingNextPage p' = Some true ->
  let s2 := Single.step (Single.step s (Single.EvSetProps p')) (Single.EvScroll g) in
  loadMoreCalls (Single.newCalls s s2) = 0%nat.
Proof.
  intros Hm Hr Ho Hc Hl Hp Hp'. cbv zeta.
  destruct (single_setProps_fetching_state s c p' Hm Hr Ho Hc Hp Hp')
    as (Mx & SRx & Lx & Rx & cs & Hlog & Hcs).
  apply (single_scroll_fetching_quiet s _ c l g cs); try assumption.
  now rewrite Lx.
Qed.

(** The scenario of the load-more gate, from any committed state in which
    one scroll listener is installed on the list. *)
Lemma single_scroll_scenario (s : Single.State) (c : nat) (l : Listener)
    (g : Elem) (p' : Single.Props) :
  Single.mounted s = true ->
  singleCommitted s ->
  Single.scrollRef s = Some c ->
  listenersOn c OnScroll (Single.listeners s) = [l] ->
  truthy (c_hasNextPage (l_env l)) = true ->
  truthy (c_isLoading (l_env l)) = false ->
  Single.isFetchingNextPage (Single.props s) = Some false ->
  Single.isFetchingNextPageRef s = Some false ->
  scrollTop g = scrollHeight g - clientHeight g - 3 ->
  Single.isFetchingNextPage p' = Some true ->
  let s1 := Single.step s (Single.EvScroll g) in
  let s2 := Single.step (Single.step s1 (Single.EvSetProps p')) (Single.EvScroll g) in
  Single.newCalls s s1 = [CallLoadMore (c_onLoadMore (l_env l))]
  /\ loadMoreCalls (Single.newCalls s1 s2) = 0%nat.
Proof.
  intros Hm [Hr Hinv] Hc Hl Hh Hld Hp Href Hg Hp'. cbv zeta.
  assert (Ho : Single.isOpen s = true).
  { destruct (Single.isOpen s); [reflexivity|].
    rewrite Hinv in Hc by reflexivity. discriminate. }
  assert (E1 : Single.step s (Single.EvScroll g)
               = Single.dispatchScroll (Single.set_geometry g s)).
  { unfold Single.step. now rewrite Hm, Hc. }
  split.
  - rewrite (single_scroll_one s c l g Hm Hc Hl), Href.
    rewrite handleScroll_fires by (try assumption; try reflexivity; lia).
    now apply newCalls_app_single.
  - destruct (single_scroll_frame g s) as [Hcore Hls].
    rewrite <- E1 in Hcore, Hls.
    set (s1 := Single.step s (Single.EvScroll g)) in *. clearbody s1.
    unfold singleCore in Hcore.
    injection Hcore as Ep Eo El Ed Er Esr Ef Em.
    apply (single_scroll_while_fetching s1 c l g p'); try congruence.
    rewrite Er. unfold Single.depsOf. rewrite Hr. unfold Single.depsOf.
    congruence.
Qed.

Lemma multi_reachable_run (s : Multi.State) (evs : list Multi.Event) :
  Multi.reachable s -> Multi.reachable (Multi.run s evs).
Proof.
  revert s. induction evs as [|ev evs IH]; intros s H; simpl; [exact H|].
  apply IH. now constructor.
Qed.

Lemma single_reachable_run (s : Single.State) (evs : list Single.Event) :
  Single.reachable s -> Single.reachable (Single.run s evs).
Proof.
  revert s. induction evs as [|ev evs IH]; intros s H; simpl; [exact H|].
  apply IH. now constructor.
Qed.

Lemma multi_closed_no_loadMore (s : Multi.State) (ev : Multi.Event) :
  Multi.reachable s ->
  Multi.isPopoverOpen s = false ->
  loadMoreCalls (Multi.newCalls s (Multi.step s ev)) = 0%nat.
Proof.
  intros Hr Ho. apply multi_reachable_committed in Hr as [_ Hinv].
  destruct (multi_step_no_loadMore s ev) as (cs & Hl & Hcs).
  { destruct ev; try exact I; now apply Hinv. }
  rewrite (newCalls_app_multi _ _ cs Hl). now apply loadMoreCalls_none.
Qed.

Lemma single_closed_no_loadMore (s : Single.State) (ev : Single.Event) :
  Single.reachable s ->
  Single.isOpen s = false ->
  loadMoreCalls (Single.newCalls s (Single.step s ev)) = 0%nat.
Proof.
  intros Hr Ho. apply single_reachable_committed in Hr as [_ Hinv].
  destruct (single_step_no_loadMore s ev) as (cs & Hl & Hcs).
  { destruct ev; try exact I; now apply Hinv. }
  rewrite (newCalls_app_single _ _ cs Hl). now apply loadMoreCalls_none.
Qed.

(** C2, as amended.  (1) A run of the scroll handler calls load-more at
    most once, and only when the [hasNextPage] captured by the handler is
    truthy, no fetch is in flight as read through the ref, the captured
    [isLoading] is falsy and [scrollTop + clientHeight >= scrollHeight - 5].
    (2) In both components no event calls load-more while the popover is
    closed.  (3) In both components, in a reachable state with one scroll
    listener on the list whose captured [hasNextPage] is truthy and
    [isLoading] falsy, and with [isFetchingNextPage] false in the props and
    in the ref, a scroll event at [scrollTop = scrollHeight - clientHeight
    - 3] calls load-more exactly once, and after new props with
    [isFetchingNextPage] true a further scroll event adds no call. *)
Theorem C2_load_more_gate :
  (forall (cl : Closure) (ref : option bool) (e : Elem),
     (handleScroll cl ref e = [CallLoadMore (c_onLoadMore cl)]
      /\ truthy (c_hasNextPage cl) = true
      /\ truthy ref = false
      /\ truthy (c_isLoading cl) = false
      /\ scrollTop e + clientHeight e >= scrollHeight e - 5)
     \/ handleScroll cl ref e = [])
  /\ (forall (s : Multi.State) (ev : Multi.Event),
        Multi.reachable s -> Multi.isPopoverOpen s = false ->
        loadMoreCalls (Multi.newCalls s (Multi.step s ev)) = 0%nat)
  /\ (forall (s : Single.State) (ev : Single.Event),
        Single.reachable s -> Single.isOpen s = false ->
        loadMoreCalls (Single.newCalls s (Single.step s ev)) = 0%nat)
  /\ (forall (s : Multi.State) (c : nat) (l : Listener) (g : Elem)
             (p' : Multi.Props),
        Multi.reachable s ->
        Multi.mounted s = true ->
        Multi.scrollRef s = Some c ->
        listenersOn c OnScroll (Multi.listeners s) = [l] ->
        truthy (c_hasNextPage (l_env l)) = true ->
        truthy (c_isLoading (l_env l)) = false ->
        Multi.isFetchingNextPage (Multi.props s) = Some false ->
        Multi.isFetchingNextPageRef s = Some false ->
        scrollTop g = scrollHeight g - clientHeight g - 3 ->
        Multi.isFetchingNextPage p' = Some true ->
        let s1 := Multi.step s (Multi.EvScroll g) in
        let s2 := Multi.step (Multi.step s1 (Multi.EvSetProps p'))
                    (Multi.EvScroll g) in
        Multi.newCalls s s1 = [CallLoadMore (c_onLoadMore (l_env l))]
        /\ loadMoreCalls (Multi.newCalls s1 s2) = 0%nat)
  /\ (forall (s : Single.State) (c : nat) (l : Listener) (g : Elem)
             (p' : Single.Props),
        Single.reachable s ->
        Single.mounted s = true ->
        Single.scrollRef s = Some c ->
        listenersOn c OnScroll (Single.listeners s) = [l] ->
        truthy (c_hasNextPage (l_env l)) = true ->
        truthy (c_isLoading (l_env l)) = false ->
        Single.isFetchingNextPage (Single.props s) = Some false ->
        Single.isFetchingNextPageRef s = Some false ->
        scrollTop g = scrollHeight g - clientHeight g - 3 ->
        Single.isFetchingNextPage p' = Some true ->
        let s1 := Single.step s (Single.EvScroll g) in
        let s2 := Single.step (Single.step s1 (Single.EvSetProps p'))
                    (Single.EvScroll g) in
        Single.newCalls s s1 = [CallLoadMore (c_onLoadMore (l_env l))]
        /\ loadMoreCalls (Single.newCalls s1 s2) = 0%nat).
Proof.
  split; [exact handleScroll_guard|].
  split; [exact multi_closed_no_loadMore|].
  split; [exact single_closed_no_loadMore|].
  split.
  - intros s c l g p' Hr Hm. apply multi_scroll_scenario; [exact Hm|].
    now apply multi_reachable_committed.
  - intros s c l g p' Hr Hm. apply single_scroll_scenario; [exact Hm|].
    now apply single_reachable_committed.
Qed.

Lemma C2_witness :
  let sm := Multi.run (Multi.init (Sample.multiProps [] (Some false) None))
              [Multi.EvOpenChange true; Multi.EvSetupTimer] in
  let ss := Single.run (Single.init (Sample.singleProps None (Some false) None))
              [Single.EvOpenChange true; Single.EvSetupTimer] in
  let l := {| l_target := 0; l_kind := OnScroll; l_fn := 1;
              l_env := {| c_hasNextPage := Some true; c_isLoading := None;
                          c_onLoadMore := 1 |} |} in
  let pm := Sample.multiProps [] (Some true) None in
  let ps := Sample.singleProps None (Some true) None in
  let sm1 := Multi.step sm (Multi.EvScroll Sample.nearBottom) in
  let sm2 := Multi.step (Multi.step sm1 (Multi.EvSetProps pm))
               (Multi.EvScroll Sample.nearBottom) in
  let ss1 := Single.step ss (Single.EvScroll Sample.nearBottom) in
  let ss2 := Single.step (Single.step ss1 (Single.EvSetProps ps))
               (Single.EvScroll Sample.nearBottom) in
  (Multi.newCalls sm sm1 = [CallLoadMore (c_onLoadMore (l_env l))]
   /\ loadMoreCalls (Multi.newCalls sm1 sm2) = 0%nat)
  /\ (Single.newCalls ss ss1 = [CallLoadMore (c_onLoadMore (l_env l))]
      /\ loadMoreCalls (Single.newCalls ss1 ss2) = 0%nat).
Proof.
  cbv zeta. destruct C2_load_more_gate as (_ & _ & _ & Hm & Hs). split.
  - apply (Hm _ 0%nat);
      [apply multi_reachable_run; constructor|vm_compute; reflexivity..].
  - apply (Hs _ 0%nat);
      [apply single_reachable_run; constructor|vm_compute; reflexivity..].
Defined.

(** C2 as stated fails: with [isLoading] true, in the state with the
    popover open, [hasNextPage] true, [isFetchingNextPage] false (in the
    props and in the ref) and the scroll listener installed, a scroll event
    3px above the bottom calls load-more not at all. *)
Lemma C2_counterexample :
  let sm := Multi.run
              (Multi.init (Sample.multiProps [] (Some false) (Some true)))
              [Multi.EvOpenChange true; Multi.EvSetupTimer] in
  let ss := Single.run
              (Single.init (Sample.singleProps None (Some false) (Some true)))
              [Single.EvOpenChange true; Single.EvSetupTimer] in
  (Multi.isPopoverOpen sm = true
   /\ Multi.hasNextPage (Multi.props sm) = Some true
   /\ Multi.isFetchingNextPage (Multi.props sm) = Some false
   /\ Multi.isFetchingNextPageRef sm = Some false
   /\ length (listenersOn 0 OnScroll (Multi.listeners sm)) = 1%nat
   /\ scrollTop Sample.nearBottom
      = scrollHeight Sample.nearBottom - clientHeight Sample.nearBottom - 3
   /\ Multi.newCalls sm (Multi.step sm (Multi.EvScroll Sample.nearBottom)) = [])
  /\ (Single.isOpen ss = true
      /\ Single.hasNextPage (Single.props ss) = Some true
      /\ Single.isFetchingNextPage (Single.props ss) = Some false
      /\ Single.isFetchingNextPageRef ss = Some false
      /\ length (listenersOn 0 OnScroll (Single.listeners ss)) = 1%nat
      /\ Single.newCalls ss (Single.step ss (Single.EvScroll Sample.nearBottom))
         = []).
Proof. vm_compute. repeat split; reflexivity. Qed.

(** ** Listener teardown *)

(** C5.  Evaluated on both components: the popover is opened and the setup
    timer fires, which installs the scroll and the wheel listener.  Closing
    the popover or unmounting the component then leaves both listeners
    registered; the function that would remove them is the value the timer
    callback returns, which [setTimeout] drops. *)
Theorem C5_listeners_survive_close :
  let sm0 := Multi.run (Multi.init (Sample.multiProps [] (Some false) None))
               [Multi.EvOpenChange true] in
  let sm := Multi.step sm0 Multi.EvSetupTimer in
  let ss0 := Single.run (Single.init (Sample.singleProps None (Some false) None))
               [Single.EvOpenChange true] in
  let ss := Single.step ss0 Single.EvSetupTimer in
  (map l_kind (Multi.listeners sm) = [OnScroll; OnWheel]
   /\ Multi.listeners (Multi.step sm (Multi.EvOpenChange false))
      = Multi.listeners sm
   /\ Multi.listeners (Multi.step sm Multi.EvUnmount) = Multi.listeners sm
   /\ match Multi.setupTimer sm0 with
      | Some t =>
          match snd (Multi.setupCallback t sm0) with
          | Some cleanup => Multi.listeners (cleanup sm) = []
          | None => False
          end
      | None => False
      end)
  /\ (map l_kind (Single.listeners ss) = [OnScroll; OnWheel]
      /\ Single.listeners (Single.step ss (Single.EvOpenChange false))
         = Single.listeners ss
      /\ Single.listeners (Single.step ss Single.EvUnmount)
         = Single.listeners ss
      /\ match Single.setupTimer ss0 with
         | Some t =>
             match snd (Single.setupCallback t ss0) with
             | Some cleanup => Single.listeners (cleanup ss) = []
             | None => False
             end
         | None => False
         end).
Proof. vm_compute. repeat split; reflexivity. Qed.

(** What the listeners left behind do (MultiSelect): after the last page
    ([hasNextPage] false) the listener installed earlier still calls
    load-more, and after one fetch cycle three listeners answer one scroll
    event. *)
Example stale_listeners_fire :
  let p := Sample.multiProps [] (Some false) None in
  let lastPage :=
    {| Multi.options := Multi.options p; Multi.valueKey := Multi.valueKey p;
       Multi.defaultValue := Multi.defaultValue p;
       Multi.maxCount := Multi.maxCount p;
       Multi.setAlternativeValue := Multi.setAlternativeValue p;
       Multi.onLoadMore := Multi.onLoadMore p;
       Multi.hasNextPage := Some false;
       Multi.isFetchingNextPage := Multi.isFetchingNextPage p;
       Multi.onSearchChange := Multi.onSearchChange p;
       Multi.isLoading := Multi.isLoading p |} in
  let s := Multi.run (Multi.init p)
             [Multi.EvOpenChange true; Multi.EvSetupTimer] in
  let s1 := Multi.run s [Multi.EvSetProps lastPage; Multi.EvSetupTimer] in
  let s2 := Multi.run s
              [Multi.EvSetProps (Sample.multiProps [] (Some true) None);
               Multi.EvSetupTimer;
               Multi.EvSetProps (Sample.multiProps [] (Some false) None);
               Multi.EvSetupTimer] in
  Multi.hasNextPage (Multi.props s1) = Some false
  /\ Multi.newCalls s1 (Multi.step s1 (Multi.EvScroll Sample.nearBottom))
     = [CallLoadMore 1]
  /\ Multi.props s2 = Multi.props s
  /\ Multi.newCalls s2 (Multi.step s2 (Multi.EvScroll Sample.nearBottom))
     = [CallLoadMore 1; CallLoadMore 1; CallLoadMore 1].
Proof. vm_compute. repeat split; reflexivity. Qed.

(** * Further properties *)

(** ** MultiSelect: what a selection event reports and keeps *)

Lemma applyOp_reports options valueKey maxCount alt sel op :
  snd (Multi.applyOp options valueKey maxCount alt sel op)
  = CallValueChange
      (map (fun o => get o valueKey)
         (fst (Multi.applyOp options valueKey maxCount alt sel op)))
    :: (if alt
        then [CallSetAlternative
                (fst (Multi.applyOp options valueKey maxCount alt sel op))]
        else []).
Proof.
  destruct op; simpl; try reflexivity.
  unfold Multi.toggleAll. destruct (Nat.eqb _ _); reflexivity.
Qed.

Lemma multi_selection_report (s : Multi.State) (op : Multi.Op) :
  Multi.mounted s = true ->
  Multi.rendered s = Some (Multi.depsOf s) ->
  let p := Multi.props s in
  let s' := Multi.step s (Multi.EvSelection op) in
  Multi.newCalls s s'
  = CallValueChange
      (map (fun o => get o (Multi.valueKey p)) (Multi.selectedOptions s'))
    :: (if Multi.setAlternativeValue p
        then [CallSetAlternative (Multi.selectedOptions s')] else []).
Proof.
  intros Hm Hr. cbv zeta.
  destruct (multi_selection_step s op Hm Hr) as (_ & So & Calls).
  cbv zeta in So, Calls. rewrite Calls, So. apply applyOp_reports.
Qed.

(** X1. Whatever the selection event (an option, select-all, clear, trim),
    the keys handed to [onValueChange] are the value keys of the selection
    the component stores afterwards, [setAlternativeValue], when supplied,
    gets that same selection, and nothing else is called. *)
Theorem X1_report_matches_selection (s : Multi.State) (op : Multi.Op) :
  Multi.mounted s = true ->
  Multi.rendered s = Some (Multi.depsOf s) ->
  let p := Multi.props s in
  let s' := Multi.step s (Multi.EvSelection op) in
  Multi.newCalls s s'
  = CallValueChange
      (map (fun o => get o (Multi.valueKey p)) (Multi.selectedOptions s'))
    :: (if Multi.setAlternativeValue p
        then [CallSetAlternative (Multi.selectedOptions s')] else []).
Proof.
  exact (multi_selection_report s op).
Qed.

Lemma X1_witness :
  let s := Multi.init (Sample.multiProps [Sample.cherry] None None) in
  let s' := Multi.step s (Multi.EvSelection Multi.OpToggleAll) in
  Multi.newCalls s s'
  = CallValueChange
      (map (fun o => get o (Multi.valueKey (Multi.props s)))
         (Multi.selectedOptions s'))
    :: (if Multi.setAlternativeValue (Multi.props s)
        then [CallSetAlternative (Multi.selectedOptions s')] else []).
Proof.
  cbv zeta.
  apply (X1_report_matches_selection
           (Multi.init (Sample.multiProps [Sample.cherry] None None)));
    vm_compute; reflexivity.
Defined.

(** A selection event renders with the dependencies of every effect
    unchanged. *)
Lemma multi_selection_frame (s : Multi.State) (op : Multi.Op) :
  Multi.mounted s = true ->
  Multi.rendered s = Some (Multi.depsOf s) ->
  let s' := Multi.step s (Multi.EvSelection op) in
  Multi.isPopoverOpen s' = Multi.isPopoverOpen s
  /\ Multi.localSearch s' = Multi.localSearch s
  /\ Multi.listeners s' = Multi.listeners s
  /\ Multi.setupTimer s' = Multi.setupTimer s
  /\ Multi.isFetchingNextPageRef s' = Multi.isFetchingNextPageRef s.
Proof.
  intros Hm Hr. cbv zeta. unfold Multi.step. rewrite Hm. cbn [negb].
  pose proof (multi_commit_fields (Multi.selectionOp op s)) as F.
  cbv zeta in F.
  set (s' := Multi.commit (Multi.selectionOp op s)) in *. clearbody s'.
  destruct F as ((_ & _ & O & _ & L & _ & _) & LS & Ref & _ & ST & _).
  change (Multi.rendered (Multi.selectionOp op s)) with (Multi.rendered s)
    in LS, Ref, ST.
  change (Multi.depsOf (Multi.selectionOp op s)) with (Multi.depsOf s)
    in LS, Ref, ST.
  rewrite Hr in LS, Ref, ST.
  unfold Multi.scrollDepsChanged, differs in LS, Ref, ST.
  decide_same_in LS. decide_same_in Ref. decide_same_in ST.
  repeat split; assumption.
Qed.

(** X2. A selection event of MultiSelect leaves the popover as it is (open
    stays open), keeps the search text, installs or removes no listener,
    schedules no setup and calls neither the search nor the load-more
    callback. *)
Theorem X2_selection_keeps_popover (s : Multi.State) (op : Multi.Op) :
  Multi.mounted s = true ->
  Multi.rendered s = Some (Multi.depsOf s) ->
  let s' := Multi.step s (Multi.EvSelection op) in
  Multi.isPopoverOpen s' = Multi.isPopoverOpen s
  /\ Multi.localSearch s' = Multi.localSearch s
  /\ Multi.listeners s' = Multi.listeners s
  /\ Multi.setupTimer s' = Multi.setupTimer s
  /\ loadMoreCalls (Multi.newCalls s s') = 0%nat
  /\ searchChangeCalls (Multi.newCalls s s') = 0%nat.
Proof.
  intros Hm Hr. cbv zeta.
  destruct (multi_selection_frame s op Hm Hr) as (H1 & H2 & H3 & H4 & _).
  cbv zeta in H1, H2, H3, H4.
  rewrite (multi_selection_report s op Hm Hr).
  repeat split; try assumption;
    destruct (Multi.setAlternativeValue (Multi.props s)); reflexivity.
Qed.

Lemma X2_witness :
  let s := Multi.run (Multi.init (Sample.multiProps [] None None))
             [Multi.EvOpenChange true; Multi.EvInput "ab"] in
  let s' := Multi.step s (Multi.EvSelection (Multi.OpToggle Sample.apple)) in
  Multi.isPopoverOpen s' = Multi.isPopoverOpen s
  /\ Multi.localSearch s' = Multi.localSearch s
  /\ Multi.listeners s' = Multi.listeners s
  /\ Multi.setupTimer s' = Multi.setupTimer s
  /\ loadMoreCalls (Multi.newCalls s s') = 0%nat
  /\ searchChangeCalls (Multi.newCalls s s') = 0%nat.
Proof.
  cbv zeta.
  apply (X2_selection_keeps_popover
           (Multi.run (Multi.init (Sample.multiProps [] None None))
              [Multi.EvOpenChange true; Multi.EvInput "ab"]));
    vm_compute; reflexivity.
Defined.

(** ** MultiSelect: the trigger and the trim button *)

Lemma slice0_length {A} (l : list A) (e : Z) :
  0 <= e ->
  Z.of_nat (length (slice0 l e)) = Z.min e (Z.of_nat (length l)).
Proof.
  intros He. unfold slice0. cbv zeta.
  destruct (e <? 0) eqn:E; [apply Z.ltb_lt in E; lia|].
  rewrite length_firstn. lia.
Qed.

Lemma slice0_all {A} (l : list A) (e : Z) :
  Z.of_nat (length l) <= e -> slice0 l e = l.
Proof.
  intros He. unfold slice0. cbv zeta.
  destruct (e <? 0) eqn:E; [apply Z.ltb_lt in E; lia|].
  apply firstn_all2. lia.
Qed.

(** X3. With a non-negative [maxCount] the trigger accounts for every
    selected option: while "+ N more" is shown there are exactly [maxCount]
    badges and N is positive, badges plus N being the number selected;
    while it is not shown, every selected option has its badge. *)
Theorem X3_trigger_accounts_for_selection (s : Multi.State) :
  0 <= Multi.maxCount (Multi.props s) ->
  (if MultiView.overflowShown s
   then Z.of_nat (length (MultiView.badges s)) = Multi.maxCount (Multi.props s)
        /\ 0 < MultiView.overflowCount s
        /\ Z.of_nat (length (MultiView.badges s)) + MultiView.overflowCount s
           = Z.of_nat (length (Multi.selectedOptions s))
   else MultiView.badges s = Multi.selectedOptions s).
Proof.
  intros Hm. unfold MultiView.overflowShown, MultiView.badges,
    MultiView.overflowCount.
  destruct (_ <? _) eqn:E.
  - apply Z.ltb_lt in E.
    replace (Nat.ltb 0 (length (Multi.selectedOptions s))) with true
      by (symmetry; apply Nat.ltb_lt; lia).
    cbn [andb]. rewrite slice0_length by assumption. lia.
  - rewrite andb_false_r. apply Z.ltb_ge in E. now apply slice0_all.
Qed.

Lemma X3_witness :
  let s := Multi.init
             (Sample.multiProps
                [Sample.apple; Sample.banana; Sample.cherry; Sample.apple']
                None None) in
  (if MultiView.overflowShown s
   then Z.of_nat (length (MultiView.badges s)) = Multi.maxCount (Multi.props s)
        /\ 0 < MultiView.overflowCount s
        /\ Z.of_nat (length (MultiView.badges s)) + MultiView.overflowCount s
           = Z.of_nat (length (Multi.selectedOptions s))
   else MultiView.badges s = Multi.selectedOptions s).
Proof.
  cbv zeta.
  apply (X3_trigger_accounts_for_selection
           (Multi.init
              (Sample.multiProps
                 [Sample.apple; Sample.banana; Sample.cherry; Sample.apple']
                 None None))).
  vm_compute. discriminate.
Defined.

(** X4. The trim button ([clearExtraOptions]) keeps exactly the options
    shown as badges and reports their keys; with a non-negative [maxCount]
    the "+ N more" badge is gone afterwards and the badges are unchanged, so
    that a second trim would change nothing. *)
Theorem X4_trim_keeps_badges (s : Multi.State) :
  Multi.mounted s = true ->
  Multi.rendered s = Some (Multi.depsOf s) ->
  0 <= Multi.maxCount (Multi.props s) ->
  let s' := Multi.step s (Multi.EvSelection Multi.OpClearExtra) in
  Multi.selectedOptions s' = MultiView.badges s
  /\ MultiView.badges s' = MultiView.badges s
  /\ MultiView.overflowShown s' = false
  /\ Multi.selectedOptions (Multi.step s' (Multi.EvSelection Multi.OpClearExtra))
     = Multi.selectedOptions s'.
Proof.
  intros Hm Hr Hmax. cbv zeta.
  destruct (multi_selection_step s Multi.OpClearExtra Hm Hr)
    as ((Hm' & Hr' & Hp') & So & _).
  cbv zeta in Hm', Hr', Hp', So.
  destruct (multi_selection_step _ Multi.OpClearExtra Hm' Hr')
    as (_ & So2 & _).
  cbv zeta in So2.
  set (s' := Multi.step s (Multi.EvSelection Multi.OpClearExtra)) in *.
  clearbody s'.
  set (s'' := Multi.step s' (Multi.EvSelection Multi.OpClearExtra)) in *.
  clearbody s''.
  cbn [Multi.applyOp Multi.clearExtraOptions fst] in So, So2.
  assert (Hlen : Z.of_nat (length (Multi.selectedOptions s'))
                 <= Multi.maxCount (Multi.props s)).
  { rewrite So, slice0_length by assumption. lia. }
  assert (Hb : MultiView.badges s' = Multi.selectedOptions s').
  { unfold MultiView.badges. rewrite Hp'. now apply slice0_all. }
  split; [exact So|]. split; [now rewrite Hb, So|].
  split.
  - unfold MultiView.overflowShown. rewrite Hp'. apply andb_false_intro2.
    apply Z.ltb_ge. exact Hlen.
  - rewrite So2. exact Hb.
Qed.

Lemma X4_witness :
  let s := Multi.init
             (Sample.multiProps
                [Sample.apple; Sample.banana; Sample.cherry; Sample.apple']
                None None) in
  let s' := Multi.step s (Multi.EvSelection Multi.OpClearExtra) in
  Multi.selectedOptions s' = MultiView.badges s
  /\ MultiView.badges s' = MultiView.badges s
  /\ MultiView.overflowShown s' = false
  /\ Multi.selectedOptions (Multi.step s' (Multi.EvSelection Multi.OpClearExtra))
     = Multi.selectedOptions s'.
Proof.
  cbv zeta.
  apply (X4_trim_keeps_badges
           (Multi.init
              (Sample.multiProps
                 [Sample.apple; Sample.banana; Sample.cherry; Sample.apple']
                 None None))).
  - vm_compute; reflexivity.
  - vm_compute; reflexivity.
  - vm_compute. discriminate.
Defined.

(** ** MultiSelect: check marks *)

(** X5. Activating the item of [o] flips the check mark of every item with
    the value key of [o] and leaves the check mark of every other item as
    it was. *)
Theorem X5_toggle_flips_check_mark (s : Multi.State) (o o' : Obj) :
  Multi.mounted s = true ->
  Multi.rendered s = Some (Multi.depsOf s) ->
  let k := Multi.valueKey (Multi.props s) in
  let s' := Multi.step s (Multi.EvSelection (Multi.OpToggle o)) in
  MultiView.isSelected s' o'
  = (if strict_eq (get o k) (get o' k)
     then negb (MultiView.isSelected s o')
     else MultiView.isSelected s o').
Proof.
  intros Hm Hr. cbv zeta.
  destruct (multi_selection_step s (Multi.OpToggle o) Hm Hr)
    as ((_ & _ & Hp') & So & _).
  cbv zeta in Hp', So.
  set (s' := Multi.step s (Multi.EvSelection (Multi.OpToggle o))) in *.
  clearbody s'.
  cbn [Multi.applyOp Multi.toggleOption fst] in So.
  unfold MultiView.isSelected. rewrite Hp', So.
  exact (toggled_hasKey (Multi.valueKey (Multi.props s))
           (get o' (Multi.valueKey (Multi.props s)))
           (Multi.selectedOptions s) o).
Qed.

Lemma X5_witness :
  let s := Multi.init (Sample.multiProps [Sample.apple] None None) in
  let k := Multi.valueKey (Multi.props s) in
  let s' := Multi.step s (Multi.EvSelection (Multi.OpToggle Sample.apple')) in
  MultiView.isSelected s' Sample.apple
  = (if strict_eq (get Sample.apple' k) (get Sample.apple k)
     then negb (MultiView.isSelected s Sample.apple)
     else MultiView.isSelected s Sample.apple).
Proof.
  cbv zeta.
  apply (X5_toggle_flips_check_mark
           (Multi.init (Sample.multiProps [Sample.apple] None None)));
    vm_compute; reflexivity.
Defined.

Lemma toggled_twice_absent valueKey (sel : list Obj) (o : Obj) :
  hasKey valueKey (get o valueKey) sel = false ->
  Multi.toggled valueKey (Multi.toggled valueKey sel o) o = sel.
Proof.
  intros H. unfold Multi.toggled at 2. fold (hasKey valueKey (get o valueKey) sel).
  rewrite H. unfold Multi.toggled.
  fold (hasKey valueKey (get o valueKey) (sel ++ [o])).
  rewrite hasKey_snoc, strict_eq_refl, orb_true_r.
  rewrite List.filter_app. cbn [List.filter]. rewrite strict_eq_refl.
  cbn [negb]. rewrite app_nil_r. now apply dropKey_absent.
Qed.

(** X6. Checking an item that is not checked and activating it again
    restores the selection as it was, order included, the second report
    being the keys of the original selection. *)
Theorem X6_check_uncheck_round_trip (s : Multi.State) (o : Obj) :
  Multi.mounted s = true ->
  Multi.rendered s = Some (Multi.depsOf s) ->
  MultiView.isSelected s o = false ->
  let s1 := Multi.step s (Multi.EvSelection (Multi.OpToggle o)) in
  let s2 := Multi.step s1 (Multi.EvSelection (Multi.OpToggle o)) in
  Multi.selectedOptions s1 = Multi.selectedOptions s ++ [o]
  /\ Multi.selectedOptions s2 = Multi.selectedOptions s
  /\ exists rest,
       Multi.newCalls s1 s2
       = CallValueChange
           (map (fun x => get x (Multi.valueKey (Multi.props s)))
              (Multi.selectedOptions s)) :: rest.
Proof.
  intros Hm Hr Hs. cbv zeta.
  destruct (multi_selection_step s (Multi.OpToggle o) Hm Hr)
    as ((Hm' & Hr' & Hp') & So & _).
  cbv zeta in Hm', Hr', Hp', So.
  pose proof (multi_selection_report _ (Multi.OpToggle o) Hm' Hr') as Rep.
  destruct (multi_selection_step _ (Multi.OpToggle o) Hm' Hr')
    as (_ & So2 & _).
  cbv zeta in So2, Rep.
  set (s1 := Multi.step s (Multi.EvSelection (Multi.OpToggle o))) in *.
  clearbody s1.
  set (s2 := Multi.step s1 (Multi.EvSelection (Multi.OpToggle o))) in *.
  clearbody s2.
  cbn [Multi.applyOp Multi.toggleOption fst] in So, So2.
  rewrite Hp', So in So2.
  rewrite toggled_twice_absent in So2 by exact Hs.
  split.
  - rewrite So. unfold Multi.toggled.
    unfold MultiView.isSelected in Hs. now rewrite Hs.
  - split; [exact So2|]. rewrite Rep, Hp', So2. eexists. reflexivity.
Qed.

Lemma X6_witness :
  let s := Multi.init (Sample.multiProps [Sample.banana] None None) in
  let s1 := Multi.step s (Multi.EvSelection (Multi.OpToggle Sample.apple)) in
  let s2 := Multi.step s1 (Multi.EvSelection (Multi.OpToggle Sample.apple)) in
  Multi.selectedOptions s1 = Multi.selectedOptions s ++ [Sample.apple]
  /\ Multi.selectedOptions s2 = Multi.selectedOptions s
  /\ exists rest,
       Multi.newCalls s1 s2
       = CallValueChange
           (map (fun x => get x (Multi.valueKey (Multi.props s)))
              (Multi.selectedOptions s)) :: rest.
Proof.
  cbv zeta.
  apply (X6_check_uncheck_round_trip
           (Multi.init (Sample.multiProps [Sample.banana] None None)));
    vm_compute; reflexivity.
Defined.

(** X7. After a click on "(Select All)" its own check mark is the opposite
    of what it was, unless the option list is empty; with an empty list it
    is checked.  Every item of the list is then checked exactly when the
    mark was off before the click. *)
Theorem X7_select_all_marks (s : Multi.State) :
  Multi.mounted s = true ->
  Multi.rendered s = Some (Multi.depsOf s) ->
  let s' := Multi.step s (Multi.EvSelection Multi.OpToggleAll) in
  MultiView.allChecked s'
  = negb (MultiView.allChecked s)
    || Nat.eqb (length (Multi.options (Multi.props s))) 0
  /\ forall o, In o (Multi.options (Multi.props s)) ->
       MultiView.isSelected s' o = negb (MultiView.allChecked s).
Proof.
  intros Hm Hr. cbv zeta.
  destruct (multi_selection_step s Multi.OpToggleAll Hm Hr)
    as ((_ & _ & Hp') & So & _).
  cbv zeta in Hp', So.
  set (s' := Multi.step s (Multi.EvSelection Multi.OpToggleAll)) in *.
  clearbody s'.
  cbn [Multi.applyOp] in So. unfold Multi.toggleAll in So.
  unfold MultiView.allChecked, MultiView.isSelected. rewrite Hp', So.
  destruct (Nat.eqb (length (Multi.selectedOptions s))
              (length (Multi.options (Multi.props s)))) eqn:E;
    cbn [fst Multi.handleClear negb orb length existsb].
  - split; [|reflexivity].
    destruct (Multi.options (Multi.props s)); reflexivity.
  - split; [now rewrite Nat.eqb_refl|].
    intros o Ho. apply existsb_exists. exists o. split; [exact Ho|].
    apply strict_eq_refl.
Qed.

Lemma X7_witness :
  let s := Multi.init (Sample.multiProps [Sample.cherry] None None) in
  let s' := Multi.step s (Multi.EvSelection Multi.OpToggleAll) in
  MultiView.allChecked s'
  = negb (MultiView.allChecked s)
    || Nat.eqb (length (Multi.options (Multi.props s))) 0
  /\ forall o, In o (Multi.options (Multi.props s)) ->
       MultiView.isSelected s' o = negb (MultiView.allChecked s).
Proof.
  cbv zeta.
  apply (X7_select_all_marks
           (Multi.init (Sample.multiProps [Sample.cherry] None None)));
    vm_compute; reflexivity.
Defined.

(** ** Mounting, new props, opening *)

(** X8. On mount MultiSelect calls the search-change callback, when there
    is one, once with the empty string, while SingleSelect calls nothing;
    both start closed, with the default selection and no listener. *)
Theorem X8_mount_notifications (p : Multi.Props) (q : Single.Props) :
  Multi.log (Multi.init p)
  = match Multi.onSearchChange p with
    | Some cb => [CallSearchChange cb ""]
    | None => []
    end
  /\ Multi.selectedOptions (Multi.init p) = Multi.defaultValue p
  /\ Multi.isPopoverOpen (Multi.init p) = false
  /\ Multi.listeners (Multi.init p) = []
  /\ Single.log (Single.init q) = []
  /\ Single.isOpen (Single.init q) = false
  /\ Single.listeners (Single.init q) = [].
Proof.
  unfold Multi.init, Single.init.
  match goal with |- context [Multi.commit ?x] =>
    pose proof (multi_commit_fields x) as F; cbv zeta in F;
    set (s0 := x) in *; set (s' := Multi.commit s0) in *; clearbody s'
  end.
  match goal with |- context [Single.commit ?x] =>
    pose proof (single_commit_fields x) as G; cbv zeta in G;
    set (t0 := x) in *; set (t' := Single.commit t0) in *; clearbody t'
  end.
  destruct F as ((_ & So & O & _ & L & _ & _) & _ & _ & _ & _ & Log).
  destruct G as ((_ & O' & _ & L' & _ & _) & _ & _ & _ & _ & Log').
  subst s0 t0. cbn in So, O, L, Log, O', L', Log'.
  rewrite Log, So, O, L, Log', O', L'.
  repeat split. now destruct (Single.onSearchChange q).
Qed.

(** X9. New props never touch the selection of MultiSelect: a changed
    [defaultValue] or option list leaves the stored selection as it is and
    [onValueChange] is not called.  The only call a render with new props
    can make is the search-change callback, when its identity changed, with
    the debounced search text. *)
Theorem X9_new_props_keep_selection (s : Multi.State) (p : Multi.Props) :
  Multi.mounted s = true ->
  Multi.rendered s = Some (Multi.depsOf s) ->
  let s' := Multi.step s (Multi.EvSetProps p) in
  Multi.selectedOptions s' = Multi.selectedOptions s
  /\ Multi.isPopoverOpen s' = Multi.isPopoverOpen s
  /\ Multi.newCalls s s'
     = (if bool_decide (Multi.onSearchChange (Multi.props s)
                        = Multi.onSearchChange p)
        then []
        else match Multi.onSearchChange p with
             | Some cb => [CallSearchChange cb (Multi.debouncedSearch s)]
             | None => []
             end).
Proof.
  intros Hm Hr. cbv zeta. unfold Multi.step. rewrite Hm. cbn [negb].
  pose proof (multi_commit_fields (Multi.set_props p s)) as F.
  cbv zeta in F.
  set (s' := Multi.commit (Multi.set_props p s)) in *. clearbody s'.
  destruct F as ((_ & So & O & _) & _ & _ & _ & _ & Log).
  cbn in So, O, Log. rewrite Hr in Log.
  unfold Multi.searchDepsChanged, differs in Log. cbn in Log.
  decide_same_in Log. cbn in Log.
  split; [exact So|]. split; [exact O|].
  rewrite (newCalls_app_multi _ _ _ Log).
  now destruct (bool_decide _).
Qed.

Lemma X9_witness :
  let s := Multi.init (Sample.multiProps [Sample.apple] None None) in
  let p := Sample.multiProps [Sample.banana; Sample.cherry] (Some true) None in
  let s' := Multi.step s (Multi.EvSetProps p) in
  Multi.selectedOptions s' = Multi.selectedOptions s
  /\ Multi.isPopoverOpen s' = Multi.isPopoverOpen s
  /\ Multi.newCalls s s'
     = (if bool_decide (Multi.onSearchChange (Multi.props s)
                        = Multi.onSearchChange p)
        then []
        else match Multi.onSearchChange p with
             | Some cb => [CallSearchChange cb (Multi.debouncedSearch s)]
             | None => []
             end).
Proof.
  cbv zeta.
  apply (X9_new_props_keep_selection
           (Multi.init (Sample.multiProps [Sample.apple] None None)));
    vm_compute; reflexivity.
Defined.

Lemma multi_open (s : Multi.State) :
  Multi.mounted s = true ->
  multiCommitted s ->
  Multi.isPopoverOpen s = false ->
  let s' := Multi.step s (Multi.EvOpenChange true) in
  (Multi.mounted s' = true /\ Multi.props s' = Multi.props s
   /\ Multi.isPopoverOpen s' = true
   /\ Multi.listeners s' = Multi.listeners s)
  /\ Multi.localSearch s' = Multi.localSearch s
  /\ Multi.scrollRef s' = Some (Multi.nextId s)
  /\ Multi.setupTimer s'
     = Some {| Multi.t_hasNextPage := Multi.hasNextPage (Multi.props s);
               Multi.t_isLoading := Multi.isLoading (Multi.props s);
               Multi.t_onLoadMore := Multi.onLoadMore (Multi.props s) |}
  /\ Multi.log s' = Multi.log s.
Proof.
  intros Hm [Hr Hc] Ho. cbv zeta. unfold Multi.step. rewrite Hm. cbn [negb].
  pose proof (multi_commit_fields (Multi.onOpenChange true s)) as F.
  cbv zeta in F.
  set (s' := Multi.commit (Multi.onOpenChange true s)) in *. clearbody s'.
  destruct F as ((P & _ & O & _ & L & M & _) & LS & _ & SR & ST & Log).
  unfold Multi.onOpenChange in *. cbn in P, O, L, M, LS, SR, ST, Log.
  rewrite Hr in LS, ST, Log. rewrite (Hc Ho) in SR.
  unfold Multi.scrollDepsChanged, Multi.searchDepsChanged, differs
    in LS, ST, Log.
  cbn in LS, ST, Log. rewrite Ho in LS, ST.
  decide_same_in Log. cbn in LS, ST, Log. rewrite app_nil_r in Log.
  rewrite Hm in M. repeat split; assumption.
Qed.

Lemma single_open (s : Single.State) :
  Single.mounted s = true ->
  singleCommitted s ->
  Single.isOpen s = false ->
  let s' := Single.step s (Single.EvOpenChange true) in
  (Single.mounted s' = true /\ Single.props s' = Single.props s
   /\ Single.isOpen s' = true
   /\ Single.listeners s' = Single.listeners s)
  /\ Single.localSearch s' = Single.localSearch s
  /\ Single.scrollRef s' = Some (Single.nextId s)
  /\ Single.setupTimer s'
     = Some {| Single.t_hasNextPage := Single.hasNextPage (Single.props s);
               Single.t_isLoading := Single.isLoading (Single.props s);
               Single.t_onLoadMore := Single.onLoadMore (Single.props s) |}
  /\ Single.log s'
     = Single.log s ++
       match Single.onSearchChange (Single.props s) with
       | Some cb => [CallSearchChange cb (Single.debouncedSearch s)]
       | None => []
       end.
Proof.
  intros Hm [Hr Hc] Ho. cbv zeta. unfold Single.step. rewrite Hm. cbn [negb].
  pose proof (single_commit_fields (Single.set_isOpen true s)) as F.
  cbv zeta in F.
  set (s' := Single.commit (Single.set_isOpen true s)) in *. clearbody s'.
  destruct F as ((P & O & _ & L & M & _) & LS & _ & SR & ST & Log).
  cbn in P, O, L, M, LS, SR, ST, Log.
  rewrite Hr in LS, ST, Log. rewrite (Hc Ho) in SR.
  unfold Single.scrollDepsChanged, Single.searchDepsChanged, differs
    in LS, ST, Log.
  cbn in LS, ST, Log. rewrite Ho in LS, ST, Log.
  cbn in LS, ST, Log. rewrite orb_true_r in Log.
  rewrite Hm in M. repeat split; assumption.
Qed.

(** X10. Opening the popover: MultiSelect calls nothing, SingleSelect
    calls the search-change callback, when there is one, once with the
    debounced search text.  Neither calls load-more, and the listeners are
    not installed yet: the setup is scheduled with the current props. *)
Theorem X10_open_notifications (s : Multi.State) (t : Single.State) :
  Multi.reachable s -> Multi.mounted s = true ->
  Multi.isPopoverOpen s = false ->
  Single.reachable t -> Single.mounted t = true ->
  Single.isOpen t = false ->
  let s' := Multi.step s (Multi.EvOpenChange true) in
  let t' := Single.step t (Single.EvOpenChange true) in
  (Multi.isPopoverOpen s' = true
   /\ Multi.newCalls s s' = []
   /\ Multi.listeners s' = Multi.listeners s
   /\ Multi.setupTimer s'
      = Some {| Multi.t_hasNextPage := Multi.hasNextPage (Multi.props s);
                Multi.t_isLoading := Multi.isLoading (Multi.props s);
                Multi.t_onLoadMore := Multi.onLoadMore (Multi.props s) |})
  /\ (Single.isOpen t' = true
      /\ Single.newCalls t t'
         = match Single.onSearchChange (Single.props t) with
           | Some cb => [CallSearchChange cb (Single.debouncedSearch t)]
           | None => []
           end
      /\ Single.listeners t' = Single.listeners t
      /\ Single.setupTimer t'
         = Some {| Single.t_hasNextPage := Single.hasNextPage (Single.props t);
                   Single.t_isLoading := Single.isLoading (Single.props t);
                   Single.t_onLoadMore := Single.onLoadMore (Single.props t) |}).
Proof.
  intros Rs Ms Os Rt Mt Ot. cbv zeta.
  destruct (multi_open s Ms (multi_reachable_committed s Rs) Os)
    as ((_ & _ & O & L) & _ & _ & ST & Log).
  destruct (single_open t Mt (single_reachable_committed t Rt) Ot)
    as ((_ & _ & O' & L') & _ & _ & ST' & Log').
  cbv zeta in O, L, ST, Log, O', L', ST', Log'.
  split.
  - split; [exact O|]. split; [|split; [exact L|exact ST]].
    unfold Multi.newCalls. rewrite Log. apply skipn_all.
  - split; [exact O'|]. split; [|split; [exact L'|exact ST']].
    exact (newCalls_app_single _ _ _ Log').
Qed.

Lemma X10_witness :
  let s := Multi.init (Sample.multiProps [] None None) in
  let t := Single.init (Sample.singleProps (Some 2%nat) None None) in
  let s' := Multi.step s (Multi.EvOpenChange true) in
  let t' := Single.step t (Single.EvOpenChange true) in
  (Multi.isPopoverOpen s' = true
   /\ Multi.newCalls s s' = []
   /\ Multi.listeners s' = Multi.listeners s
   /\ Multi.setupTimer s'
      = Some {| Multi.t_hasNextPage := Multi.hasNextPage (Multi.props s);
                Multi.t_isLoading := Multi.isLoading (Multi.props s);
                Multi.t_onLoadMore := Multi.onLoadMore (Multi.props s) |})
  /\ (Single.isOpen t' = true
      /\ Single.newCalls t t'
         = match Single.onSearchChange (Single.props t) with
           | Some cb => [CallSearchChange cb (Single.debouncedSearch t)]
           | None => []
           end
      /\ Single.listeners t' = Single.listeners t
      /\ Single.setupTimer t'
         = Some {| Single.t_hasNextPage := Single.hasNextPage (Single.props t);
                   Single.t_isLoading := Single.isLoading (Single.props t);
                   Single.t_onLoadMore := Single.onLoadMore (Single.props t) |}).
Proof.
  cbv zeta.
  apply (X10_open_notifications
           (Multi.init (Sample.multiProps [] None None))
           (Single.init (Sample.singleProps (Some 2%nat) None None)));
    try (vm_compute; reflexivity); constructor.
Defined.

(** ** When the listeners are installed *)

Lemma multi_fireSetupTimer_installs (s : Multi.State) (t : Multi.Setup)
    (c : nat) :
  Multi.setupTimer s = Some t ->
  Multi.scrollRef s = Some c ->
  Multi.listeners (Multi.fireSetupTimer s)
  = Multi.listeners s ++
    match Multi.t_onLoadMore t with
    | Some f =>
        if truthy (Multi.t_hasNextPage t)
        then handlerPair c (Multi.nextId s)
               {| c_hasNextPage := Multi.t_hasNextPage t;
                  c_isLoading := Multi.t_isLoading t;
                  c_onLoadMore := f |}
        else []
    | None => []
    end.
Proof.
  intros Ht Hc. unfold Multi.fireSetupTimer, Multi.setupCallback.
  rewrite Ht. cbn. rewrite Hc.
  destruct (truthy (Multi.t_hasNextPage t)), (Multi.t_onLoadMore t); cbn;
    try reflexivity; now rewrite app_nil_r.
Qed.

Lemma single_fireSetupTimer_installs (s : Single.State) (t : Single.Setup)
    (c : nat) :
  Single.setupTimer s = Some t ->
  Single.scrollRef s = Some c ->
  Single.listeners (Single.fireSetupTimer s)
  = Single.listeners s ++
    match Single.t_onLoadMore t with
    | Some f =>
        handlerPair c (Single.nextId s)
          {| c_hasNextPage := Single.t_hasNextPage t;
             c_isLoading := Single.t_isLoading t;
             c_onLoadMore := f |}
    | None => []
    end.
Proof.
  intros Ht Hc. unfold Single.fireSetupTimer, Single.setupCallback.
  rewrite Ht. cbn. rewrite Hc.
  destruct (Single.t_onLoadMore t); cbn;
    try reflexivity; now rewrite app_nil_r.
Qed.

(** X11. Opening MultiSelect and letting the 10ms timer fire installs one
    scroll and one wheel handler on the list, capturing the props of the
    opening render, exactly when [onLoadMore] is supplied and [hasNextPage]
    is truthy; otherwise nothing is installed.  The timer itself calls no
    callback. *)
Theorem X11_multi_open_installs (s : Multi.State) :
  Multi.reachable s -> Multi.mounted s = true ->
  Multi.isPopoverOpen s = false ->
  let p := Multi.props s in
  let s1 := Multi.step s (Multi.EvOpenChange true) in
  let s2 := Multi.step s1 Multi.EvSetupTimer in
  exists c fn,
    Multi.scrollRef s2 = Some c
    /\ Multi.listeners s2
       = Multi.listeners s ++
         match Multi.onLoadMore p with
         | Some f =>
             if truthy (Multi.hasNextPage p)
             then handlerPair c fn
                    {| c_hasNextPage := Multi.hasNextPage p;
                       c_isLoading := Multi.isLoading p;
                       c_onLoadMore := f |}
             else []
         | None => []
         end
    /\ Multi.newCalls s1 s2 = [].
Proof.
  intros Rs Ms Os. cbv zeta.
  destruct (multi_open s Ms (multi_reachable_committed s Rs) Os)
    as ((M1 & _ & _ & L) & _ & SR & ST & _).
  cbv zeta in M1, L, SR, ST.
  set (s1 := Multi.step s (Multi.EvOpenChange true)) in *. clearbody s1.
  unfold Multi.step. rewrite M1. cbn [negb].
  destruct (multi_fireSetupTimer_frame s1) as (Core & Log & _).
  exists (Multi.nextId s), (Multi.nextId s1).
  split.
  - unfold multiCore in Core. injection Core as _ _ _ _ _ _ E _ _.
    now rewrite E.
  - split.
    + rewrite (multi_fireSetupTimer_installs s1 _ _ ST SR), L. reflexivity.
    + unfold Multi.newCalls. rewrite Log. apply skipn_all.
Qed.

Lemma X11_witness :
  let s := Multi.init (Sample.multiProps [] None None) in
  let p := Multi.props s in
  let s1 := Multi.step s (Multi.EvOpenChange true) in
  let s2 := Multi.step s1 Multi.EvSetupTimer in
  exists c fn,
    Multi.scrollRef s2 = Some c
    /\ Multi.listeners s2
       = Multi.listeners s ++
         match Multi.onLoadMore p with
         | Some f =>
             if truthy (Multi.hasNextPage p)
             then handlerPair c fn
                    {| c_hasNextPage := Multi.hasNextPage p;
                       c_isLoading := Multi.isLoading p;
                       c_onLoadMore := f |}
             else []
         | None => []
         end
    /\ Multi.newCalls s1 s2 = [].
Proof.
  cbv zeta.
  apply (X11_multi_open_installs
           (Multi.init (Sample.multiProps [] None None)));
    try (vm_compute; reflexivity); constructor.
Defined.

(** X12. SingleSelect installs its handlers whenever [onLoadMore] is
    supplied, whatever [hasNextPage] is: after opening and the 10ms timer
    the list has one scroll and one wheel handler more, capturing the props
    of the opening render, and none when [onLoadMore] is absent. *)
Theorem X12_single_open_installs (s : Single.State) :
  Single.reachable s -> Single.mounted s = true ->
  Single.isOpen s = false ->
  let p := Single.props s in
  let s1 := Single.step s (Single.EvOpenChange true) in
  let s2 := Single.step s1 Single.EvSetupTimer in
  exists c fn,
    Single.scrollRef s2 = Some c
    /\ Single.listeners s2
       = Single.listeners s ++
         match Single.onLoadMore p with
         | Some f =>
             handlerPair c fn
               {| c_hasNextPage := Single.hasNextPage p;
                  c_isLoading := Single.isLoading p;
                  c_onLoadMore := f |}
         | None => []
         end
    /\ Single.newCalls s1 s2 = [].
Proof.
  intros Rs Ms Os. cbv zeta.
  destruct (single_open s Ms (single_reachable_committed s Rs) Os)
    as ((M1 & _ & _ & L) & _ & SR & ST & _).
  cbv zeta in M1, L, SR, ST.
  set (s1 := Single.step s (Single.EvOpenChange true)) in *. clearbody s1.
  unfold Single.step. rewrite M1. cbn [negb].
  destruct (single_fireSetupTimer_frame s1) as (Core & Log & _).
  exists (Single.nextId s), (Single.nextId s1).
  split.
  - unfold singleCore in Core. injection Core as _ _ _ _ _ E _ _.
    now rewrite E.
  - split.
    + rewrite (single_fireSetupTimer_installs s1 _ _ ST SR), L. reflexivity.
    + unfold Single.newCalls. rewrite Log. apply skipn_all.
Qed.

Lemma X12_witness :
  let s := Single.init (Sample.singleProps None None None) in
  let p := Single.props s in
  let s1 := Single.step s (Single.EvOpenChange true) in
  let s2 := Single.step s1 Single.EvSetupTimer in
  exists c fn,
    Single.scrollRef s2 = Some c
    /\ Single.listeners s2
       = Single.listeners s ++
         match Single.onLoadMore p with
         | Some f =>
             handlerPair c fn
               {| c_hasNextPage := Single.hasNextPage p;
                  c_isLoading := Single.isLoading p;
                  c_onLoadMore := f |}
         | None => []
         end
    /\ Single.newCalls s1 s2 = [].
Proof.
  cbv zeta.
  apply (X12_single_open_installs
           (Single.init (Sample.singleProps None None None)));
    try (vm_compute; reflexivity); constructor.
Defined.

(** X13. While the popover is closed the setup timer installs nothing and
    calls nothing, in both components: the list element is not mounted and
    the callback returns at its first guard.  So a popover closed before
    the 10ms have passed gets no handler. *)
Theorem X13_closed_timer_installs_nothing (s : Multi.State)
    (t : Single.State) :
  Multi.reachable s -> Multi.isPopoverOpen s = false ->
  Single.reachable t -> Single.isOpen t = false ->
  (Multi.listeners (Multi.step s Multi.EvSetupTimer) = Multi.listeners s
   /\ Multi.log (Multi.step s Multi.EvSetupTimer) = Multi.log s)
  /\ (Single.listeners (Single.step t Single.EvSetupTimer)
      = Single.listeners t
      /\ Single.log (Single.step t Single.EvSetupTimer) = Single.log t).
Proof.
  intros Rs Os Rt Ot.
  destruct (multi_reachable_committed s Rs) as [_ Hs].
  destruct (single_reachable_committed t Rt) as [_ Ht].
  specialize (Hs Os). specialize (Ht Ot).
  split.
  - unfold Multi.step. destruct (Multi.mounted s); cbn [negb];
      [|now split].
    unfold Multi.fireSetupTimer, Multi.setupCallback.
    destruct (Multi.setupTimer s); [|now split]. cbn. rewrite Hs.
    now split.
  - unfold Single.step. destruct (Single.mounted t); cbn [negb];
      [|now split].
    unfold Single.fireSetupTimer, Single.setupCallback.
    destruct (Single.setupTimer t); [|now split]. cbn. rewrite Ht.
    now split.
Qed.

Lemma X13_witness :
  let s := Multi.run (Multi.init (Sample.multiProps [] None None))
             [Multi.EvOpenChange true; Multi.EvOpenChange false] in
  let t := Single.run (Single.init (Sample.singleProps None None None))
             [Single.EvOpenChange true; Single.EvOpenChange false] in
  (Multi.listeners (Multi.step s Multi.EvSetupTimer) = Multi.listeners s
   /\ Multi.log (Multi.step s Multi.EvSetupTimer) = Multi.log s)
  /\ (Single.listeners (Single.step t Single.EvSetupTimer)
      = Single.listeners t
      /\ Single.log (Single.step t Single.EvSetupTimer) = Single.log t).
Proof.
  cbv zeta.
  apply (X13_closed_timer_installs_nothing
           (Multi.run (Multi.init (Sample.multiProps [] None None))
              [Multi.EvOpenChange true; Multi.EvOpenChange false])
           (Single.run (Single.init (Sample.singleProps None None None))
              [Single.EvOpenChange true; Single.EvOpenChange false])).
  - apply multi_reachable_run. constructor.
  - vm_compute; reflexivity.
  - apply single_reachable_run. constructor.
  - vm_compute; reflexivity.
Defined.

(** ** MultiSelect: what its handlers captured *)

Lemma multi_fireSetupTimer_captured (s : Multi.State) :
  capturedNextPage (Multi.listeners s) ->
  capturedNextPage (Multi.listeners (Multi.fireSetupTimer s)).
Proof.
  intros H. unfold Multi.fireSetupTimer, Multi.setupCallback.
  destruct (Multi.setupTimer s) as [t|]; [|exact H]. cbn.
  destruct (Multi.scrollRef s) as [c|]; [|exact H].
  destruct (truthy (Multi.t_hasNextPage t)) eqn:E; cbn; [|exact H].
  destruct (Multi.t_onLoadMore t); cbn; [|exact H].
  unfold capturedNextPage. apply Forall_app. split; [exact H|].
  repeat constructor; exact E.
Qed.


Lemma multi_step_captured (s : Multi.State) (ev : Multi.Event) :
  capturedNextPage (Multi.listeners s) ->
  capturedNextPage (Multi.listeners (Multi.step s ev)).
Proof.
  intros H.
  assert (Hc : forall x, Multi.listeners x = Multi.listeners s ->
             capturedNextPage (Multi.listeners (Multi.commit x))).
  { intros x Hx.
    destruct (multi_commit_fields x) as ((_ & _ & _ & _ & L & _) & _).
    cbv zeta in L. now rewrite L, Hx. }
  unfold Multi.step. destruct (Multi.mounted s); cbn [negb]; [|exact H].
  destruct ev as [p|o| |t|op| | |g|d|]; try (apply Hc; reflexivity).
  - apply Hc. unfold Multi.onOpenChange. cbn.
    now destruct o, (Multi.onSearchChange (Multi.props s)).
  - apply Hc. unfold Multi.onOpenChange. cbn.
    now destruct (Multi.isPopoverOpen s),
      (Multi.onSearchChange (Multi.props s)).
  - destruct (Multi.onSearchChange (Multi.props s)); [|exact H].
    destruct (Multi.isPopoverOpen s); [|exact H]. now apply Hc.
  - now apply multi_fireSetupTimer_captured.
  - apply Hc. unfold Multi.fireDebounce.
    now destruct (Multi.debounceTimer s).
  - destruct (Multi.scrollRef s); [|exact H].
    destruct (multi_scroll_frame g s) as [_ E]. now rewrite E.
  - destruct (multi_dispatchWheel_frame d s) as (_ & E & _). now rewrite E.
  - exact H.
Qed.

Lemma multi_reachable_captured (s : Multi.State) :
  Multi.reachable s -> capturedNextPage (Multi.listeners s).
Proof.
  induction 1 as [p|s ev Hr IH].
  - unfold Multi.init.
    match goal with |- context [Multi.commit ?x] =>
      destruct (multi_commit_fields x) as ((_ & _ & _ & _ & L & _) & _)
    end.
    cbv zeta in L. rewrite L. constructor.
  - now apply multi_step_captured.
Qed.

(** X14. In MultiSelect every installed handler captured a truthy
    [hasNextPage], the setup callback returning before the handlers are
    created otherwise.  So the [!hasNextPage] test inside [handleScroll]
    never decides anything: a run of a scroll handler calls load-more
    exactly when no fetch is in flight, the captured [isLoading] is falsy
    and the list is within 5px of its bottom. *)
Theorem X14_multi_handlers_captured_next_page (s : Multi.State)
    (l : Listener) (g : Elem) :
  Multi.reachable s ->
  In l (Multi.listeners s) ->
  truthy (c_hasNextPage (l_env l)) = true
  /\ handleScroll (l_env l) (Multi.isFetchingNextPageRef s) g
     = (if negb (truthy (Multi.isFetchingNextPageRef s))
           && negb (truthy (c_isLoading (l_env l)))
           && atBottom g
        then [CallLoadMore (c_onLoadMore (l_env l))]
        else []).
Proof.
  intros Hr Hl.
  pose proof (multi_reachable_captured s Hr) as Hc.
  unfold capturedNextPage in Hc. rewrite List.Forall_forall in Hc.
  specialize (Hc l Hl). split; [exact Hc|].
  unfold handleScroll. rewrite Hc. cbn [negb orb].
  destruct (truthy (Multi.isFetchingNextPageRef s)),
    (truthy (c_isLoading (l_env l))), (atBottom g); reflexivity.
Qed.

Lemma X14_witness :
  let s := Multi.run (Multi.init (Sample.multiProps [] None None))
             [Multi.EvOpenChange true; Multi.EvSetupTimer] in
  let l := {| l_target := 0%nat; l_kind := OnScroll; l_fn := 1%nat;
              l_env := {| c_hasNextPage := Some true; c_isLoading := None;
                          c_onLoadMore := 1%nat |} |} in
  truthy (c_hasNextPage (l_env l)) = true
  /\ handleScroll (l_env l) (Multi.isFetchingNextPageRef s) Sample.nearBottom
     = (if negb (truthy (Multi.isFetchingNextPageRef s))
           && negb (truthy (c_isLoading (l_env l)))
           && atBottom Sample.nearBottom
        then [CallLoadMore (c_onLoadMore (l_env l))]
        else []).
Proof.
  cbv zeta.
  apply (X14_multi_handlers_captured_next_page
           (Multi.run (Multi.init (Sample.multiProps [] None None))
              [Multi.EvOpenChange true; Multi.EvSetupTimer])).
  - apply multi_reachable_run. constructor.
  - vm_compute. left. reflexivity.
Defined.

(** ** Wheel events *)

Lemma multi_wheel_one (s : Multi.State) (c : nat) (l : Listener) (d : Z) :
  Multi.mounted s = true ->
  Multi.scrollRef s = Some c ->
  listenersOn c OnWheel (Multi.listeners s) = [l] ->
  Multi.step s (Multi.EvWheel d) = Multi.handleWheel (l_env l) d s.
Proof.
  intros Hm Hc Hl. unfold Multi.step. rewrite Hm. cbn [negb].
  unfold Multi.dispatchWheel. now rewrite Hc, Hl.
Qed.

Lemma atBottom_after_wheel (g : Elem) (d : Z) :
  scrollHeight g - clientHeight g - 5 <= scrollTop g + d ->
  atBottom (setScrollTop g (scrollTop g + d)) = true.
Proof.
  intros H. unfold atBottom, setScrollTop. cbn. apply Z.leb_le. lia.
Qed.

(** X15. A wheel event on the open list of MultiSelect, with its one
    wheel handler installed, always moves the list by [deltaY] (clamped to
    the scrollable range); when that brings the list within 5px of its
    bottom, no fetch is in flight and the captured [isLoading] is falsy, it
    calls load-more exactly once, and it calls nothing when the list stays
    further from the bottom. *)
Theorem X15_multi_wheel_loads_more (s : Multi.State) (c : nat) (l : Listener)
    (d : Z) :
  Multi.reachable s -> Multi.mounted s = true ->
  Multi.scrollRef s = Some c ->
  listenersOn c OnWheel (Multi.listeners s) = [l] ->
  truthy (Multi.isFetchingNextPageRef s) = false ->
  truthy (c_isLoading (l_env l)) = false ->
  let g := Multi.geometry s in
  let s' := Multi.step s (Multi.EvWheel d) in
  Multi.geometry s' = setScrollTop g (scrollTop g + d)
  /\ (scrollHeight g - clientHeight g - 5 <= scrollTop g + d ->
      Multi.newCalls s s' = [CallLoadMore (c_onLoadMore (l_env l))])
  /\ (scrollTop g + d < scrollHeight g - clientHeight g - 5 ->
      0 <= scrollTop g + d ->
      Multi.newCalls s s' = []).
Proof.
  intros Hr Hm Hc Hl Hf Hld. cbv zeta.
  rewrite (multi_wheel_one s c l d Hm Hc Hl).
  assert (Hin : In l (Multi.listeners s)).
  { assert (H : In l (listenersOn c OnWheel (Multi.listeners s)))
      by (rewrite Hl; now left).
    unfold listenersOn in H. now apply List.filter_In in H. }
  pose proof (multi_reachable_captured s Hr) as Hcap.
  unfold capturedNextPage in Hcap. rewrite List.Forall_forall in Hcap.
  specialize (Hcap l Hin).
  unfold Multi.handleWheel. cbv zeta. rewrite Hld. cbn [negb].
  split; [reflexivity|].
  change (Multi.isFetchingNextPageRef (Multi.set_geometry _ s))
    with (Multi.isFetchingNextPageRef s).
  change (Multi.geometry (Multi.set_geometry ?g s)) with g.
  unfold handleScroll. rewrite Hcap, Hf, Hld. cbn [negb orb andb].
  rewrite !andb_true_r.
  split.
  - intros Hb. apply newCalls_app_multi.
    rewrite (atBottom_after_wheel _ _ Hb). reflexivity.
  - intros Hb H0. apply newCalls_app_multi.
    replace (atBottom _) with false.
    + cbn. now rewrite app_nil_r.
    + symmetry. unfold atBottom, setScrollTop. cbn. apply Z.leb_gt. lia.
Qed.

Lemma X15_witness :
  let s := Multi.run (Multi.init (Sample.multiProps [] None None))
             [Multi.EvOpenChange true; Multi.EvSetupTimer;
              Multi.EvScroll {| scrollTop := 0; scrollHeight := 400;
                                clientHeight := 300 |}] in
  let l := {| l_target := 0%nat; l_kind := OnWheel; l_fn := 2%nat;
              l_env := {| c_hasNextPage := Some true; c_isLoading := None;
                          c_onLoadMore := 1%nat |} |} in
  let d := 96 in
  let g := Multi.geometry s in
  let s' := Multi.step s (Multi.EvWheel d) in
  Multi.geometry s' = setScrollTop g (scrollTop g + d)
  /\ (scrollHeight g - clientHeight g - 5 <= scrollTop g + d ->
      Multi.newCalls s s' = [CallLoadMore (c_onLoadMore (l_env l))])
  /\ (scrollTop g + d < scrollHeight g - clientHeight g - 5 ->
      0 <= scrollTop g + d ->
      Multi.newCalls s s' = []).
Proof.
  cbv zeta.
  apply (X15_multi_wheel_loads_more
           (Multi.run (Multi.init (Sample.multiProps [] None None))
              [Multi.EvOpenChange true; Multi.EvSetupTimer;
               Multi.EvScroll {| scrollTop := 0; scrollHeight := 400;
                                 clientHeight := 300 |}])
           0%nat).
  - apply multi_reachable_run. constructor.
  - vm_compute; reflexivity.
  - vm_compute; reflexivity.
  - vm_compute; reflexivity.
  - vm_compute; reflexivity.
  - vm_compute; reflexivity.
Defined.

Lemma single_fold_wheel_bubbles (d : Z) (s : Single.State)
    (ls : list Listener) :
  (forall l, In l ls -> Single.handleWheel (l_env l) d s = s) ->
  fold_left (fun s l => Single.handleWheel (l_env l) d s) ls s = s.
Proof.
  induction ls as [|l ls IH]; intros H; [reflexivity|].
  cbn [fold_left]. rewrite (H l) by now left.
  apply IH. intros l' Hl'. apply H. now right.
Qed.

(** X16. SingleSelect leaves a wheel event to the page in two cases,
    however many handlers are installed: wheel up with the list within 5px
    of its top, and wheel down with the list within 5px of its bottom when
    no handler captured a next page.  Nothing moves and nothing is
    called. *)
Theorem X16_single_wheel_left_to_page (s : Single.State) (d : Z) :
  (scrollTop (Single.geometry s) <= 5 /\ d < 0)
  \/ (atBottom (Single.geometry s) = true /\ 0 < d
      /\ Forall (fun l => truthy (c_hasNextPage (l_env l)) = false)
           (Single.listeners s)) ->
  Single.step s (Single.EvWheel d) = s.
Proof.
  intros H. unfold Single.step. destruct (Single.mounted s); cbn [negb];
    [|reflexivity].
  unfold Single.dispatchWheel. destruct (Single.scrollRef s) as [c|];
    [|reflexivity].
  apply single_fold_wheel_bubbles. intros l Hl.
  unfold listenersOn in Hl. apply List.filter_In in Hl as [Hl _].
  unfold Single.handleWheel. cbv zeta.
  destruct H as [[Ht Hd]|(Hb & Hd & Hall)].
  - apply Z.leb_le in Ht. apply Z.ltb_lt in Hd. rewrite Ht, Hd.
    now rewrite orb_true_r.
  - rewrite List.Forall_forall in Hall. rewrite (Hall l Hl), Hb.
    apply Z.ltb_lt in Hd. now rewrite Hd.
Qed.

Lemma X16_witness :
  Single.step
    (Single.run (Single.init (Sample.singleProps None None None))
       [Single.EvOpenChange true; Single.EvSetupTimer;
        Single.EvScroll {| scrollTop := 3; scrollHeight := 400;
                           clientHeight := 300 |}])
    (Single.EvWheel (-40))
  = Single.run (Single.init (Sample.singleProps None None None))
      [Single.EvOpenChange true; Single.EvSetupTimer;
       Single.EvScroll {| scrollTop := 3; scrollHeight := 400;
                          clientHeight := 300 |}].
Proof.
  apply (X16_single_wheel_left_to_page
           (Single.run (Single.init (Sample.singleProps None None None))
              [Single.EvOpenChange true; Single.EvSetupTimer;
               Single.EvScroll {| scrollTop := 3; scrollHeight := 400;
                                  clientHeight := 300 |}])
           (-40)).
  left. vm_compute. split; [discriminate|reflexivity].
Defined.

(** ** SingleSelect: the trigger and the check marks *)

(** X17. The trigger of SingleSelect agrees with the check marks: it shows
    the text of an item of the option list whose check mark is on when
    there is one (the first), and otherwise, no item being checked, the
    label of [defaultValue] when one was passed and the placeholder when
    not.  The search text plays no part. *)
Theorem X17_trigger_matches_check_marks (p : Single.Props)
    (defaultValue : option Obj) (placeholder : string) :
  match SingleView.trigger p defaultValue placeholder with
  | SingleView.SelectedLabel text =>
      exists o, In o (Single.options p)
                /\ SingleView.isSelected p o = true
                /\ text = SingleView.itemText p o
  | SingleView.DefaultLabel v =>
      (forall o, In o (Single.options p) -> SingleView.isSelected p o = false)
      /\ exists d, defaultValue = Some d /\ v = get d (Single.labelKey p)
  | SingleView.Placeholder text =>
      (forall o, In o (Single.options p) -> SingleView.isSelected p o = false)
      /\ defaultValue = None /\ text = placeholder
  end.
Proof.
  unfold SingleView.trigger, SingleView.selectedOption.
  destruct (List.find _ (Single.options p)) as [o|] eqn:E.
  - apply List.find_some in E as [Hin Hsel]. exists o. now repeat split.
  - pose proof (List.find_none _ _ E) as Hnone. cbv beta in Hnone.
    destruct defaultValue as [d|].
    + split; [exact Hnone|]. now exists d.
    + now split.
Qed.

Lemma NoDup_map_inj {A B} (f : A -> B) (l : list A) (x y : A) :
  NoDup (map f l) -> In x l -> In y l -> f x = f y -> x = y.
Proof.
  induction l as [|a l IH]; cbn [map]; intros Hnd Hx Hy E; [destruct Hx|].
  apply NoDup_cons in Hnd as [Hna Hnd].
  assert (Hmem : forall z, In z l -> f z = f a -> False).
  { intros z Hz Ez. apply Hna. rewrite <- Ez.
    apply list_elem_of_In. now apply in_map. }
  destruct Hx as [->|Hx], Hy as [->|Hy].
  - reflexivity.
  - exfalso. now apply (Hmem y).
  - exfalso. now apply (Hmem x).
  - now apply IH.
Qed.

(** X18. When the value keys of the options are pairwise distinct, an item
    of the list whose key is the [value] prop is the only checked item and
    it is the one the trigger shows. *)
Theorem X18_unique_checked_item (p : Single.Props) (o : Obj)
    (defaultValue : option Obj) (placeholder : string) :
  NoDup (map (fun x => get x (Single.valueKey p)) (Single.options p)) ->
  In o (Single.options p) ->
  get o (Single.valueKey p) = Single.value p ->
  SingleView.selectedOption p = Some o
  /\ SingleView.trigger p defaultValue placeholder
     = SingleView.SelectedLabel (SingleView.itemText p o)
  /\ forall o', In o' (Single.options p) ->
       SingleView.isSelected p o' = true -> o' = o.
Proof.
  intros Hnd Hin Hv.
  assert (Huniq : forall o', In o' (Single.options p) ->
            SingleView.isSelected p o' = true -> o' = o).
  { intros o' Hin' Hs'. unfold SingleView.isSelected in Hs'.
    apply strict_eq_spec in Hs'.
    apply (NoDup_map_inj _ _ _ _ Hnd Hin' Hin). cbv beta. congruence. }
  assert (Hfind : SingleView.selectedOption p = Some o).
  { unfold SingleView.selectedOption.
    destruct (List.find _ (Single.options p)) as [o'|] eqn:E.
    - apply List.find_some in E as [Hin' Hsel']. f_equal.
      now apply Huniq.
    - pose proof (List.find_none _ _ E o Hin) as Hn. cbv beta in Hn.
      rewrite Hv, strict_eq_refl in Hn. discriminate. }
  split; [exact Hfind|]. split; [|exact Huniq].
  unfold SingleView.trigger. now rewrite Hfind.
Qed.

Lemma X18_witness :
  let p := Sample.singleProps None None None in
  SingleView.selectedOption p = Some Sample.apple
  /\ SingleView.trigger p None "Select an option"
     = SingleView.SelectedLabel (SingleView.itemText p Sample.apple)
  /\ forall o', In o' (Single.options p) ->
       SingleView.isSelected p o' = true -> o' = Sample.apple.
Proof.
  cbv zeta.
  apply (X18_unique_checked_item (Sample.singleProps None None None)
           Sample.apple None "Select an option").
  - vm_compute.
    repeat (apply NoDup_cons; split;
      [intros H; repeat (apply elem_of_cons in H as [H|H]; [discriminate H|]);
       now apply elem_of_nil in H|]).
    apply NoDup_nil_2.
  - vm_compute. left. reflexivity.
  - vm_compute. reflexivity.
Defined.

Lemma single_select_step (s : Single.State) (i : nat) (o : Obj) :
  Single.mounted s = true ->
  Single.isOpen s = true ->
  nth_error (Single.filteredOptions (Single.props s) (Single.debouncedSearch s))
    i = Some o ->
  let p := Single.props s in
  let s' := Single.step s (Single.EvSelect i) in
  Single.mounted s' = true
  /\ Single.props s' = p
  /\ Single.newCalls s s'
     = [CallValueChange1
          (if strict_eq (get o (Single.valueKey p)) (Single.value p)
           then JNull else get o (Single.valueKey p))].
Proof.
  intros Hm Ho Hn. cbv zeta. unfold Single.step.
  rewrite Hm, Ho, Hn. cbn [negb].
  destruct (single_onSelect_commit s o) as (_ & _ & Log).
  cbv zeta in Log.
  destruct (single_commit_fields (Single.onSelect o s))
    as ((P & _ & _ & _ & M & _) & _).
  cbv zeta in P, M.
  set (s' := Single.commit (Single.onSelect o s)) in *. clearbody s'.
  split; [now rewrite M|]. split; [exact P|].
  exact (newCalls_app_single _ _ _ Log).
Qed.

(** X19. The controlled round trip: when the parent stores the value that
    an activated item reported and passes it back as [value], the check
    mark of that item is on if it was off, and off if it was on, except
    for an item whose value key is [null], which stays checked. *)
Theorem X19_select_then_echo (s : Single.State) (i : nat) (o : Obj) :
  Single.mounted s = true ->
  Single.isOpen s = true ->
  nth_error (Single.filteredOptions (Single.props s) (Single.debouncedSearch s))
    i = Some o ->
  let p := Single.props s in
  let s1 := Single.step s (Single.EvSelect i) in
  exists v,
    Single.newCalls s s1 = [CallValueChange1 v]
    /\ let s2 := Single.step s1
                   (Single.EvSetProps (SingleEcho.withValue v p)) in
       SingleView.isSelected (Single.props s2) o
       = (if SingleView.isSelected p o
          then strict_eq (get o (Single.valueKey p)) JNull
          else true).
Proof.
  intros Hm Ho Hn. cbv zeta.
  destruct (single_select_step s i o Hm Ho Hn) as (M1 & P1 & Calls).
  cbv zeta in M1, P1, Calls.
  set (s1 := Single.step s (Single.EvSelect i)) in *. clearbody s1.
  eexists. split; [exact Calls|].
  unfold Single.step. rewrite M1. cbn [negb].
  match goal with |- context [Single.commit ?x] =>
    destruct (single_commit_fields x) as ((P & _) & _); cbv zeta in P;
    rewrite P
  end.
  cbn [Single.props Single.set_props].
  unfold SingleView.isSelected, SingleEcho.withValue.
  cbn [Single.valueKey Single.value].
  destruct (strict_eq (get o (Single.valueKey (Single.props s)))
              (Single.value (Single.props s))).
  - reflexivity.
  - apply strict_eq_refl.
Qed.

Lemma X19_witness :
  let s := Single.run (Single.init (Sample.singleProps None None None))
             [Single.EvOpenChange true] in
  let p := Single.props s in
  let s1 := Single.step s (Single.EvSelect 1) in
  exists v,
    Single.newCalls s s1 = [CallValueChange1 v]
    /\ let s2 := Single.step s1
                   (Single.EvSetProps (SingleEcho.withValue v p)) in
       SingleView.isSelected (Single.props s2) Sample.banana
       = (if SingleView.isSelected p Sample.banana
          then strict_eq (get Sample.banana (Single.valueKey p)) JNull
          else true).
Proof.
  cbv zeta.
  apply (X19_select_then_echo
           (Single.run (Single.init (Sample.singleProps None None None))
              [Single.EvOpenChange true])
           1%nat Sample.banana);
    vm_compute; reflexivity.
Defined.

(** ** SingleSelect: local filtering *)

Lemma string_append_assoc (a b c : string) :
  String.append (String.append a b) c = String.append a (String.append b c).
Proof.
  induction a as [|x a IH]; [reflexivity|].
  change (String x (String.append (String.append a b) c)
          = String x (String.append a (String.append b c))).
  now rewrite IH.
Qed.

Lemma includes_trans (s t u : string) :
  includes s t = true -> includes t u = true -> includes s u = true.
Proof.
  rewrite !includes_spec. intros (a & b & ->) (a' & b' & ->).
  exists (String.append a a'), (String.append b' b).
  now rewrite !string_append_assoc.
Qed.

Lemma includes_empty_l (t : string) :
  includes EmptyString t = true -> t = EmptyString.
Proof. destruct t; cbn; [reflexivity|discriminate]. Qed.

Lemma includes_empty_r (s : string) : includes s EmptyString = true.
Proof. destruct s; reflexivity. Qed.

Lemma filter_sublist_impl {A} (f g : A -> bool) (l : list A) :
  (forall x, In x l -> f x = true -> g x = true) ->
  sublist (List.filter f l) (List.filter g l).
Proof.
  induction l as [|x l IH]; intros H; cbn [List.filter]; [constructor|].
  assert (IH' : sublist (List.filter f l) (List.filter g l)).
  { apply IH. intros y Hy. apply H. now right. }
  destruct (f x) eqn:Ef.
  - rewrite (H x (or_introl eq_refl) Ef). now constructor.
  - destruct (g x); [now constructor|exact IH'].
Qed.

Lemma filter_sublist_all {A} (f : A -> bool) (l : list A) :
  sublist (List.filter f l) l.
Proof.
  induction l as [|x l IH]; cbn [List.filter]; [constructor|].
  destruct (f x); now constructor.
Qed.

Lemma trim_truthy_lower (t : string) :
  truthy_str (trim t) = truthy_str (trim (toLowerCase t)).
Proof.
  rewrite trim_toLowerCase.
  destruct (trim t) eqn:E; reflexivity.
Qed.

Lemma filteredOptions_sublist (p : Single.Props) (t : string) :
  sublist (Single.filteredOptions p t) (Single.options p).
Proof.
  unfold Single.filteredOptions.
  destruct (_ || _); [reflexivity|apply filter_sublist_all].
Qed.

(** X20. Typing more never brings an option back: when the trimmed,
    lower-cased term [t1] occurs in the trimmed, lower-cased term [t2], the
    list shown for [t2] is a sub-list of the list shown for [t1], in the
    same order; and every list shown is a sub-list of the [options]
    prop. *)
Theorem X20_longer_term_narrows (p : Single.Props) (t1 t2 : string) :
  includes (trim (toLowerCase t2)) (trim (toLowerCase t1)) = true ->
  sublist (Single.filteredOptions p t2) (Single.filteredOptions p t1)
  /\ sublist (Single.filteredOptions p t1) (Single.options p).
Proof.
  intros H. split; [|apply filteredOptions_sublist].
  pose proof (filteredOptions_sublist p t2) as S2.
  unfold Single.filteredOptions in *.
  destruct (is_Some_bool (Single.onSearchChange p)); cbn [orb] in *;
    [reflexivity|].
  rewrite (trim_truthy_lower t1). rewrite (trim_truthy_lower t2) in *.
  destruct (trim (toLowerCase t1)) as [|c1 r1] eqn:E1; cbn [truthy_str negb];
    [exact S2|].
  destruct (trim (toLowerCase t2)) as [|c2 r2] eqn:E2; cbn [truthy_str negb].
  - apply includes_empty_l in H. discriminate.
  - apply filter_sublist_impl. intros o _. cbv beta zeta.
    rewrite !orb_true_iff.
    intros [Hl|Hk]; [left|right]; eapply includes_trans; eassumption.
Qed.

Lemma X20_witness :
  let p := Sample.singleProps None None None in
  sublist (Single.filteredOptions p " AN") (Single.filteredOptions p "a ")
  /\ sublist (Single.filteredOptions p "a ") (Single.options p).
Proof.
  cbv zeta.
  apply (X20_longer_term_narrows (Sample.singleProps None None None)
           "a " " AN").
  vm_compute. reflexivity.
Defined.

(** X21. An option whose label is absent or null is listed as "undefined"
    or "null", yet the local filter treats its label as the empty text:
    with a term that is not blank such an option is shown exactly when its
    value key as text contains the term. *)
Theorem X21_unlabelled_option_found_by_key (p : Single.Props) (t : string)
    (o : Obj) :
  Single.onSearchChange p = None ->
  trim t <> EmptyString ->
  get o (Single.labelKey p) = JUndefined \/ get o (Single.labelKey p) = JNull ->
  (SingleView.itemText p o = "undefined" \/ SingleView.itemText p o = "null")
  /\ (In o (Single.filteredOptions p t)
      <-> In o (Single.options p)
          /\ includes (toLowerCase (keyText p o)) (trim (toLowerCase t))
             = true).
Proof.
  intros Hcb Ht Hl. split.
  - unfold SingleView.itemText. destruct Hl as [-> | ->]; [now left|now right].
  - unfold Single.filteredOptions. rewrite Hcb. cbn [is_Some_bool orb].
    destruct (truthy_str (trim t)) eqn:E;
      [|apply truthy_str_spec in E; contradiction].
    cbn [negb]. rewrite List.filter_In. cbv beta zeta.
    assert (Hn : toLowerCase
                   (toString (nullish (get o (Single.labelKey p)) (JStr "")))
                 = EmptyString)
      by (destruct Hl as [-> | ->]; reflexivity).
    rewrite Hn.
    assert (Hf : includes EmptyString (trim (toLowerCase t)) = false).
    { destruct (includes EmptyString (trim (toLowerCase t))) eqn:Ei;
        [|reflexivity].
      apply includes_empty_l in Ei. rewrite trim_toLowerCase in Ei.
      apply (proj1 (toLowerCase_empty _)) in Ei. contradiction. }
    rewrite Hf. cbn [orb]. reflexivity.
Qed.

Lemma X21_witness :
  let p := Sample.singleProps None None None in
  let o : Obj := {[ "id" := JNum 42 ]} in
  (SingleView.itemText p o = "undefined" \/ SingleView.itemText p o = "null")
  /\ (In o (Single.filteredOptions p "und")
      <-> In o (Single.options p)
          /\ includes (toLowerCase (keyText p o)) (trim (toLowerCase "und"))
             = true).
Proof.
  cbv zeta.
  apply (X21_unlabelled_option_found_by_key
           (Sample.singleProps None None None) "und" {[ "id" := JNum 42 ]}).
  - reflexivity.
  - vm_compute. discriminate.
  - left. vm_compute. reflexivity.
Defined.

(** ** What only a selection event does *)

Local Abbreviation noValueReport :=
  (Forall (fun c => isValueReport c = false)).

Lemma handleScroll_noValueReport (cl : Closure) (ref : option bool)
    (e : Elem) : noValueReport (handleScroll cl ref e).
Proof.
  destruct (handleScroll_guard cl ref e) as [(-> & _)| ->];
    repeat constructor.
Qed.

Lemma multi_commit_noValueReport (x : Multi.State) :
  Multi.selectedOptions (Multi.commit x) = Multi.selectedOptions x
  /\ exists cs, Multi.log (Multi.commit x) = Multi.log x ++ cs
                /\ noValueReport cs.
Proof.
  destruct (multi_commit_fields x) as ((_ & So & _) & _ & _ & _ & _ & Log).
  cbv zeta in So, Log. split; [exact So|].
  eexists. split; [exact Log|].
  destruct (Multi.searchDepsChanged _ _),
    (Multi.onSearchChange (Multi.props x)); repeat constructor.
Qed.

Lemma multi_fold_wheel_noValueReport (d : Z) (ls : list Listener) :
  forall s : Multi.State,
  exists cs,
    Multi.log (fold_left (fun s l => Multi.handleWheel (l_env l) d s) ls s)
    = Multi.log s ++ cs
    /\ noValueReport cs.
Proof.
  induction ls as [|l ls IH]; intros s; cbn [fold_left].
  - exists []. split; [now rewrite app_nil_r|constructor].
  - destruct (IH (Multi.handleWheel (l_env l) d s)) as (cs & H & Hcs).
    destruct (multi_handleWheel_frame (l_env l) d s)
      as (_ & _ & cs' & G & Hcs').
    exists (cs' ++ cs). split; [now rewrite H, G, app_assoc|].
    apply Forall_app. split; [|exact Hcs].
    apply List.Forall_forall. intros c Hc. now rewrite (Hcs' c Hc).
Qed.

Lemma multi_onOpenChange_noValueReport (o : bool) (x : Multi.State) :
  Multi.selectedOptions (Multi.onOpenChange o x) = Multi.selectedOptions x
  /\ exists cs, Multi.log (Multi.onOpenChange o x) = Multi.log x ++ cs
                /\ noValueReport cs.
Proof.
  unfold Multi.onOpenChange. cbn.
  destruct o, (Multi.onSearchChange (Multi.props x)); cbn;
    (split; [reflexivity|]).
  all: try (exists []; split; [now rewrite app_nil_r|constructor]).
  eexists. split; [reflexivity|repeat constructor].
Qed.

Lemma multi_commit_after_noValueReport (s x : Multi.State) :
  (Multi.selectedOptions x = Multi.selectedOptions s
   /\ exists cs, Multi.log x = Multi.log s ++ cs /\ noValueReport cs) ->
  Multi.selectedOptions (Multi.commit x) = Multi.selectedOptions s
  /\ exists cs, Multi.log (Multi.commit x) = Multi.log s ++ cs
                /\ noValueReport cs.
Proof.
  intros (Hx & cs0 & Hl & Hn).
  destruct (multi_commit_noValueReport x) as (So & cs & Log & Hcs).
  split; [now rewrite So|].
  exists (cs0 ++ cs). split; [now rewrite Log, Hl, app_assoc|].
  apply Forall_app. now split.
Qed.

Lemma multi_idle_noValueReport (s : Multi.State) :
  Multi.selectedOptions s = Multi.selectedOptions s
  /\ exists cs, Multi.log s = Multi.log s ++ cs /\ noValueReport cs.
Proof.
  split; [reflexivity|]. exists [].
  split; [now rewrite app_nil_r|constructor].
Qed.

Lemma multi_step_noValueReport (s : Multi.State) (ev : Multi.Event) :
  (forall op, ev <> Multi.EvSelection op) ->
  Multi.selectedOptions (Multi.step s ev) = Multi.selectedOptions s
  /\ exists cs, Multi.log (Multi.step s ev) = Multi.log s ++ cs
                /\ noValueReport cs.
Proof.
  intros Hev.
  pose proof (multi_idle_noValueReport s) as Hs.
  unfold Multi.step. destruct (Multi.mounted s); cbn [negb]; [|exact Hs].
  destruct ev as [p|o| |t|op| | |g|d|].
  - apply multi_commit_after_noValueReport. exact Hs.
  - apply multi_commit_after_noValueReport.
    apply multi_onOpenChange_noValueReport.
  - apply multi_commit_after_noValueReport.
    exact (multi_onOpenChange_noValueReport
             (negb (Multi.isPopoverOpen s)) (Multi.onClick s)).
  - destruct (Multi.onSearchChange (Multi.props s)); [|exact Hs].
    destruct (Multi.isPopoverOpen s); [|exact Hs].
    apply multi_commit_after_noValueReport. exact Hs.
  - now destruct (Hev op).
  - destruct (multi_fireSetupTimer_frame s) as (Core & Log & _).
    unfold multiCore in Core. injection Core as _ E _ _ _ _ _ _ _.
    split; [exact E|]. exists []. split; [now rewrite app_nil_r|constructor].
  - apply multi_commit_after_noValueReport.
    unfold Multi.fireDebounce.
    destruct (Multi.debounceTimer s); exact Hs.
  - destruct (Multi.scrollRef s) as [c|] eqn:Hsr; [|exact Hs].
    rewrite (multi_dispatchScroll_eq _ c) by exact Hsr.
    split; [reflexivity|]. eexists. split; [reflexivity|].
    apply List.Forall_forall. intros x Hx.
    apply in_flat_map in Hx as (l & _ & Hx).
    pose proof (handleScroll_noValueReport (l_env l)
                  (Multi.isFetchingNextPageRef (Multi.set_geometry g s))
                  (Multi.geometry (Multi.set_geometry g s))) as Hn.
    rewrite List.Forall_forall in Hn. now apply Hn.
  - destruct (multi_dispatchWheel_frame d s) as (Core & _ & _).
    unfold multiCore in Core. injection Core as _ E _ _ _ _ _ _ _.
    split; [exact E|].
    unfold Multi.dispatchWheel. destruct (Multi.scrollRef s) as [c|].
    + apply multi_fold_wheel_noValueReport.
    + exists []. split; [now rewrite app_nil_r|constructor].
  - exact Hs.
Qed.

(** X22. In MultiSelect only a selection event (an option, select-all,
    clear, trim) changes the selection or calls [onValueChange] or
    [setAlternativeValue]: opening, closing, typing, new props, timers,
    scrolling, wheel events and unmounting leave the selection as it is and
    call neither, in every state. *)
Theorem X22_only_selection_events_report (s : Multi.State)
    (ev : Multi.Event) :
  (forall op, ev <> Multi.EvSelection op) ->
  Multi.selectedOptions (Multi.step s ev) = Multi.selectedOptions s
  /\ List.filter isValueReport (Multi.newCalls s (Multi.step s ev)) = [].
Proof.
  intros Hev.
  destruct (multi_step_noValueReport s ev Hev) as (So & cs & Log & Hcs).
  split; [exact So|].
  rewrite (newCalls_app_multi _ _ _ Log). clear Log.
  induction Hcs as [|c cs Hc _ IH]; [reflexivity|].
  cbn [List.filter]. rewrite Hc. exact IH.
Qed.

Lemma X22_witness :
  let s := Multi.run (Multi.init (Sample.multiProps [Sample.apple] None None))
             [Multi.EvOpenChange true; Multi.EvSetupTimer] in
  let ev := Multi.EvScroll Sample.nearBottom in
  Multi.selectedOptions (Multi.step s ev) = Multi.selectedOptions s
  /\ List.filter isValueReport (Multi.newCalls s (Multi.step s ev)) = [].
Proof.
  cbv zeta.
  apply (X22_only_selection_events_report
           (Multi.run (Multi.init (Sample.multiProps [Sample.apple] None None))
              [Multi.EvOpenChange true; Multi.EvSetupTimer])
           (Multi.EvScroll Sample.nearBottom)).
  intros op. discriminate.
Defined.

(** *** SingleSelect: what only an item activation does *)

Lemma noValueReport_nil_log (l : list Call) :
  exists cs, l = l ++ cs /\ noValueReport cs.
Proof. exists []. split; [now rewrite app_nil_r|constructor]. Qed.

Lemma single_commit_after_noValueReport (s x : Single.State) :
  (exists cs, Single.log x = Single.log s ++ cs /\ noValueReport cs) ->
  exists cs, Single.log (Single.commit x) = Single.log s ++ cs
             /\ noValueReport cs.
Proof.
  intros (cs0 & Hl & Hn).
  destruct (single_commit_fields x) as (_ & _ & _ & _ & _ & Log).
  cbv zeta in Log.
  eexists. split; [rewrite Log, Hl, <- app_assoc; reflexivity|].
  apply Forall_app. split; [exact Hn|].
  destruct (Single.searchDepsChanged _ _),
    (Single.onSearchChange (Single.props x)), (Single.isOpen x);
    repeat constructor.
Qed.

Lemma single_handleWheel_noValueReport (cl : Closure) (d : Z)
    (s : Single.State) :
  exists cs, Single.log (Single.handleWheel cl d s) = Single.log s ++ cs
             /\ noValueReport cs.
Proof.
  unfold Single.handleWheel. cbv zeta.
  destruct (_ || _); [apply noValueReport_nil_log|].
  destruct (negb (truthy (c_isLoading cl))); [|apply noValueReport_nil_log].
  eexists. split; [reflexivity|apply handleScroll_noValueReport].
Qed.

Lemma single_fold_wheel_noValueReport (d : Z) (ls : list Listener) :
  forall s : Single.State,
  exists cs,
    Single.log (fold_left (fun s l => Single.handleWheel (l_env l) d s) ls s)
    = Single.log s ++ cs
    /\ noValueReport cs.
Proof.
  induction ls as [|l ls IH]; intros s; cbn [fold_left].
  - apply noValueReport_nil_log.
  - destruct (IH (Single.handleWheel (l_env l) d s)) as (cs & H & Hcs).
    destruct (single_handleWheel_noValueReport (l_env l) d s)
      as (cs' & G & Hcs').
    exists (cs' ++ cs). split; [now rewrite H, G, app_assoc|].
    apply Forall_app. now split.
Qed.

Lemma single_step_noValueReport (s : Single.State) (ev : Single.Event) :
  (forall i, ev <> Single.EvSelect i) ->
  exists cs, Single.log (Single.step s ev) = Single.log s ++ cs
             /\ noValueReport cs.
Proof.
  intros Hev.
  pose proof (noValueReport_nil_log (Single.log s)) as Hs.
  unfold Single.step. destruct (Single.mounted s); cbn [negb]; [|exact Hs].
  destruct ev as [p|o|t|i| | |g|d|].
  - apply single_commit_after_noValueReport. exact Hs.
  - apply single_commit_after_noValueReport. exact Hs.
  - destruct (Single.isOpen s); [|exact Hs].
    apply single_commit_after_noValueReport. exact Hs.
  - now destruct (Hev i).
  - destruct (single_fireSetupTimer_frame s) as (_ & Log & _).
    rewrite Log. exact Hs.
  - apply single_commit_after_noValueReport.
    unfold Single.fireDebounce.
    destruct (Single.debounceTimer s); exact Hs.
  - destruct (Single.scrollRef s) as [c|] eqn:Hsr; [|exact Hs].
    rewrite (single_dispatchScroll_eq _ c) by exact Hsr.
    eexists. split; [reflexivity|].
    apply List.Forall_forall. intros x Hx.
    apply in_flat_map in Hx as (l & _ & Hx).
    pose proof (handleScroll_noValueReport (l_env l)
                  (Single.isFetchingNextPageRef (Single.set_geometry g s))
                  (Single.geometry (Single.set_geometry g s))) as Hn.
    rewrite List.Forall_forall in Hn. now apply Hn.
  - unfold Single.dispatchWheel. destruct (Single.scrollRef s) as [c|].
    + apply single_fold_wheel_noValueReport.
    + exact Hs.
  - exact Hs.
Qed.

(** X23. SingleSelect calls [onValueChange] only when an item is
    activated: opening, closing, typing, new props, timers, scrolling,
    wheel events and unmounting never call it, in every state. *)
Theorem X23_single_reports_only_on_select (s : Single.State)
    (ev : Single.Event) :
  (forall i, ev <> Single.EvSelect i) ->
  List.filter isValueReport (Single.newCalls s (Single.step s ev)) = [].
Proof.
  intros Hev.
  destruct (single_step_noValueReport s ev Hev) as (cs & Log & Hcs).
  rewrite (newCalls_app_single _ _ _ Log). clear Log.
  induction Hcs as [|c cs Hc _ IH]; [reflexivity|].
  cbn [List.filter]. rewrite Hc. exact IH.
Qed.

Lemma X23_witness :
  let s := Single.run (Single.init (Sample.singleProps (Some 2%nat) None None))
             [Single.EvOpenChange true; Single.EvSetupTimer] in
  let ev := Single.EvOpenChange false in
  List.filter isValueReport (Single.newCalls s (Single.step s ev)) = [].
Proof.
  cbv zeta.
  apply (X23_single_reports_only_on_select
           (Single.run
              (Single.init (Sample.singleProps (Some 2%nat) None None))
              [Single.EvOpenChange true; Single.EvSetupTimer])
           (Single.EvOpenChange false)).
  intros i. discriminate.
Defined.
